(** * KATS risk and order core: a shallow embedding and its properties

    The development follows the Python modules of the trading system one
    module at a time:

    - [kats/config/constants.py] (grades),
      [kats/strategy/base_strategy.py] (regimes) -> [Module Enums]
    - [kats/risk/daily_kill_switch.py]     -> [Module KillSwitch]
    - [kats/risk/drawdown_protocol.py]     -> [Module Drawdown]
    - [kats/risk/position_sizer.py]        -> [Module Sizer], [Module Sizer64]
    - [kats/risk/margin_guard.py]          -> [Module Margin], [Module Margin64]
    - [kats/risk/global_position_lock.py]  -> [Module PositionLock],
                                              [Module PositionLock64]
    - [kats/order/pyramid_manager.py]      -> [Module Pyramid],
                                              [Module Pyramid64]
    - [kats/order/paper_trading.py]        -> [Module Paper64]
    - [kats/order/order_state_machine.py]  -> [Module OrderSM]
    - [kats/risk/grade_allocator.py]       -> [Module GradeAlloc]
    - [kats/risk/risk_manager.py]          -> [Module RiskManager]

    Numbers.  Python [int] is [Z].  Python [float] is an IEEE-754
    binary64 number, and the file reads it in two ways.

    - The binary64 reading: [Module F64] and the modules whose name ends
      in [64].  A float is a primitive double of the standard library's
      [Floats]; every operation rounds to nearest as the interpreter's
      does, a decimal literal is the double nearest to it, and [int()],
      [round()], the conversion of an [int] and the division of two
      [int]s are written out, together with what they raise.  Whatever
      is stated about a number the code computes with floats (a
      quantity, a fee, a price, a sum tested against a cap) is stated in
      this reading.

    - The exact reading: the other modules.  A float is the rational it
      denotes, carried in [Qc] (canonical rationals, so that equal
      amounts are equal terms and can live inside finite maps), and an
      operation returns the exact result.  This reading does not follow
      the rounding of the doubles; it is used for what does not depend
      on it: which way a comparison of given numbers goes, which guard
      fires first, which dictionary entries a call adds, keeps or
      drops, and integer bookkeeping. *)

From Stdlib Require Import ZArith QArith Qcanon Qround Lqa Lia.
From Stdlib Require Floats.
From stdpp Require Import base numbers option list strings gmap fin_maps pretty.

Local Open Scope Z_scope.

(** ** Numbers shared by all modules *)

Module Num.

(** A decimal constant [n/d]. *)
Definition dec (n : Z) (d : positive) : Qc := Q2Qc (n # d).

(** An [int] used where a [float] is expected. *)
Definition of_Z (n : Z) : Qc := Qc_of_Z n.

(** Python [int(x)] on a float: truncation toward zero. *)
Definition py_int (x : Qc) : Z := Z.quot (Qnum (this x)) (Zpos (Qden (this x))).

(** [math.floor]. *)
Definition floor (x : Qc) : Z := Qfloor (this x).

(** Python [round(x, ndigits)]: the nearest multiple of [10^-ndigits],
    a tie going to the even neighbour. *)
Definition round_half_even (x : Qc) : Z :=
  let f := floor x in
  let r := (x - of_Z f)%Qc in
  if decide (r < dec 1 2)%Qc then f
  else if decide (dec 1 2 < r)%Qc then f + 1
  else if Z.even f then f else f + 1.

Definition py_round (x : Qc) (ndigits : nat) : Qc :=
  let scale := of_Z (10 ^ Z.of_nat ndigits) in
  (of_Z (round_half_even (x * scale)) / scale)%Qc.

Definition qmin (x y : Qc) : Qc := if decide (y < x)%Qc then y else x.
Definition qmax (x y : Qc) : Qc := if decide (x < y)%Qc then y else x.
Definition qabs (x : Qc) : Qc := if decide (x < 0)%Qc then (- x)%Qc else x.

End Num.

(** ** Wall-clock time: [datetime] in a fixed zone *)

Module PyTime.

Record datetime := mkDatetime {
  year : Z; month : Z; day : Z;
  hour : Z; minute : Z; second : Z; microsecond : Z
}.

Definition is_leap (y : Z) : bool :=
  ((y mod 4 =? 0) && negb (y mod 100 =? 0)) || (y mod 400 =? 0).

Definition days_in_month (y m : Z) : Z :=
  if m =? 2 then (if is_leap y then 29 else 28)
  else if (m =? 4) || (m =? 6) || (m =? 9) || (m =? 11) then 30
  else 31.

(** [dt + timedelta(days=1)]. *)
Definition add_day (dt : datetime) : datetime :=
  if day dt <? days_in_month (year dt) (month dt) then
    mkDatetime (year dt) (month dt) (day dt + 1)
               (hour dt) (minute dt) (second dt) (microsecond dt)
  else if month dt <? 12 then
    mkDatetime (year dt) (month dt + 1) 1
               (hour dt) (minute dt) (second dt) (microsecond dt)
  else
    mkDatetime (year dt + 1) 1 1
               (hour dt) (minute dt) (second dt) (microsecond dt).

(** [dt + timedelta(days=n)]. *)
Fixpoint add_days (n : nat) (dt : datetime) : datetime :=
  match n with
  | O => dt
  | S k => add_days k (add_day dt)
  end.

(** [dt.replace(hour=h, minute=mi, second=0, microsecond=0)]. *)
Definition replace_time (dt : datetime) (h mi : Z) : datetime :=
  mkDatetime (year dt) (month dt) (day dt) h mi 0 0.

(** Microseconds since midnight. *)
Definition time_of_day (dt : datetime) : Z :=
  ((hour dt * 60 + minute dt) * 60 + second dt) * 1000000 + microsecond dt.

(** Ordering of two datetimes of the same zone: lexicographic on the
    calendar fields. *)
Definition date_key (dt : datetime) : Z :=
  (year dt * 16 + month dt) * 32 + day dt.

Definition ltb (a b : datetime) : bool :=
  (date_key a <? date_key b)
  || ((date_key a =? date_key b) && (time_of_day a <? time_of_day b)).

Definition leb (a b : datetime) : bool := negb (ltb b a).

End PyTime.

(** ** [kats/risk/daily_kill_switch.py] *)

Module KillSwitch.
Import Num.

(** The text of [_kill_reason] is an f-string over these three values. *)
Record reason := mkReason {
  loss_pct : Qc;        (* abs(daily_pnl_pct) * 100 *)
  limit_pct : Qc;       (* daily_loss_limit_pct * 100 *)
  lost : Z              (* abs(daily_pnl) *)
}.

(** The fields of [DailyKillSwitch] together with the number of
    [_emergency_shutdown] coroutines that [asyncio.ensure_future] has put
    on the event loop and that have not started yet. *)
Record t := mk {
  daily_loss_limit_pct : Qc;
  starting_capital : Z;
  is_killed : bool;
  kill_date : option (Z * Z * Z);
  kill_reason : option reason;          (* [None] is the empty string *)
  kill_timestamp : option PyTime.datetime;
  scheduled : nat
}.

(** [DailyKillSwitch(daily_loss_limit_pct, starting_capital)]. *)
Definition init (limit : Qc) (capital : Z) : t :=
  mk limit capital false None None None 0.

Definition daily_pnl_pct (s : t) (current_capital : Z) : Qc :=
  (of_Z (current_capital - starting_capital s) / of_Z (starting_capital s))%Qc.

(** [check(current_capital)]: the returned flag and the state after the
    call. *)
Definition check (s : t) (current_capital : Z) : bool * t :=
  if is_killed s then (false, s)
  else if decide (starting_capital s <= 0) then (true, s)
  else
    let daily_pnl := current_capital - starting_capital s in
    let pct := daily_pnl_pct s current_capital in
    if decide (pct ≤ - daily_loss_limit_pct s)%Qc then
      (false,
       mk (daily_loss_limit_pct s) (starting_capital s) (is_killed s)
          (kill_date s)
          (Some (mkReason (qabs pct * of_Z 100)
                          (daily_loss_limit_pct s * of_Z 100)
                          (Z.abs daily_pnl)))
          (kill_timestamp s)
          (S (scheduled s)))
    else (true, s).

(** The event loop starts one scheduled [_emergency_shutdown] at time
    [now]; the flag, the date and the timestamp are written before the
    coroutine first awaits. *)
Definition emergency_shutdown (s : t) (now : PyTime.datetime) : t :=
  mk (daily_loss_limit_pct s) (starting_capital s) true
     (Some (PyTime.year now, PyTime.month now, PyTime.day now))
     (kill_reason s) (Some now) (Nat.pred (scheduled s)).

(** [reset_daily(new_starting_capital)]. *)
Definition reset_daily (s : t) (new_starting_capital : Z) : t :=
  mk (daily_loss_limit_pct s) new_starting_capital false None None None
     (scheduled s).

(** [set_starting_capital(capital)]. *)
Definition set_starting_capital (s : t) (capital : Z) : t :=
  mk (daily_loss_limit_pct s) capital (is_killed s) (kill_date s)
     (kill_reason s) (kill_timestamp s) (scheduled s).

(** What can happen to a switch between two resets. *)
Inductive action :=
| CallCheck (current_capital : Z)
| RunShutdown (now : PyTime.datetime)
| CallSetCapital (capital : Z).

(** Runs the actions in order and collects the flags the [check] calls
    returned. *)
Fixpoint run (s : t) (acts : list action) : list bool * t :=
  match acts with
  | [] => ([], s)
  | CallCheck c :: rest =>
      let '(b, s') := check s c in
      let '(bs, s'') := run s' rest in (b :: bs, s'')
  | RunShutdown now :: rest => run (emergency_shutdown s now) rest
  | CallSetCapital c :: rest => run (set_starting_capital s c) rest
  end.

End KillSwitch.

(** ** [kats/risk/drawdown_protocol.py] *)

Module Drawdown.
Import Num.

Inductive DrawdownLevel := NONE | GREEN | YELLOW | ORANGE | RED | BLACK.

Definition _DAILY_GREEN_THRESHOLD : Qc := dec 2 100.
Definition _DAILY_YELLOW_LOW : Qc := dec 3 100.
Definition _MONTHLY_ORANGE_THRESHOLD : Qc := dec 6 100.
Definition _CUMULATIVE_RED_THRESHOLD : Qc := dec 10 100.
Definition _CUMULATIVE_BLACK_THRESHOLD : Qc := dec 15 100.

Definition RED_RECOVERY_PAPER_WINS : Z := 5.
Definition RED_HALT_DAYS : nat := 7.

(** [halt_reason] is an f-string over the level and the loss that
    triggered it; the empty string is [None]. *)
Record DrawdownState := mkState {
  level : DrawdownLevel;
  position_scale : Qc;
  trading_halted : bool;
  halt_reason : option (DrawdownLevel * Qc);
  halt_until : option PyTime.datetime;
  paper_mode_forced : bool;
  consecutive_paper_wins : Z;
  strategy_review_required : bool;
  last_evaluated : option PyTime.datetime
}.

(** [DrawdownState()]. *)
Definition initial : DrawdownState :=
  mkState NONE 1 false None None false 0 false None.

(** [_classify]. *)
Definition _classify (daily_pnl_pct monthly_pnl_pct cumulative_pnl_pct : Qc)
  : DrawdownLevel :=
  if decide (cumulative_pnl_pct ≤ - _CUMULATIVE_BLACK_THRESHOLD)%Qc then BLACK
  else if decide (cumulative_pnl_pct ≤ - _CUMULATIVE_RED_THRESHOLD)%Qc then RED
  else if decide (monthly_pnl_pct ≤ - _MONTHLY_ORANGE_THRESHOLD)%Qc then ORANGE
  else if decide (daily_pnl_pct ≤ - _DAILY_YELLOW_LOW)%Qc then YELLOW
  else if decide (daily_pnl_pct ≤ - _DAILY_GREEN_THRESHOLD)%Qc then GREEN
  else NONE.

(** [_severity]. *)
Definition _severity (l : DrawdownLevel) : Z :=
  match l with
  | NONE => 0 | GREEN => 1 | YELLOW => 2 | ORANGE => 3 | RED => 4 | BLACK => 5
  end.

(** The end of day computed in the YELLOW branch of [_escalate]. *)
Definition yellow_halt_until (now : PyTime.datetime) : PyTime.datetime :=
  let eod := PyTime.replace_time now 16 30 in
  if PyTime.leb eod now then PyTime.add_day eod else eod.

(** The first day of the next month, 09:00, of the ORANGE branch. *)
Definition orange_halt_until (now : PyTime.datetime) : PyTime.datetime :=
  if PyTime.month now =? 12 then
    PyTime.mkDatetime (PyTime.year now + 1) 1 1 9 0 0 0
  else
    PyTime.mkDatetime (PyTime.year now) (PyTime.month now + 1) 1 9 0 0 0.

(** [_escalate(level, daily, monthly, cumulative, now)]. *)
Definition _escalate (s : DrawdownState) (lv : DrawdownLevel)
    (daily_pnl_pct monthly_pnl_pct cumulative_pnl_pct : Qc)
    (now : PyTime.datetime) : DrawdownState :=
  match lv with
  | NONE =>
      mkState NONE (position_scale s) (trading_halted s) (halt_reason s)
              (halt_until s) (paper_mode_forced s) (consecutive_paper_wins s)
              (strategy_review_required s) (last_evaluated s)
  | GREEN =>
      mkState GREEN (dec 5 10) false (Some (GREEN, daily_pnl_pct))
              (halt_until s) (paper_mode_forced s) (consecutive_paper_wins s)
              (strategy_review_required s) (last_evaluated s)
  | YELLOW =>
      mkState YELLOW 0 true (Some (YELLOW, daily_pnl_pct))
              (Some (yellow_halt_until now))
              (paper_mode_forced s) (consecutive_paper_wins s)
              (strategy_review_required s) (last_evaluated s)
  | ORANGE =>
      mkState ORANGE 0 true (Some (ORANGE, monthly_pnl_pct))
              (Some (orange_halt_until now))
              (paper_mode_forced s) (consecutive_paper_wins s)
              (strategy_review_required s) (last_evaluated s)
  | RED =>
      mkState RED 0 true (Some (RED, cumulative_pnl_pct))
              (Some (PyTime.add_days RED_HALT_DAYS now))
              true 0 (strategy_review_required s) (last_evaluated s)
  | BLACK =>
      mkState BLACK 0 true (Some (BLACK, cumulative_pnl_pct))
              None true (consecutive_paper_wins s) true (last_evaluated s)
  end.

(** The dictionary built by [_build_response]; [halt_until] is the
    datetime whose ISO text the dictionary carries. *)
Record response := mkResponse {
  r_level : DrawdownLevel;
  r_position_scale : Qc;
  r_trading_halted : bool;
  r_halt_reason : option (DrawdownLevel * Qc);
  r_halt_until : option PyTime.datetime;
  r_paper_mode_forced : bool;
  r_strategy_review_required : bool;
  r_consecutive_paper_wins : Z;
  r_daily_pnl_pct : Qc;
  r_monthly_pnl_pct : Qc;
  r_cumulative_pnl_pct : Qc
}.

Definition _build_response (s : DrawdownState)
    (daily_pnl_pct monthly_pnl_pct cumulative_pnl_pct : Qc) : response :=
  mkResponse (level s) (position_scale s) (trading_halted s) (halt_reason s)
             (halt_until s) (paper_mode_forced s)
             (strategy_review_required s) (consecutive_paper_wins s)
             (py_round daily_pnl_pct 6) (py_round monthly_pnl_pct 6)
             (py_round cumulative_pnl_pct 6).

(** A timed halt is still running at [now]. *)
Definition halt_active (s : DrawdownState) (now : PyTime.datetime) : bool :=
  match halt_until s with
  | Some u => PyTime.ltb now u
  | None => false
  end.

(** [evaluate_and_respond]; [now] is the value of [datetime.now(tz=KST)]
    read at the start of the call. *)
Definition evaluate_and_respond (s : DrawdownState) (now : PyTime.datetime)
    (daily_pnl_pct monthly_pnl_pct cumulative_pnl_pct : Qc)
  : response * DrawdownState :=
  let s1 := mkState (level s) (position_scale s) (trading_halted s)
                    (halt_reason s) (halt_until s) (paper_mode_forced s)
                    (consecutive_paper_wins s) (strategy_review_required s)
                    (Some now) in
  if halt_active s1 now then
    (_build_response s1 daily_pnl_pct monthly_pnl_pct cumulative_pnl_pct, s1)
  else
    let new_level := _classify daily_pnl_pct monthly_pnl_pct cumulative_pnl_pct in
    let s2 :=
      if _severity (level s1) <? _severity new_level then
        _escalate s1 new_level daily_pnl_pct monthly_pnl_pct
                  cumulative_pnl_pct now
      else s1 in
    (_build_response s2 daily_pnl_pct monthly_pnl_pct cumulative_pnl_pct, s2).

#[global] Instance DrawdownLevel_eq_dec : EqDecision DrawdownLevel.
Proof. solve_decision. Defined.

(** [_reset_to_none]. *)
Definition _reset_to_none (s : DrawdownState) : DrawdownState :=
  mkState NONE 1 false None None false 0 false (last_evaluated s).

(** [record_paper_trade_result(win)]: the returned flag and the state
    after the call. *)
Definition record_paper_trade_result (s : DrawdownState) (win : bool)
  : bool * DrawdownState :=
  if decide (level s = RED) then
    let wins := if win then consecutive_paper_wins s + 1 else 0 in
    let s1 := mkState (level s) (position_scale s) (trading_halted s)
                      (halt_reason s) (halt_until s) (paper_mode_forced s)
                      wins (strategy_review_required s) (last_evaluated s) in
    if decide (wins >= RED_RECOVERY_PAPER_WINS) then (true, _reset_to_none s1)
    else (false, s1)
  else (false, s).

(** [force_resume(reason)]. *)
Definition force_resume (s : DrawdownState) : DrawdownState :=
  _reset_to_none s.

(** [reset_daily()]. *)
Definition reset_daily (s : DrawdownState) : DrawdownState :=
  if decide (level s = GREEN \/ level s = YELLOW) then _reset_to_none s
  else s.

(** [reset_monthly()]. *)
Definition reset_monthly (s : DrawdownState) : DrawdownState :=
  if decide (level s = ORANGE) then _reset_to_none s else s.

(** The calls made on a protocol. *)
Inductive call :=
| Evaluate (now : PyTime.datetime) (daily monthly cumulative : Qc)
| PaperResult (win : bool)
| ForceResume
| ResetDaily
| ResetMonthly.

Definition step (s : DrawdownState) (c : call) : DrawdownState :=
  match c with
  | Evaluate now d m cu => (evaluate_and_respond s now d m cu).2
  | PaperResult win => (record_paper_trade_result s win).2
  | ForceResume => force_resume s
  | ResetDaily => reset_daily s
  | ResetMonthly => reset_monthly s
  end.

(** The protocol after a sequence of calls, first call first. *)
Definition run (s : DrawdownState) (calls : list call) : DrawdownState :=
  foldl step s calls.

(** What every level implies for the other fields. *)
Definition consistent (s : DrawdownState) : Prop :=
  match level s with
  | NONE =>
      position_scale s = 1%Qc /\ trading_halted s = false /\
      halt_until s = None /\ paper_mode_forced s = false /\
      strategy_review_required s = false
  | GREEN =>
      position_scale s = dec 5 10 /\ trading_halted s = false /\
      halt_until s = None /\ paper_mode_forced s = false /\
      strategy_review_required s = false
  | YELLOW | ORANGE =>
      position_scale s = 0%Qc /\ trading_halted s = true /\
      is_Some (halt_until s) /\ paper_mode_forced s = false /\
      strategy_review_required s = false
  | RED =>
      position_scale s = 0%Qc /\ trading_halted s = true /\
      is_Some (halt_until s) /\ paper_mode_forced s = true /\
      strategy_review_required s = false
  | BLACK =>
      position_scale s = 0%Qc /\ trading_halted s = true /\
      halt_until s = None /\ paper_mode_forced s = true /\
      strategy_review_required s = true
  end.

(** A series of paper-trade results recorded one after the other: the
    flags returned and the state at the end. *)
Fixpoint record_all (s : DrawdownState) (results : list bool)
  : list bool * DrawdownState :=
  match results with
  | [] => ([], s)
  | w :: rest =>
      let '(b, s1) := record_paper_trade_result s w in
      let '(bs, s2) := record_all s1 rest in (b :: bs, s2)
  end.

End Drawdown.

(** ** [kats/config/constants.py], [kats/strategy/base_strategy.py]: the
    two enumerations the risk modules share *)

Module Enums.

Inductive StockGrade := A | B | C | D.

Inductive MarketRegime := STRONG_BULL | BULL | SIDEWAYS | BEAR | STRONG_BEAR.

#[global] Instance StockGrade_eq_dec : EqDecision StockGrade.
Proof. solve_decision. Defined.

#[global] Instance MarketRegime_eq_dec : EqDecision MarketRegime.
Proof. solve_decision. Defined.

(** [StockGrade.X.value]. *)
Definition grade_value (g : StockGrade) : string :=
  match g with A => "A" | B => "B" | C => "C" | D => "D" end.

End Enums.

(** ** [kats/risk/position_sizer.py] *)

Module Sizer.
Import Num Enums.

(** [RISK_BY_REGIME]. *)
Definition RISK_BY_REGIME (r : MarketRegime) : Qc :=
  match r with
  | STRONG_BULL => dec 2 100
  | BULL => dec 18 1000
  | SIDEWAYS => dec 12 1000
  | BEAR => dec 8 1000
  | STRONG_BEAR => dec 5 1000
  end.

(** [GRADE_LIMIT]: grade D has no entry. *)
Definition GRADE_LIMIT (g : StockGrade) : option Qc :=
  match g with
  | A => Some (dec 30 100)
  | B => Some (dec 20 100)
  | C => Some (dec 10 100)
  | D => None
  end.

(** [CONFIDENCE_MULTIPLIER]. *)
Definition CONFIDENCE_MULTIPLIER (c : Z) : option Qc :=
  if c =? 5 then Some (dec 100 100)
  else if c =? 4 then Some (dec 75 100)
  else if c =? 3 then Some (dec 50 100)
  else None.

Definition DEFAULT_R_TARGET : Qc := of_Z 3.

(** The dictionary returned by [calculate]; a rejection also carries its
    reason. *)
Record result := mkResult {
  accepted : bool;
  reason : option string;
  position_amount : Z;
  position_pct : Qc;
  quantity : Z;
  risk_amount_1r : Z;
  stop_loss_pct : Qc;
  r_multiple_target : Qc;
  regime_risk_pct : Qc;
  grade_limit_pct : Qc;
  confidence_multiplier : Qc
}.

(** [_rejection(reason)]. *)
Definition _rejection (why : string) : result :=
  mkResult false (Some why) 0 0 0 0 0 0 0 0 0.

(** [PositionSizer().calculate(...)], the sizer built with its default
    tables.  [None] is the [ZeroDivisionError] of the stop distance when
    [entry_price] is zero. *)
Definition calculate (total_capital : Z) (regime : MarketRegime)
    (entry_price stop_loss : Z) (grade : StockGrade) (confidence : Z)
  : option result :=
  if decide (confidence <= 2) then Some (_rejection "confidence_too_low")
  else if decide (stop_loss >= entry_price) then
    Some (_rejection "stop_loss_above_entry")
  else if decide (grade = D) then Some (_rejection "grade_d_prohibited")
  else if decide (entry_price = 0) then None
  else
    let regime_risk_pct := RISK_BY_REGIME regime in
    let stop_loss_pct := (of_Z (entry_price - stop_loss) / of_Z entry_price)%Qc in
    let conf_mult := default (dec 50 100) (CONFIDENCE_MULTIPLIER confidence) in
    let grade_limit_pct := default (dec 10 100) (GRADE_LIMIT grade) in
    let raw_amount :=
      (of_Z total_capital * regime_risk_pct * conf_mult / stop_loss_pct)%Qc in
    let grade_cap_amount := (of_Z total_capital * grade_limit_pct)%Qc in
    let position_amount0 := py_int (qmin raw_amount grade_cap_amount) in
    let position_amount1 := Z.max position_amount0 0 in
    let quantity :=
      if decide (entry_price > 0) then position_amount1 / entry_price else 0 in
    let position_amount := quantity * entry_price in
    let position_pct :=
      if decide (total_capital > 0)
      then (of_Z position_amount / of_Z total_capital)%Qc else 0%Qc in
    let risk_amount_1r := quantity * (entry_price - stop_loss) in
    Some (mkResult true None position_amount (py_round position_pct 6)
                   quantity risk_amount_1r (py_round stop_loss_pct 6)
                   DEFAULT_R_TARGET (py_round regime_risk_pct 6)
                   (py_round grade_limit_pct 6) conf_mult).

End Sizer.

(** ** [kats/risk/margin_guard.py] *)

Module Margin.
Import Num.

Definition COMMISSION_RATE : Qc := dec 15 100000.
Definition TAX_RATE : Qc := dec 18 10000.
Definition _TOTAL_FEE_RATE : Qc := (COMMISSION_RATE * of_Z 2 + TAX_RATE)%Qc.
Definition _BALANCE_CACHE_TTL_SEC : Qc := of_Z 5.

(** [_pending_reservations] is a dictionary read in insertion order
    ([release_reservation] drops the oldest entry): an association list
    with distinct keys, oldest first. *)
Fixpoint dict_set (k : string) (v : Z) (d : list (string * Z))
  : list (string * Z) :=
  match d with
  | [] => [(k, v)]
  | (k', v') :: rest =>
      if decide (k' = k) then (k, v) :: rest else (k', v') :: dict_set k v rest
  end.

(** [d.get(k)]. *)
Fixpoint dict_get (k : string) (d : list (string * Z)) : option Z :=
  match d with
  | [] => None
  | (k', v') :: rest => if decide (k' = k) then Some v' else dict_get k rest
  end.

(** [sum(d.values())]. *)
Definition dict_sum (d : list (string * Z)) : Z :=
  foldr (fun kv acc => kv.2 + acc) 0 d.

Record t := mk {
  cached_balance : Z;
  cache_timestamp : Qc;
  pending_reservations : list (string * Z)
}.

(** What [await self._get_balance_fn()] does during one call: there is no
    function, the call raises, or it returns a balance. *)
Inductive balance_query := NoFunction | QueryFails | Balance (b : Z).

(** [_get_available_cash]; [now] is [time.monotonic()]. *)
Definition _get_available_cash (s : t) (now : Qc) (q : balance_query)
  : Z * t :=
  let s1 :=
    if decide (_BALANCE_CACHE_TTL_SEC < now - cache_timestamp s)%Qc then
      match q with
      | Balance b => mk b now (pending_reservations s)
      | QueryFails | NoFunction => s
      end
    else s in
  let total_reserved := dict_sum (pending_reservations s1) in
  (Z.max 0 (cached_balance s1 - total_reserved), s1).

(** [str.upper] on the ASCII letters. *)
Definition upper_ascii (c : Ascii.ascii) : Ascii.ascii :=
  let n := Ascii.nat_of_ascii c in
  if ((97 <=? n) && (n <=? 122))%nat then Ascii.ascii_of_nat (n - 32) else c.

Fixpoint upper (s : string) : string :=
  match s with
  | EmptyString => EmptyString
  | String c rest => String (upper_ascii c) (upper rest)
  end.

(** The key [f"{stock_code}_{int(time.monotonic() * 1000)}"]. *)
Definition reservation_key (stock_code : string) (now : Qc) : string :=
  stock_code +:+ "_" +:+ pretty (py_int (now * of_Z 1000)).

Inductive verdict :=
| SellPass
| Insufficient (required gross fee available shortfall : Z)
| Validated (required available : Z) (key : string).

Definition verdict_ok (v : verdict) : bool :=
  match v with Insufficient _ _ _ _ _ => false | _ => true end.

(** [validate_order]; [now1] is the clock read by [_get_available_cash],
    [now2] the later one read for the reservation key. *)
Definition validate_order (s : t) (now1 now2 : Qc) (q : balance_query)
    (stock_code : string) (quantity price : Z) (order_type : string)
  : verdict * t :=
  if decide (upper order_type = "SELL") then (SellPass, s)
  else
    let gross_amount := quantity * price in
    let fee_amount := py_int (of_Z gross_amount * _TOTAL_FEE_RATE) in
    let required_amount := gross_amount + fee_amount in
    let '(available, s1) := _get_available_cash s now1 q in
    if decide (available < required_amount) then
      (Insufficient required_amount gross_amount fee_amount available
                    (required_amount - available), s1)
    else
      let key := reservation_key stock_code now2 in
      (Validated required_amount available key,
       mk (cached_balance s1) (cache_timestamp s1)
          (dict_set key required_amount (pending_reservations s1))).

(** [del d[k]] / [d.pop(k, None)]. *)
Fixpoint dict_remove (k : string) (d : list (string * Z))
  : list (string * Z) :=
  match d with
  | [] => []
  | (k', v') :: rest =>
      if decide (k' = k) then rest else (k', v') :: dict_remove k rest
  end.

(** The loop of [release_reservation] over [items()]: the dictionary
    without its first entry that holds [amount], or [None] when no entry
    holds it. *)
Fixpoint remove_first_amount (amount : Z) (d : list (string * Z))
  : option (list (string * Z)) :=
  match d with
  | [] => None
  | (k, v) :: rest =>
      if decide (v = amount) then Some rest
      else match remove_first_amount amount rest with
           | Some rest' => Some ((k, v) :: rest')
           | None => None
           end
  end.

(** [release_reservation(amount)]. *)
Definition release_reservation (s : t) (amount : Z) : t :=
  match pending_reservations s with
  | [] => s
  | oldest :: rest =>
      match remove_first_amount amount (pending_reservations s) with
      | Some d => mk (cached_balance s) (cache_timestamp s) d
      | None => mk (cached_balance s) (cache_timestamp s) rest
      end
  end.

(** [release_reservation_by_key(reservation_key)]. *)
Definition release_reservation_by_key (s : t) (key : string) : t :=
  mk (cached_balance s) (cache_timestamp s)
     (dict_remove key (pending_reservations s)).

(** [get_pending_total()] and [get_pending_count()]. *)
Definition get_pending_total (s : t) : Z := dict_sum (pending_reservations s).

Definition get_pending_count (s : t) : nat := length (pending_reservations s).

(** [set_balance(balance)]; [now] is [time.monotonic()]. *)
Definition set_balance (s : t) (balance : Z) (now : Qc) : t :=
  mk balance now (pending_reservations s).

(** [clear_all_reservations()]. *)
Definition clear_all_reservations (s : t) : t :=
  mk (cached_balance s) (cache_timestamp s) [].

(** [enforce_cash_order_params(order_body)] on a request body whose
    values are strings. *)
Definition enforce_cash_order_params (order_body : gmap string string)
  : gmap string string :=
  delete "LOAN_DT"
    (delete "MGNT_DVSN"
       (delete "CANO_LOAN"
          (<["ALGO_NO" := ""]>
             (<["SLL_TYPE" := "01"]>
                (<["CTAC_TLNO" := ""]>
                   (<["ORD_DVSN" := "00"]> order_body)))))).


End Margin.

(** ** [kats/risk/global_position_lock.py] *)

Module PositionLock.
Import Num.

(** [GRADE_HARD_CAP].  [StockGrade] is a [str] enumeration, so the member
    [StockGrade.A] and the string ["A"] are one dictionary key. *)
Definition GRADE_HARD_CAP : gmap string Qc :=
  <["A" := of_Z 30]> (<["B" := of_Z 20]> (<["C" := of_Z 10]>
    (<["D" := of_Z 0]> ∅))).

Record StockReservation := mkReservation {
  stock_code : string;
  grade : string;
  reservations : gmap string Qc         (* strategy_code -> reserved_pct *)
}.

(** [sum(d.values())] over a dictionary of percentages. *)
Definition sum_pct (m : gmap string Qc) : Qc :=
  map_fold (fun _ v acc => (v + acc)%Qc) 0%Qc m.

(** The property [total_pct]: [sum(self.reservations.values())]. *)
Definition total_pct (r : StockReservation) : Qc :=
  sum_pct (reservations r).

Record t := mk {
  grade_caps : gmap string Qc;
  held : gmap string StockReservation   (* [_reservations] *)
}.

(** [GlobalPositionLock()]. *)
Definition init : t := mk GRADE_HARD_CAP ∅.

(** [_get_cap]. *)
Definition _get_cap (s : t) (g : string) : Qc :=
  default 0%Qc (grade_caps s !! g).

(** What a call reports; the message text is an f-string over these
    numbers. *)
Inductive outcome :=
| Denied (projected cap current_total additional remaining : Qc)
| Reserved (additional total : Qc)
| NotFound
| NoStrategyReservation
| Released (released_pct remaining : Qc).

Definition ok (o : outcome) : bool :=
  match o with Reserved _ _ | Released _ _ => true | _ => false end.

(** [check_and_reserve(stock_code, grade, additional_pct, strategy_code)],
    the body that runs under the lock. *)
Definition check_and_reserve (s : t) (stock grade_ : string)
    (additional_pct : Qc) (strategy : string) : outcome * t :=
  let cap := _get_cap s grade_ in
  let reservation := held s !! stock in
  let current_total :=
    match reservation with Some r => total_pct r | None => 0%Qc end in
  let projected := (current_total + additional_pct)%Qc in
  if decide (cap < projected)%Qc then
    (Denied projected cap current_total additional_pct
            (qmax 0 (cap - current_total)), s)
  else
    let r :=
      match reservation with
      | Some r => r
      | None => mkReservation stock grade_ ∅
      end in
    let prev := default 0%Qc (reservations r !! strategy) in
    let r' := mkReservation (stock_code r) (grade r)
                (<[strategy := (prev + additional_pct)%Qc]> (reservations r)) in
    (Reserved additional_pct (total_pct r'),
     mk (grade_caps s) (<[stock := r']> (held s))).

(** [release(stock_code, strategy_code)].  The strategy's entry is popped
    before the zero test, so a zero entry is removed even though the call
    reports failure. *)
Definition release (s : t) (stock strategy : string) : outcome * t :=
  match held s !! stock with
  | None => (NotFound, s)
  | Some r =>
      let released_pct := default 0%Qc (reservations r !! strategy) in
      let r' := mkReservation (stock_code r) (grade r)
                  (delete strategy (reservations r)) in
      if decide (released_pct = 0%Qc) then
        (NoStrategyReservation, mk (grade_caps s) (<[stock := r']> (held s)))
      else if decide (reservations r' = ∅) then
        (Released released_pct 0, mk (grade_caps s) (delete stock (held s)))
      else
        (Released released_pct (total_pct r'),
         mk (grade_caps s) (<[stock := r']> (held s)))
  end.

(** The dictionary of [get_stock_exposure]. *)
Record exposure := mkExposure {
  e_total_pct : Qc;
  e_strategies : gmap string Qc
}.

(** [get_stock_exposure(stock_code)]. *)
Definition get_stock_exposure (s : t) (stock : string) : exposure :=
  match held s !! stock with
  | None => mkExposure 0 ∅
  | Some r => mkExposure (total_pct r) (reservations r)
  end.

(** [get_remaining_capacity(stock_code, grade)]. *)
Definition get_remaining_capacity (s : t) (stock grade_ : string) : Qc :=
  let current :=
    match held s !! stock with Some r => total_pct r | None => 0%Qc end in
  qmax 0 (_get_cap s grade_ - current).

(** [clear_all()]. *)
Definition clear_all (s : t) : t := mk (grade_caps s) ∅.

End PositionLock.

(** ** [kats/order/pyramid_manager.py] *)

Module Pyramid.
Import Num.

Record PyramidConfig := mkConfig {
  max_stages : Z;
  stage_ratios : list Qc;
  profit_trigger_pct : list Qc
}.

Definition qsum (l : list Qc) : Qc := foldr Qcplus 0%Qc l.

(** [__post_init__] returns without raising. *)
Definition config_ok (c : PyramidConfig) : bool :=
  (Z.of_nat (length (stage_ratios c)) =? max_stages c)
  && (Z.of_nat (length (profit_trigger_pct c)) =? max_stages c)
  && bool_decide (dec 99 100 ≤ qsum (stage_ratios c))%Qc
  && bool_decide (qsum (stage_ratios c) ≤ dec 101 100)%Qc.

Definition DEFAULT_PYRAMID_CONFIG : PyramidConfig :=
  mkConfig 3 [dec 5 10; dec 3 10; dec 2 10] [of_Z 0; of_Z 5; of_Z 10].

(** Tuple indexing [t[i]]: a negative index counts from the end, an index
    outside [-len, len) raises [IndexError] ([None]). *)
Definition py_index {A} (l : list A) (i : Z) : option A :=
  let n := Z.of_nat (length l) in
  if decide (0 <= i) then l !! Z.to_nat i
  else if decide (- n <= i) then l !! Z.to_nat (n + i)
  else None.

Record stage_record := mkStageRecord {
  sr_stage : Z;
  sr_fill_price : Qc;
  sr_fill_quantity : Z;
  sr_timestamp : Qc
}.

Record pyramid_state := mkPState {
  current_stage : Z;
  stages_executed : list stage_record
}.

Record t := mk {
  config : PyramidConfig;
  _pyramid_state : gmap string pyramid_state
}.

(** The position dictionary.  A missing ["order_type"] key is read as
    ["BUY"] by [position.get("order_type", "BUY")]. *)
Record position := mkPosition {
  trade_id : string;
  stock_code : string;
  avg_entry_price : Qc;
  order_type : option string;
  total_planned_quantity : Z
}.

Definition position_order_type (p : position) : string :=
  default "BUY" (order_type p).

Record opportunity := mkOpportunity {
  o_stage : Z;
  o_stock_code : string;
  o_trade_id : string;
  o_quantity : Z;
  o_ratio : Qc;
  o_trigger_pct : Qc;
  o_current_profit_pct : Qc;
  o_current_price : Qc;
  o_avg_entry_price : Qc
}.

Inductive answer :=
| NoOpportunity                       (* the call returns [None] *)
| Intent (o : opportunity)
| IndexError.

(** The state looked up for [trade_id], with the default of [dict.get]. *)
Definition state_of (m : t) (id : string) : pyramid_state :=
  default (mkPState 0 []) (_pyramid_state m !! id).

Definition profit_pct (p : position) (current_price : Qc) : Qc :=
  ((current_price - avg_entry_price p) / avg_entry_price p * of_Z 100)%Qc.

(** [check_pyramid_opportunity(position, current_price)]. *)
Definition check_pyramid_opportunity (m : t) (p : position)
    (current_price : Qc) : answer :=
  if decide (position_order_type p ≠ "BUY") then NoOpportunity
  else if decide ((avg_entry_price p ≤ 0)%Qc \/ total_planned_quantity p <= 0)
  then NoOpportunity
  else
    let profit := profit_pct p current_price in
    if decide (profit ≤ 0)%Qc then NoOpportunity
    else
      let next_stage := current_stage (state_of m (trade_id p)) + 1 in
      if decide (next_stage >= max_stages (config m)) then NoOpportunity
      else
        match py_index (profit_trigger_pct (config m)) next_stage with
        | None => IndexError
        | Some trigger_pct =>
            if decide (profit < trigger_pct)%Qc then NoOpportunity
            else
              match py_index (stage_ratios (config m)) next_stage with
              | None => IndexError
              | Some stage_ratio =>
                  let additional_qty :=
                    Z.max 1 (py_int (of_Z (total_planned_quantity p)
                                     * stage_ratio)) in
                  Intent (mkOpportunity next_stage (stock_code p) (trade_id p)
                            additional_qty stage_ratio trigger_pct
                            (py_round profit 2) current_price
                            (avg_entry_price p))
              end
        end.

(** [record_stage_execution(trade_id, stage, fill_price, fill_quantity)]. *)
Definition record_stage_execution (m : t) (id : string) (stage : Z)
    (fill_price : Qc) (fill_quantity : Z) (now : Qc) : pyramid_state * t :=
  let st := state_of m id in
  let st' := mkPState stage
               (stages_executed st
                ++ [mkStageRecord stage fill_price fill_quantity now]) in
  (st', mk (config m) (<[id := st']> (_pyramid_state m))).

(** The dictionary of [get_pyramid_stage]; its ["config"] entry repeats
    the manager's configuration. *)
Record stage_info := mkStageInfo {
  si_current_stage : Z;
  si_stages_executed : list stage_record;
  si_max_stages : Z;
  si_remaining_stages : Z
}.

(** [get_pyramid_stage(trade_id)]. *)
Definition get_pyramid_stage (m : t) (id : string) : stage_info :=
  let st := state_of m id in
  mkStageInfo (current_stage st) (stages_executed st) (max_stages (config m))
    (Z.max 0 (max_stages (config m) - 1 - current_stage st)).

(** [has_pyramid_in_progress(trade_id)]. *)
Definition has_pyramid_in_progress (m : t) (id : string) : bool :=
  match _pyramid_state m !! id with
  | None => false
  | Some st => bool_decide (current_stage st < max_stages (config m) - 1)
  end.

(** [remove_trade(trade_id)]. *)
Definition remove_trade (m : t) (id : string) : t :=
  mk (config m) (delete id (_pyramid_state m)).

End Pyramid.

(** ** [kats/order/order_state_machine.py] *)

Module OrderSM.
Import Num.

Inductive OrderState :=
| CREATED | SUBMITTED | PARTIAL_FILLED | FILLED | CANCEL_REQUESTED
| CANCELLED | AMEND_REQUESTED | REJECTED | EXPIRED | ERROR.

#[global] Instance OrderState_eq_dec : EqDecision OrderState.
Proof. solve_decision. Defined.

(** [state.value]. *)
Definition value (s : OrderState) : string :=
  match s with
  | CREATED => "CREATED" | SUBMITTED => "SUBMITTED"
  | PARTIAL_FILLED => "PARTIAL_FILLED" | FILLED => "FILLED"
  | CANCEL_REQUESTED => "CANCEL_REQUESTED" | CANCELLED => "CANCELLED"
  | AMEND_REQUESTED => "AMEND_REQUESTED" | REJECTED => "REJECTED"
  | EXPIRED => "EXPIRED" | ERROR => "ERROR"
  end.

Definition all_states : list OrderState :=
  [CREATED; SUBMITTED; PARTIAL_FILLED; FILLED; CANCEL_REQUESTED;
   CANCELLED; AMEND_REQUESTED; REJECTED; EXPIRED; ERROR].

(** [VALID_TRANSITIONS]: the terminal states have no entry. *)
Definition VALID_TRANSITIONS (s : OrderState) : option (list OrderState) :=
  match s with
  | CREATED => Some [SUBMITTED; REJECTED]
  | SUBMITTED =>
      Some [PARTIAL_FILLED; FILLED; CANCEL_REQUESTED; REJECTED; ERROR]
  | PARTIAL_FILLED => Some [FILLED; CANCEL_REQUESTED; AMEND_REQUESTED]
  | CANCEL_REQUESTED => Some [CANCELLED; FILLED]
  | AMEND_REQUESTED => Some [SUBMITTED; REJECTED]
  | _ => None
  end.

Definition _TERMINAL_STATES : list OrderState :=
  [FILLED; CANCELLED; REJECTED; EXPIRED; ERROR].

Definition _COMPLETED_STATES : list OrderState :=
  [FILLED; CANCELLED; EXPIRED].

(** The values an order dictionary holds.  [OrderState] is a [str]
    enumeration: the plain string ["FILLED"] hashes and compares like
    [OrderState.FILLED] but has no [.value] and no [.label_kr]. *)
Inductive scalar :=
| SNone
| SBool (b : bool)
| SInt (z : Z)
| SNum (q : Qc)
| SStr (s : string)
| SState (st : OrderState).

Record history_entry := mkEntry {
  h_state : string;
  h_timestamp : Qc;
  h_metadata : option (gmap string scalar)
}.

Inductive pyval :=
| Scalar (v : scalar)
| History (h : list history_entry).

(** The member of the enumeration a scalar compares equal to. *)
Definition state_like (v : scalar) : option OrderState :=
  match v with
  | SState st => Some st
  | SStr s => list_find (fun st => value st = s) all_states ≫= (fun p => Some p.2)
  | _ => None
  end.

Inductive exn :=
| KeyError
| ValueError
| TypeError
| AttributeError
| InvalidStateTransition (order_id : string) (current target : OrderState).

(** The machine: [_orders].  The registered listeners are called after
    the order has been updated and their exceptions are swallowed; they
    are observers and not part of this state. *)
Record t := mk {
  _orders : gmap string (gmap string pyval)
}.

Inductive outcome :=
| Returned (order : gmap string pyval) (after : t)
| Raised (e : exn) (after : t).

Definition after (o : outcome) : t :=
  match o with Returned _ s | Raised _ s => s end.

(** [create_order(order_id, order_data)]: the dictionary display lists
    [**order_data] last, so its keys win over the five written before
    it. *)
Definition create_order (sm : t) (order_id : string)
    (order_data : gmap string pyval) (now : Qc) : outcome :=
  match _orders sm !! order_id with
  | Some _ => Raised ValueError sm
  | None =>
      let base : gmap string pyval :=
        <["order_id" := Scalar (SStr order_id)]>
        (<["state" := Scalar (SState CREATED)]>
        (<["created_at" := Scalar (SNum now)]>
        (<["updated_at" := Scalar (SNum now)]>
        (<["history" := History [mkEntry (value CREATED) now None]]> ∅)))) in
      let order := order_data ∪ base in
      Returned order (mk (<[order_id := order]> (_orders sm)))
  end.

(** The keys a transition's metadata may not overwrite. *)
Definition protected_keys : list string :=
  ["state"; "order_id"; "history"; "created_at"].

(** The merge loop over [metadata.items()]. *)
Definition merge_metadata (metadata : option (gmap string scalar))
    (order : gmap string pyval) : gmap string pyval :=
  match metadata with
  | None => order
  | Some md =>
      (Scalar <$> filter (fun kv => kv.1 ∉ protected_keys) md) ∪ order
  end.

(** The assignments of the "perform transition" block up to the append;
    [None] when [order["history"]] cannot be appended to. *)
Definition perform (order : gmap string pyval) (new_state : OrderState)
    (metadata : option (gmap string scalar)) (now : Qc)
  : gmap string pyval * option exn :=
  let o1 := <["updated_at" := Scalar (SNum now)]>
              (<["state" := Scalar (SState new_state)]> order) in
  match o1 !! "history" with
  | None => (o1, Some KeyError)
  | Some (Scalar _) => (o1, Some AttributeError)
  | Some (History h) =>
      let o2 := <["history" :=
                   History (h ++ [mkEntry (value new_state) now metadata])]> o1 in
      (merge_metadata metadata o2, None)
  end.

Definition allowed (old new_state : OrderState) : bool :=
  match VALID_TRANSITIONS old with
  | None => false
  | Some targets => bool_decide (new_state ∈ targets)
  end.

(** [transition(order_id, new_state, metadata)]. *)
Definition transition (sm : t) (order_id : string) (new_state : OrderState)
    (metadata : option (gmap string scalar)) (now : Qc) : outcome :=
  match _orders sm !! order_id with
  | None => Raised KeyError sm
  | Some order =>
      match order !! "state" with
      | None => Raised KeyError sm
      | Some (History _) => Raised TypeError sm
      | Some (Scalar v) =>
          match state_like v with
          | None => Raised AttributeError sm
          | Some old =>
              let genuine := match v with SState _ => true | _ => false end in
              if bool_decide (old ∈ _TERMINAL_STATES)
                 || negb (allowed old new_state)
              then
                Raised (if genuine
                        then InvalidStateTransition order_id old new_state
                        else AttributeError) sm
              else
                let '(order', failure) :=
                  perform order new_state metadata now in
                let sm' := mk (<[order_id := order']> (_orders sm)) in
                match failure with
                | Some e => Raised e sm'
                | None =>
                    if genuine then Returned order' sm'
                    else Raised AttributeError sm'
                end
          end
      end
  end.

(** The states written in an order's history, oldest first. *)
Definition history_states (order : gmap string pyval) : option (list string) :=
  match order !! "history" with
  | Some (History h) => Some (h_state <$> h)
  | _ => None
  end.

(** A sequence of states in which every step is a permitted edge. *)
Fixpoint is_path (p : list OrderState) : bool :=
  match p with
  | a :: ((b :: _) as rest) => allowed a b && is_path rest
  | _ => true
  end.

(** No state of the sequence follows a terminal state. *)
Fixpoint nothing_after_terminal (p : list OrderState) : bool :=
  match p with
  | a :: ((_ :: _) as rest) =>
      negb (bool_decide (a ∈ _TERMINAL_STATES)) && nothing_after_terminal rest
  | _ => true
  end.

(** The order's dictionary records the path [p]: its history lists the
    states of [p] in order and its state is the last of them. *)
Definition records_path (order : gmap string pyval) (p : list OrderState)
  : Prop :=
  exists h cur,
    order !! "history" = Some (History h) /\
    h_state <$> h = value <$> p /\
    last p = Some cur /\
    order !! "state" = Some (Scalar (SState cur)).

(** A path through the permitted edges that starts at CREATED and has no
    state after a terminal one. *)
Definition path_ok (p : list OrderState) : Prop :=
  head p = Some CREATED /\ is_path p = true /\
  nothing_after_terminal p = true.

(** The machines built from the empty one by [create_order] calls whose
    [order_data] carries neither a ["state"] nor a ["history"] key, and by
    [transition] calls. *)
Inductive reachable : t -> Prop :=
| reach_empty : reachable (mk ∅)
| reach_create sm order_id order_data now :
    reachable sm ->
    order_data !! "state" = None ->
    order_data !! "history" = None ->
    reachable (after (create_order sm order_id order_data now))
| reach_transition sm order_id new_state metadata now :
    reachable sm ->
    reachable (after (transition sm order_id new_state metadata now)).

(** Every order of the machine records a well-formed path. *)
Definition sound (sm : t) : Prop :=
  forall order_id order, _orders sm !! order_id = Some order ->
    exists p, path_ok p /\ records_path order p.

End OrderSM.

(** ** [kats/risk/grade_allocator.py] *)

Module GradeAlloc.
Import Num Enums.

Record RegimeAllocation := mkAlloc {
  grade_a_pct : Qc;
  grade_b_pct : Qc;
  grade_c_pct : Qc;
  cash_pct : Qc
}.

(** [REGIME_ALLOCATION]. *)
Definition REGIME_ALLOCATION (r : MarketRegime) : option RegimeAllocation :=
  Some match r with
       | STRONG_BULL => mkAlloc (of_Z 40) (of_Z 30) (of_Z 10) (of_Z 20)
       | BULL => mkAlloc (of_Z 35) (of_Z 25) (of_Z 10) (of_Z 30)
       | SIDEWAYS => mkAlloc (of_Z 25) (of_Z 15) (of_Z 5) (of_Z 55)
       | BEAR => mkAlloc (of_Z 15) (of_Z 10) (of_Z 0) (of_Z 75)
       | STRONG_BEAR => mkAlloc (of_Z 10) (of_Z 0) (of_Z 0) (of_Z 90)
       end.

Definition SECTOR_MAX_PCT : Qc := of_Z 40.

Record t := mk {
  _allocation : MarketRegime -> option RegimeAllocation;
  _sector_max_pct : Qc
}.

(** [GradeAllocator()]. *)
Definition init : t := mk REGIME_ALLOCATION SECTOR_MAX_PCT.

(** The keys read from a position dictionary and from a signal; a missing
    key is [None]. *)
Record position := mkPosition {
  p_grade : option string;
  p_position_pct : option Qc;
  p_sector : option string
}.

Record signal := mkSignal {
  sig_stock_code : option string;
  sig_grade : option string;
  sig_position_pct : option Qc;
  sig_sector : option string
}.

Definition qsum (l : list Qc) : Qc := foldr Qcplus 0%Qc l.

(** [p.get("position_pct", 0.0)]. *)
Definition pct_of (p : position) : Qc := default 0%Qc (p_position_pct p).

(** [_grade_limit]. *)
Definition _grade_limit (alloc : RegimeAllocation) (g : string) : Qc :=
  if decide (g = "A") then grade_a_pct alloc
  else if decide (g = "B") then grade_b_pct alloc
  else if decide (g = "C") then grade_c_pct alloc
  else 0%Qc.

(** [_sum_grade_pct], [_sum_sector_pct], [_sum_all_pct]. *)
Definition _sum_grade_pct (positions : list position) (g : string) : Qc :=
  qsum (pct_of <$> filter (fun p => p_grade p = Some g) positions).

Definition _sum_sector_pct (positions : list position) (sector : string) : Qc :=
  qsum (pct_of <$> filter (fun p => p_sector p = Some sector) positions).

Definition _sum_all_pct (positions : list position) : Qc :=
  qsum (pct_of <$> positions).

(** What [validate_allocation] answers; the reason text is an f-string
    over the numbers carried here. *)
Inductive verdict :=
| NoRegime
| GradeLimit (projected limit current requested : Qc)
| SectorLimit (projected limit current requested : Qc)
| CashLimit (projected_cash min_cash total_invested : Qc)
| Passed.

Definition passed (v : verdict) : bool :=
  match v with Passed => true | _ => false end.

(** [validate_allocation(signal, current_positions, regime)]. *)
Definition validate_allocation (a : t) (sg : signal)
    (current_positions : list position) (regime : MarketRegime) : verdict :=
  let grade_str := default "" (sig_grade sg) in
  let position_pct := default 0%Qc (sig_position_pct sg) in
  let sector := default "UNKNOWN" (sig_sector sg) in
  match _allocation a regime with
  | None => NoRegime
  | Some alloc =>
      let grade_limit_pct := _grade_limit alloc grade_str in
      let current_grade_pct := _sum_grade_pct current_positions grade_str in
      let projected := (current_grade_pct + position_pct)%Qc in
      if decide (grade_limit_pct < projected)%Qc then
        GradeLimit projected grade_limit_pct current_grade_pct position_pct
      else
        let current_sector_pct := _sum_sector_pct current_positions sector in
        let projected_sector := (current_sector_pct + position_pct)%Qc in
        if decide (_sector_max_pct a < projected_sector)%Qc then
          SectorLimit projected_sector (_sector_max_pct a) current_sector_pct
                      position_pct
        else
          let total_invested_pct :=
            (_sum_all_pct current_positions + position_pct)%Qc in
          let projected_cash_pct := (of_Z 100 - total_invested_pct)%Qc in
          let min_cash_pct := cash_pct alloc in
          if decide (projected_cash_pct < min_cash_pct)%Qc then
            CashLimit projected_cash_pct min_cash_pct total_invested_pct
          else Passed
  end.

(** [get_remaining_capacity(grade, regime, current_positions)]. *)
Definition get_remaining_capacity (a : t) (g : string) (regime : MarketRegime)
    (current_positions : list position) : Qc :=
  match _allocation a regime with
  | None => 0%Qc
  | Some alloc =>
      qmax 0 (_grade_limit alloc g - _sum_grade_pct current_positions g)
  end.

(** The position a signal becomes once it is taken. *)
Definition position_of (sg : signal) : position :=
  mkPosition (Some (default "" (sig_grade sg)))
             (Some (default 0%Qc (sig_position_pct sg)))
             (Some (default "UNKNOWN" (sig_sector sg))).

End GradeAlloc.

(** ** [kats/risk/risk_manager.py] *)

Module RiskManager.
Import Num Enums.

(** The keys [validate_signal] reads from the signal; a missing key is
    [None].  The keys ["position_pct"] and ["quantity"] are written in
    step 1 before anything reads them.  Prices are the [int] the source
    converts them to. *)
Record signal := mkSignal {
  sig_stock_code : option string;
  sig_strategy_code : option string;
  sig_grade : option string;
  sig_entry_price : option Z;
  sig_stop_loss : option Z;
  sig_confidence : option Z;
  sig_action : option string;
  sig_sector : option string
}.

(** The sub-modules injected into [RiskManager]: the sizer is a
    [PositionSizer] with its default tables, the VI monitor is its
    [is_vi_active], and the three optional modules are [None] when they
    were not injected. *)
Record t := mk {
  _grade_allocator : GradeAlloc.t;
  _global_lock : PositionLock.t;
  _vi_monitor : string -> bool;
  _margin_guard : option Margin.t;
  _kill_switch : option KillSwitch.t;
  _drawdown_protocol : option Drawdown.DrawdownState
}.

(** What the calls made during one [validate_signal] read from outside:
    the wall clock of the drawdown protocol, the two monotonic clocks of
    the margin guard and its balance query. *)
Record world := mkWorld {
  w_now : PyTime.datetime;
  w_cash_clock : Qc;
  w_key_clock : Qc;
  w_balance : Margin.balance_query
}.

(** [StockGrade(grade_str)], with grade C on [ValueError]. *)
Definition grade_enum (grade_str : string) : StockGrade :=
  if decide (grade_str = "A") then A
  else if decide (grade_str = "B") then B
  else if decide (grade_str = "D") then D
  else C.

(** The reason a rejection carries. *)
Inductive why :=
| SizingReason (r : option string)
| DrawdownHalt (r : option (Drawdown.DrawdownLevel * Qc))
| KillReason (r : option KillSwitch.reason)
| AllocationReason (v : GradeAlloc.verdict)
| LockReason (o : PositionLock.outcome)
| ViActive (stock_code : string)
| MarginReason (v : Margin.verdict).

Inductive outcome :=
| Raises                                  (* [ZeroDivisionError] in step 1 *)
| Rejects (step : Z) (step_name : string) (reason : why)
| Passes (stock_code strategy_code grade_str : string)
         (regime : MarketRegime) (sizing : Sizer.result).

(** The three entries of [sizing] rewritten when the drawdown scale is
    below one. *)
Definition scale_sizing (sizing : Sizer.result) (dd_scale : Qc)
  : Sizer.result :=
  Sizer.mkResult (Sizer.accepted sizing) (Sizer.reason sizing)
    (py_int (of_Z (Sizer.position_amount sizing) * dd_scale))
    (Sizer.position_pct sizing * dd_scale)%Qc
    (py_int (of_Z (Sizer.quantity sizing) * dd_scale))
    (Sizer.risk_amount_1r sizing) (Sizer.stop_loss_pct sizing)
    (Sizer.r_multiple_target sizing) (Sizer.regime_risk_pct sizing)
    (Sizer.grade_limit_pct sizing) (Sizer.confidence_multiplier sizing).

(** [validate_signal(signal, current_positions, regime, total_capital,
    daily_pnl_pct, monthly_pnl_pct, cumulative_pnl_pct,
    current_capital)]: what the call returns and the manager after it. *)
Definition validate_signal (rm : t) (w : world) (sg : signal)
    (current_positions : list GradeAlloc.position) (regime : MarketRegime)
    (total_capital : Z) (daily_pnl_pct monthly_pnl_pct cumulative_pnl_pct : Qc)
    (current_capital : Z) : outcome * t :=
  let stock_code := default "" (sig_stock_code sg) in
  let strategy_code := default "" (sig_strategy_code sg) in
  let grade_str := default "C" (sig_grade sg) in
  let entry_price := default 0 (sig_entry_price sg) in
  (* step 1 *)
  match Sizer.calculate total_capital regime entry_price
          (default 0 (sig_stop_loss sg)) (grade_enum grade_str)
          (default 3 (sig_confidence sg)) with
  | None => (Raises, rm)
  | Some sizing0 =>
      if negb (Sizer.accepted sizing0) then
        (Rejects 1 "per_trade_risk" (SizingReason (Sizer.reason sizing0)), rm)
      else
        (* step 2 *)
        let '(halted, sizing, dd) :=
          match _drawdown_protocol rm with
          | None => (None, sizing0, None)
          | Some d =>
              let '(resp, d') :=
                Drawdown.evaluate_and_respond d (w_now w) daily_pnl_pct
                  monthly_pnl_pct cumulative_pnl_pct in
              if Drawdown.r_trading_halted resp then
                (Some (Drawdown.r_halt_reason resp), sizing0, Some d')
              else if decide (Drawdown.r_position_scale resp < 1)%Qc then
                (None, scale_sizing sizing0 (Drawdown.r_position_scale resp),
                 Some d')
              else (None, sizing0, Some d')
          end in
        let rm2 := mk (_grade_allocator rm) (_global_lock rm) (_vi_monitor rm)
                     (_margin_guard rm) (_kill_switch rm) dd in
        match halted with
        | Some reason =>
            (Rejects 2 "monthly_cumulative_loss" (DrawdownHalt reason), rm2)
        | None =>
            (* step 3 *)
            let '(alive, ks) :=
              match _kill_switch rm with
              | None => (true, None)
              | Some k =>
                  let effective_capital :=
                    if decide (current_capital > 0) then current_capital
                    else total_capital in
                  let '(b, k') := KillSwitch.check k effective_capital in
                  (b, Some k')
              end in
            let rm3 := mk (_grade_allocator rm) (_global_lock rm)
                         (_vi_monitor rm) (_margin_guard rm) ks dd in
            if negb alive then
              (Rejects 3 "daily_kill_switch"
                 (KillReason (ks ≫= KillSwitch.kill_reason)), rm3)
            else
              (* steps 4 to 6 *)
              let position_pct := (Sizer.position_pct sizing * of_Z 100)%Qc in
              let v :=
                GradeAlloc.validate_allocation (_grade_allocator rm)
                  (GradeAlloc.mkSignal (sig_stock_code sg) (sig_grade sg)
                     (Some position_pct) (sig_sector sg))
                  current_positions regime in
              if negb (GradeAlloc.passed v) then
                (Rejects 4 "grade_limit" (AllocationReason v), rm3)
              else
                (* step 7 *)
                let '(o, lock) :=
                  PositionLock.check_and_reserve (_global_lock rm) stock_code
                    grade_str position_pct strategy_code in
                if negb (PositionLock.ok o) then
                  (Rejects 7 "global_position_lock" (LockReason o),
                   mk (_grade_allocator rm) lock (_vi_monitor rm)
                      (_margin_guard rm) ks dd)
                else if _vi_monitor rm stock_code then
                  (* step 8 *)
                  (Rejects 8 "vi_status" (ViActive stock_code),
                   mk (_grade_allocator rm)
                      (PositionLock.release lock stock_code strategy_code).2
                      (_vi_monitor rm) (_margin_guard rm) ks dd)
                else
                  (* step 9 *)
                  match _margin_guard rm with
                  | None =>
                      (Passes stock_code strategy_code grade_str regime sizing,
                       mk (_grade_allocator rm) lock (_vi_monitor rm) None ks
                          dd)
                  | Some g =>
                      let '(mv, g') :=
                        Margin.validate_order g (w_cash_clock w)
                          (w_key_clock w) (w_balance w) stock_code
                          (Sizer.quantity sizing) entry_price
                          (default "BUY" (sig_action sg)) in
                      if negb (Margin.verdict_ok mv) then
                        (Rejects 9 "cash_margin" (MarginReason mv),
                         mk (_grade_allocator rm)
                            (PositionLock.release lock stock_code
                               strategy_code).2
                            (_vi_monitor rm) (Some g') ks dd)
                      else
                        (Passes stock_code strategy_code grade_str regime
                           sizing,
                         mk (_grade_allocator rm) lock (_vi_monitor rm)
                            (Some g') ks dd)
                  end
        end
  end.

(** [on_position_closed(stock_code, strategy_code, fill_amount)]. *)
Definition on_position_closed (rm : t) (stock_code strategy_code : string)
    (fill_amount : Z) : t :=
  mk (_grade_allocator rm)
     (PositionLock.release (_global_lock rm) stock_code strategy_code).2
     (_vi_monitor rm)
     (match _margin_guard rm with
      | Some g =>
          if decide (fill_amount > 0)
          then Some (Margin.release_reservation g fill_amount) else Some g
      | None => None
      end)
     (_kill_switch rm) (_drawdown_protocol rm).

(** [reset_daily(new_starting_capital)]. *)
Definition reset_daily (rm : t) (new_starting_capital : Z) : t :=
  mk (_grade_allocator rm) (PositionLock.clear_all (_global_lock rm))
     (_vi_monitor rm)
     (Margin.clear_all_reservations <$> _margin_guard rm)
     ((fun k => KillSwitch.reset_daily k new_starting_capital)
        <$> _kill_switch rm)
     (Drawdown.reset_daily <$> _drawdown_protocol rm).

End RiskManager.

(** ** Python [float]: IEEE-754 binary64 *)

Module F64.
Import PrimFloat SpecFloat FloatOps.

(** The exceptions arithmetic on numbers can raise. *)
Inductive raised := ZeroDivisionError | OverflowError | ValueError.

(** A computation that returns a value or raises. *)
Inductive res (A : Type) : Type :=
| Ok (a : A)
| Raise (e : raised).
Arguments Ok {A} a.
Arguments Raise {A} e.

#[export] Instance res_ret : MRet res := fun A a => Ok a.
#[export] Instance res_bind : MBind res := fun A B f x =>
  match x with
  | Ok a => f a
  | Raise e => Raise e
  end.

(** The double nearest to [p/q] in magnitude, with the sign [neg]; a tie
    goes to the even mantissa, a quotient beyond the largest double to
    infinity. *)
Definition rounded (neg : bool) (p q : positive) : float :=
  let '(m, e, l) := SFdiv_core_binary prec emax (Zpos p) 0 (Zpos q) 0 in
  SF2Prim (binary_round_aux prec emax neg m e l).

(** The double a decimal literal [n/d] denotes. *)
Definition dec (n : Z) (d : positive) : float :=
  match n with
  | Z0 => zero
  | Zpos p => rounded false p d
  | Zneg p => rounded true p d
  end.

(** [float(n)] for an [int], also the conversion Python applies to the
    [int] operand of a mixed operation. *)
Definition of_int (n : Z) : res float :=
  let x := dec n 1 in
  if is_infinity x then Raise OverflowError else Ok x.

(** [a / b] on two [int]s: the correctly rounded quotient. *)
Definition div_int (a b : Z) : res float :=
  match b with
  | Z0 => Raise ZeroDivisionError
  | _ =>
      match a with
      | Z0 => Ok (if b <? 0 then neg_zero else zero)
      | _ =>
          let x := rounded (xorb (a <? 0) (b <? 0))
                           (Z.to_pos (Z.abs a)) (Z.to_pos (Z.abs b)) in
          if is_infinity x then Raise OverflowError else Ok x
      end
  end.

(** A number as a dictionary or an argument carries it: an [int] or a
    [float]. *)
Inductive number := Int (n : Z) | Float (x : float).

(** [float(v)], also the conversion of the [int] operand of a mixed
    operation. *)
Definition to_float (v : number) : res float :=
  match v with
  | Int n => of_int n
  | Float x => Ok x
  end.

(** [x / y] on two [float]s. *)
Definition truediv (x y : float) : res float :=
  if is_zero y then Raise ZeroDivisionError else Ok (x / y)%float.

(** [int(x)]: truncation toward zero. *)
Definition py_int (x : float) : res Z :=
  match Prim2SF x with
  | S754_nan => Raise ValueError
  | S754_infinity _ => Raise OverflowError
  | S754_zero _ => Ok 0
  | S754_finite s m e =>
      let n := if 0 <=? e then Zpos m * 2 ^ e else Zpos m / 2 ^ (- e) in
      Ok (if s then - n else n)
  end.

(** The rational a finite double stands for. *)
Definition exact (x : float) : option Qc :=
  match Prim2SF x with
  | S754_zero _ => Some 0%Qc
  | S754_finite s m e =>
      let n := if s then Zneg m else Zpos m in
      Some (if 0 <=? e then Qc_of_Z (n * 2 ^ e)
            else Q2Qc (n # Z.to_pos (2 ^ (- e))))
  | _ => None
  end.

(** The integer nearest to [n/d] for [d > 0], a tie going to the even
    one. *)
Definition half_even (n d : Z) : Z :=
  let q := n / d in
  let r := n mod d in
  if 2 * r <? d then q
  else if d <? 2 * r then q + 1
  else if Z.even q then q else q + 1.

(** [round(x, ndigits)] for [ndigits >= 0]: the double nearest to the
    decimal that [x], taken exactly, rounds to.  A double with a
    non-negative exponent is an integer and is returned as it is, as are
    infinities and NaN; the sign of [x] is kept on a zero result. *)
Definition py_round (x : float) (ndigits : nat) : float :=
  match Prim2SF x with
  | S754_finite s m e =>
      if 0 <=? e then x
      else
        let scale := 10 ^ Z.of_nat ndigits in
        match half_even (Zpos m * scale) (2 ^ (- e)) with
        | Zpos k => rounded s k (Z.to_pos scale)
        | _ => if s then neg_zero else zero
        end
  | _ => x
  end.

(** [min(x, y)] and [max(x, y)]: the first argument unless the second
    is strictly smaller (larger). *)
Definition fmin (x y : float) : float := if (y <? x)%float then y else x.
Definition fmax (x y : float) : float := if (x <? y)%float then y else x.

(** [sum(xs)] started from the [int] 0, as CPython before 3.12 computes
    it: one addition per item, left to right. *)
Definition sum_left_to_right (xs : list float) : float :=
  foldl (fun acc x => (acc + x)%float) zero xs.

(** [sum(xs)] as CPython 3.12 and later computes it: the first item is
    added to 0, the others go through Neumaier's compensated loop, and
    a finite non-zero compensation is added at the end. *)
Definition neumaier_step (st : float * float) (x : float) : float * float :=
  let '(f_result, c) := st in
  let t := (f_result + x)%float in
  let c' :=
    if (abs x <=? abs f_result)%float
    then (c + ((f_result - t) + x))%float
    else (c + ((x - t) + f_result))%float in
  (t, c').

Definition sum_compensated (xs : list float) : float :=
  match xs with
  | [] => zero
  | x :: rest =>
      let '(f_result, c) := foldl neumaier_step ((zero + x)%float, zero) rest in
      if negb (is_zero c) && is_finite c then (f_result + c)%float
      else f_result
  end.

End F64.

(** ** [kats/risk/position_sizer.py] in binary64 *)

Module Sizer64.
Import PrimFloat F64 Enums.

(** [RISK_BY_REGIME]. *)
Definition RISK_BY_REGIME (r : MarketRegime) : float :=
  match r with
  | STRONG_BULL => dec 2 100
  | BULL => dec 18 1000
  | SIDEWAYS => dec 12 1000
  | BEAR => dec 8 1000
  | STRONG_BEAR => dec 5 1000
  end.

(** [GRADE_LIMIT]: grade D has no entry. *)
Definition GRADE_LIMIT (g : StockGrade) : option float :=
  match g with
  | A => Some (dec 30 100)
  | B => Some (dec 20 100)
  | C => Some (dec 10 100)
  | D => None
  end.

(** [CONFIDENCE_MULTIPLIER]. *)
Definition CONFIDENCE_MULTIPLIER (c : Z) : option float :=
  if c =? 5 then Some (dec 100 100)
  else if c =? 4 then Some (dec 75 100)
  else if c =? 3 then Some (dec 50 100)
  else None.

Definition DEFAULT_R_TARGET : float := dec 3 1.

(** The dictionary returned by [calculate]; a rejection also carries its
    reason. *)
Record result := mkResult {
  accepted : bool;
  reason : option string;
  position_amount : Z;
  position_pct : float;
  quantity : Z;
  risk_amount_1r : Z;
  stop_loss_pct : float;
  r_multiple_target : float;
  regime_risk_pct : float;
  grade_limit_pct : float;
  confidence_multiplier : float
}.

(** [_rejection(reason)]. *)
Definition _rejection (why : string) : result :=
  mkResult false (Some why) 0 zero 0 0 zero zero zero zero zero.

(** [PositionSizer().calculate(...)], the sizer built with its default
    tables.  The arguments are [int]s: the stop distance is an [int / int]
    division, [total_capital] is converted to a double where it meets a
    float, and [min(raw_amount, grade_cap_amount)] goes back to an [int]
    through [int()]. *)
Definition calculate (total_capital : Z) (regime : MarketRegime)
    (entry_price stop_loss : Z) (grade : StockGrade) (confidence : Z)
  : res result :=
  if decide (confidence <= 2) then Ok (_rejection "confidence_too_low")
  else if decide (stop_loss >= entry_price) then
    Ok (_rejection "stop_loss_above_entry")
  else if decide (grade = D) then Ok (_rejection "grade_d_prohibited")
  else
    let regime_risk_pct := RISK_BY_REGIME regime in
    stop_loss_pct ← div_int (entry_price - stop_loss) entry_price;
    let conf_mult := default (dec 50 100) (CONFIDENCE_MULTIPLIER confidence) in
    let grade_limit_pct := default (dec 10 100) (GRADE_LIMIT grade) in
    capital ← of_int total_capital;
    raw_amount ←
      truediv (capital * regime_risk_pct * conf_mult)%float stop_loss_pct;
    let grade_cap_amount := (capital * grade_limit_pct)%float in
    position_amount0 ← py_int (fmin raw_amount grade_cap_amount);
    let position_amount1 := Z.max position_amount0 0 in
    let quantity :=
      if decide (entry_price > 0) then position_amount1 / entry_price else 0 in
    let position_amount := quantity * entry_price in
    position_pct ←
      (if decide (total_capital > 0)
       then div_int position_amount total_capital else Ok zero);
    let risk_amount_1r := quantity * (entry_price - stop_loss) in
    Ok (mkResult true None position_amount (py_round position_pct 6)
                 quantity risk_amount_1r (py_round stop_loss_pct 6)
                 DEFAULT_R_TARGET (py_round regime_risk_pct 6)
                 (py_round grade_limit_pct 6) conf_mult).

(** The quantity as the specification words it, every number read as
    the decimal it is written as and the arithmetic exact:
    [floor(floor(min(raw, cap)) / entry_price)]. *)
Definition claimed_quantity (total_capital : Z) (regime : MarketRegime)
    (entry_price stop_loss : Z) (grade : StockGrade) (confidence : Z) : Z :=
  let raw :=
    (Num.of_Z total_capital * Sizer.RISK_BY_REGIME regime
     * default (Num.dec 50 100) (Sizer.CONFIDENCE_MULTIPLIER confidence)
     / (Num.of_Z (entry_price - stop_loss) / Num.of_Z entry_price))%Qc in
  let cap :=
    (Num.of_Z total_capital
     * default (Num.dec 10 100) (Sizer.GRADE_LIMIT grade))%Qc in
  Num.floor (Num.of_Z (Num.floor (Num.qmin raw cap)) / Num.of_Z entry_price).

End Sizer64.

(** ** [kats/risk/margin_guard.py] in binary64 *)

Module Margin64.
Import PrimFloat F64.
Import Margin (dict_set, dict_get, dict_sum, balance_query, NoFunction,
               QueryFails, Balance, upper).

Definition COMMISSION_RATE : float := dec 15 100000.
Definition TAX_RATE : float := dec 18 10000.
Definition _TOTAL_FEE_RATE : float :=
  (COMMISSION_RATE * dec 2 1 + TAX_RATE)%float.
Definition _BALANCE_CACHE_TTL_SEC : float := dec 5 1.

(** The guard: amounts are [int]s, the clock of the cache is the double
    [time.monotonic()] returned. *)
Record t := mk {
  cached_balance : Z;
  cache_timestamp : float;
  pending_reservations : list (string * Z)
}.

(** [_get_available_cash]; [now] is [time.monotonic()]. *)
Definition _get_available_cash (s : t) (now : float) (q : balance_query)
  : Z * t :=
  let s1 :=
    if (_BALANCE_CACHE_TTL_SEC <? now - cache_timestamp s)%float then
      match q with
      | Balance b => mk b now (pending_reservations s)
      | QueryFails | NoFunction => s
      end
    else s in
  let total_reserved := dict_sum (pending_reservations s1) in
  (Z.max 0 (cached_balance s1 - total_reserved), s1).

(** [int(gross_amount * _TOTAL_FEE_RATE)]: the [int] is converted to a
    double, multiplied, and the product truncated. *)
Definition fee_amount (gross_amount : Z) : res Z :=
  gross ← of_int gross_amount;
  py_int (gross * _TOTAL_FEE_RATE)%float.

(** The key [f"{stock_code}_{int(time.monotonic() * 1000)}"]. *)
Definition reservation_key (stock_code : string) (now : float) : res string :=
  ms ← py_int (now * dec 1000 1)%float;
  Ok (stock_code +:+ "_" +:+ pretty ms).

(** What a call does: it passes a sell, refuses, reserves, or lets an
    exception of the arithmetic through. *)
Inductive verdict :=
| SellPass
| Insufficient (required gross fee available shortfall : Z)
| Validated (required available : Z) (key : string)
| Raises (e : raised).

Definition verdict_ok (v : verdict) : bool :=
  match v with SellPass | Validated _ _ _ => true | _ => false end.

(** [validate_order]; [now1] is the clock read by [_get_available_cash],
    [now2] the later one read for the reservation key.  The fee is
    computed before the guard's state is touched, the key after the cache
    was refreshed. *)
Definition validate_order (s : t) (now1 now2 : float) (q : balance_query)
    (stock_code : string) (quantity price : Z) (order_type : string)
  : verdict * t :=
  if decide (upper order_type = "SELL") then (SellPass, s)
  else
    let gross_amount := quantity * price in
    match fee_amount gross_amount with
    | Raise e => (Raises e, s)
    | Ok fee_amount =>
        let required_amount := gross_amount + fee_amount in
        let '(available, s1) := _get_available_cash s now1 q in
        if decide (available < required_amount) then
          (Insufficient required_amount gross_amount fee_amount available
                        (required_amount - available), s1)
        else
          match reservation_key stock_code now2 with
          | Raise e => (Raises e, s1)
          | Ok key =>
              (Validated required_amount available key,
               mk (cached_balance s1) (cache_timestamp s1)
                  (dict_set key required_amount (pending_reservations s1)))
          end
    end.

(** The required cash as the specification words it:
    [qty * price * 1.00195], exactly. *)
Definition claimed_required (quantity price : Z) : Qc :=
  (Num.of_Z (quantity * price) * Num.dec 100195 100000)%Qc.

End Margin64.

(** ** [kats/risk/global_position_lock.py] in binary64 *)

Module PositionLock64.
Import PrimFloat F64.

(** [GRADE_HARD_CAP]. *)
Definition GRADE_HARD_CAP : gmap string float :=
  <["A" := dec 30 1]> (<["B" := dec 20 1]> (<["C" := dec 10 1]>
    (<["D" := zero]> ∅))).

(** A dictionary [strategy_code -> reserved_pct] in insertion order,
    which is the order [sum] adds its values in: an association list with
    distinct keys, oldest first. *)
Fixpoint dict_get (k : string) (d : list (string * float)) : option float :=
  match d with
  | [] => None
  | (k', v') :: rest => if decide (k' = k) then Some v' else dict_get k rest
  end.

(** [d[k] = v]: an existing key keeps its place. *)
Fixpoint dict_set (k : string) (v : float) (d : list (string * float))
  : list (string * float) :=
  match d with
  | [] => [(k, v)]
  | (k', v') :: rest =>
      if decide (k' = k) then (k, v) :: rest else (k', v') :: dict_set k v rest
  end.

(** [d.pop(k, default)], the dictionary that is left. *)
Fixpoint dict_remove (k : string) (d : list (string * float))
  : list (string * float) :=
  match d with
  | [] => []
  | (k', v') :: rest =>
      if decide (k' = k) then rest else (k', v') :: dict_remove k rest
  end.

Record StockReservation := mkReservation {
  stock_code : string;
  grade : string;
  reservations : list (string * float)
}.

Record t := mk {
  grade_caps : gmap string float;
  held : gmap string StockReservation   (* [_reservations] *)
}.

(** [GlobalPositionLock()]. *)
Definition init : t := mk GRADE_HARD_CAP ∅.

(** [_get_cap]. *)
Definition _get_cap (s : t) (g : string) : float :=
  default zero (grade_caps s !! g).

(** What a call reports; the message text is an f-string over these
    numbers. *)
Inductive outcome :=
| Denied (projected cap current_total additional remaining : float)
| Reserved (additional total : float)
| NotFound
| NoStrategyReservation
| Released (released_pct remaining : float).

Definition ok (o : outcome) : bool :=
  match o with Reserved _ _ | Released _ _ => true | _ => false end.

Section Sum.

(** The built-in [sum] on the values of a dictionary of doubles.  How it
    adds depends on the interpreter ([F64.sum_left_to_right],
    [F64.sum_compensated]); the lock is defined over any of them. *)
Variable sum : list float -> float.

(** The property [total_pct]: [sum(self.reservations.values())]. *)
Definition total_pct (r : StockReservation) : float :=
  sum (reservations r).*2.

(** [reservation.total_pct if reservation else 0.0]. *)
Definition current_total_of (reservation : option StockReservation) : float :=
  match reservation with Some r => total_pct r | None => zero end.

(** [check_and_reserve(stock_code, grade, additional_pct, strategy_code)],
    the body that runs under the lock. *)
Definition check_and_reserve (s : t) (stock grade_ : string)
    (additional_pct : float) (strategy : string) : outcome * t :=
  let cap := _get_cap s grade_ in
  let reservation := held s !! stock in
  let current_total := current_total_of reservation in
  let projected := (current_total + additional_pct)%float in
  if (cap <? projected)%float then
    (Denied projected cap current_total additional_pct
            (fmax zero (cap - current_total)%float), s)
  else
    let r :=
      match reservation with
      | Some r => r
      | None => mkReservation stock grade_ []
      end in
    let prev := default zero (dict_get strategy (reservations r)) in
    let r' := mkReservation (stock_code r) (grade r)
                (dict_set strategy (prev + additional_pct)%float
                          (reservations r)) in
    (Reserved additional_pct (total_pct r'),
     mk (grade_caps s) (<[stock := r']> (held s))).

(** [release(stock_code, strategy_code)].  The strategy's entry is popped
    before the zero test. *)
Definition release (s : t) (stock strategy : string) : outcome * t :=
  match held s !! stock with
  | None => (NotFound, s)
  | Some r =>
      let released_pct := default zero (dict_get strategy (reservations r)) in
      let r' := mkReservation (stock_code r) (grade r)
                  (dict_remove strategy (reservations r)) in
      if (released_pct =? zero)%float then
        (NoStrategyReservation, mk (grade_caps s) (<[stock := r']> (held s)))
      else
        match reservations r' with
        | [] => (Released released_pct zero,
                 mk (grade_caps s) (delete stock (held s)))
        | _ => (Released released_pct (total_pct r'),
                mk (grade_caps s) (<[stock := r']> (held s)))
        end
  end.

End Sum.

End PositionLock64.

(** ** [kats/order/pyramid_manager.py] in binary64 *)

Module Pyramid64.
Import PrimFloat F64.
Import Pyramid (py_index).

Record PyramidConfig := mkConfig {
  max_stages : Z;
  stage_ratios : list float;
  profit_trigger_pct : list float
}.

Section Sum.

(** The built-in [sum] on a tuple of doubles ([F64.sum_left_to_right] or
    [F64.sum_compensated], by interpreter). *)
Variable sum : list float -> float.

(** [__post_init__] returns without raising. *)
Definition config_ok (c : PyramidConfig) : bool :=
  (Z.of_nat (length (stage_ratios c)) =? max_stages c)
  && (Z.of_nat (length (profit_trigger_pct c)) =? max_stages c)
  && (dec 99 100 <=? sum (stage_ratios c))%float
  && (sum (stage_ratios c) <=? dec 101 100)%float.

End Sum.

Definition DEFAULT_PYRAMID_CONFIG : PyramidConfig :=
  mkConfig 3 [dec 5 10; dec 3 10; dec 2 10] [zero; dec 5 1; dec 10 1].

Record stage_record := mkStageRecord {
  sr_stage : Z;
  sr_fill_price : float;
  sr_fill_quantity : Z;
  sr_timestamp : float
}.

Record pyramid_state := mkPState {
  current_stage : Z;
  stages_executed : list stage_record
}.

Record t := mk {
  config : PyramidConfig;
  _pyramid_state : gmap string pyramid_state
}.

(** The position dictionary.  [avg_entry_price] is the value the
    dictionary holds, which [float()] converts; a missing ["order_type"]
    key is read as ["BUY"]. *)
Record position := mkPosition {
  trade_id : string;
  stock_code : string;
  avg_entry_price : number;
  order_type : option string;
  total_planned_quantity : Z
}.

Definition position_order_type (p : position) : string :=
  default "BUY" (order_type p).

Record opportunity := mkOpportunity {
  o_stage : Z;
  o_stock_code : string;
  o_trade_id : string;
  o_quantity : Z;
  o_ratio : float;
  o_trigger_pct : float;
  o_current_profit_pct : float;
  o_current_price : number;
  o_avg_entry_price : float
}.

Inductive answer :=
| NoOpportunity                       (* the call returns [None] *)
| Intent (o : opportunity)
| IndexError
| Raises (e : raised).

(** The state looked up for [trade_id], with the default of [dict.get]. *)
Definition state_of (m : t) (id : string) : pyramid_state :=
  default (mkPState 0 []) (_pyramid_state m !! id).

(** [((current_price - avg_entry_price) / avg_entry_price) * 100] on
    doubles. *)
Definition profit_pct (avg_entry_price current_price : float) : res float :=
  q ← truediv (current_price - avg_entry_price)%float avg_entry_price;
  Ok (q * dec 100 1)%float.

(** [int(total_planned_qty * stage_ratio)]. *)
Definition stage_quantity (total_planned_qty : Z) (stage_ratio : float)
  : res Z :=
  planned ← of_int total_planned_qty;
  py_int (planned * stage_ratio)%float.

(** [check_pyramid_opportunity(position, current_price)]. *)
Definition check_pyramid_opportunity (m : t) (p : position)
    (current_price : number) : answer :=
  match to_float (avg_entry_price p) with
  | Raise e => Raises e
  | Ok avg_entry_price =>
  if decide (position_order_type p ≠ "BUY") then NoOpportunity
  else if (avg_entry_price <=? zero)%float
          || (total_planned_quantity p <=? 0) then NoOpportunity
  else
    match price ← to_float current_price; profit_pct avg_entry_price price with
    | Raise e => Raises e
    | Ok profit =>
    if (profit <=? zero)%float then NoOpportunity
    else
      let next_stage := current_stage (state_of m (trade_id p)) + 1 in
      if decide (next_stage >= max_stages (config m)) then NoOpportunity
      else
        match py_index (profit_trigger_pct (config m)) next_stage with
        | None => IndexError
        | Some trigger_pct =>
            if (profit <? trigger_pct)%float then NoOpportunity
            else
              match py_index (stage_ratios (config m)) next_stage with
              | None => IndexError
              | Some stage_ratio =>
                  match stage_quantity (total_planned_quantity p)
                                       stage_ratio with
                  | Raise e => Raises e
                  | Ok qty =>
                      Intent (mkOpportunity next_stage (stock_code p)
                                (trade_id p) (Z.max 1 qty) stage_ratio
                                trigger_pct (py_round profit 2) current_price
                                avg_entry_price)
                  end
              end
        end
    end
  end.

(** The profit in percent and the add-on quantity as the specification
    words them, every number read as the decimal it is written as and
    the arithmetic exact. *)
Definition claimed_profit_pct (avg_entry_price current_price : Qc) : Qc :=
  ((current_price - avg_entry_price) / avg_entry_price * Num.of_Z 100)%Qc.

Definition claimed_quantity (total_planned_qty : Z) (stage_ratio : Qc) : Z :=
  Z.max 1 (Num.floor (Num.of_Z total_planned_qty * stage_ratio)).

End Pyramid64.

(** ** [kats/order/paper_trading.py] in binary64 *)

Module Paper64.
Import PrimFloat F64.

Definition MAX_INSTANT_FILL_RATIO : float := dec 20 100.
Definition MARKET_IMPACT_COEFF : float := dec 5 100.
Definition BASE_SLIPPAGE_PCT : float := dec 1 10.

(** [OrderbookData] of [kats/market/realtime_cache.py]. *)
Record OrderbookData := mkBook {
  ask_prices : list float;
  ask_volumes : list Z;
  bid_prices : list float;
  bid_volumes : list Z;
  total_ask_volume : Z;
  total_bid_volume : Z;
  book_timestamp : float
}.

(** The order dictionary: [quantity] is [int(order["quantity"])], [price]
    the entry that [float(order.get("price", 0))] converts. *)
Record order := mkOrder {
  stock_code : string;
  order_type : string;
  quantity : Z;
  price : option number
}.

Record paper_position := mkPos {
  pos_quantity : Z;
  avg_price : float;
  total_cost : float;
  realized_pnl : float
}.

Record t := mk {
  _paper_positions : gmap string paper_position;
  _paper_cash : float
}.

Inductive fill_kind := FULL_INSTANT | PARTIAL_SIMULATED.

Record fill := mkFill {
  success : bool;
  fill_type : option fill_kind;
  fill_price : float;
  fill_quantity : Z;
  remaining_quantity : Z;
  slippage_pct : float;
  slippage_amount : float;
  market_impact_pct : float;
  requested_price : float;
  error : option string
}.

(** The side of the book an order is matched against and the direction
    its price slips: a BUY takes the asks and pays more, anything else
    takes the bids and receives less. *)
Definition is_buy (o : order) : bool := bool_decide (order_type o = "BUY").

Definition best_price_of (book : OrderbookData) (o : order) : float :=
  if is_buy o then default zero (head (ask_prices book))
  else default zero (head (bid_prices book)).

Definition best_volume_of (book : OrderbookData) (o : order) : Z :=
  if is_buy o then default 0 (head (ask_volumes book))
  else default 0 (head (bid_volumes book)).

(** [best_price * (1 + pct / 100)] for a BUY,
    [best_price * (1 - pct / 100)] otherwise. *)
Definition slipped (o : order) (best_price pct : float) : float :=
  if is_buy o then (best_price * (one + pct / dec 100 1))%float
  else (best_price * (one - pct / dec 100 1))%float.

(** The two refusals; the reasons stand for the Korean texts of the
    source. *)
Definition refusal (o : order) (requested_price : float) (why : string)
  : fill :=
  mkFill false None zero 0 (quantity o) zero zero zero requested_price
         (Some why).

(** [_update_paper_account(order, fill_price, fill_quantity)].  A
    position found in the dictionary is the stored object itself, so
    what is assigned to it before an exception stays assigned; a fresh
    default position is stored only by the last statement. *)
Definition _update_paper_account (e : t) (o : order) (fill_price : float)
    (fill_quantity : Z) : res unit * t :=
  match of_int fill_quantity with
  | Raise err => (Raise err, e)
  | Ok filled =>
      let trade_amount := (fill_price * filled)%float in
      let stored := _paper_positions e !! stock_code o in
      let p := default (mkPos 0 zero zero zero) stored in
      let assigned := fun p' : paper_position =>
        match stored with
        | Some _ => mk (<[stock_code o := p']> (_paper_positions e))
                       (_paper_cash e)
        | None => e
        end in
      if decide (order_type o = "BUY") then
        let new_qty := pos_quantity p + fill_quantity in
        let new_cost := (total_cost p + trade_amount)%float in
        if decide (new_qty > 0) then
          match of_int new_qty with
          | Raise err =>
              (Raise err,
               assigned (mkPos new_qty (avg_price p) new_cost (realized_pnl p)))
          | Ok held =>
              (Ok (),
               mk (<[stock_code o :=
                       mkPos new_qty (new_cost / held)%float new_cost
                             (realized_pnl p)]> (_paper_positions e))
                  (_paper_cash e - trade_amount)%float)
          end
        else
          (Ok (),
           mk (<[stock_code o := mkPos new_qty zero new_cost (realized_pnl p)]>
                 (_paper_positions e))
              (_paper_cash e - trade_amount)%float)
      else if decide (order_type o = "SELL") then
        let pnl := ((fill_price - avg_price p) * filled)%float in
        let q' := pos_quantity p - fill_quantity in
        let realized := (realized_pnl p + pnl)%float in
        if decide (q' > 0) then
          match of_int q' with
          | Raise err =>
              (Raise err,
               assigned (mkPos q' (avg_price p) (total_cost p) realized))
          | Ok held =>
              (Ok (),
               mk (<[stock_code o :=
                       mkPos q' (avg_price p) (avg_price p * held)%float
                             realized]> (_paper_positions e))
                  (_paper_cash e + trade_amount)%float)
          end
        else
          (Ok (),
           mk (<[stock_code o := mkPos q' zero zero realized]>
                 (_paper_positions e))
              (_paper_cash e + trade_amount)%float)
      else
        (Ok (), mk (<[stock_code o := p]> (_paper_positions e)) (_paper_cash e))
  end.

(** [int(best_volume * MAX_INSTANT_FILL_RATIO)]. *)
Definition instant_volume (best_volume : Z) : res Z :=
  volume ← of_int best_volume;
  py_int (volume * MAX_INSTANT_FILL_RATIO)%float.

(** [execute_virtual_order(order)]; [cache] is the order-book table of the
    realtime cache the engine reads. *)
Definition execute_virtual_order (e : t) (cache : gmap string OrderbookData)
    (o : order) : res fill * t :=
  match to_float (default (Int 0) (price o)) with
  | Raise err => (Raise err, e)
  | Ok requested_price =>
  match cache !! stock_code o with
  | None => (Ok (refusal o requested_price "no orderbook"), e)
  | Some orderbook =>
      let best_price := best_price_of orderbook o in
      let best_volume := best_volume_of orderbook o in
      if (best_price <=? zero)%float || (best_volume <=? 0) then
        (Ok (refusal o requested_price "invalid orderbook"), e)
      else
        match div_int (quantity o) best_volume with
        | Raise err => (Raise err, e)
        | Ok fill_ratio =>
        let plan : res (fill_kind * Z * Z * float * float) :=
          if (MAX_INSTANT_FILL_RATIO <? fill_ratio)%float then
            fq0 ← instant_volume best_volume;
            let fq := if decide (fq0 < 1) then 1 else fq0 in
            let impact := ((fill_ratio - MAX_INSTANT_FILL_RATIO)
                           * MARKET_IMPACT_COEFF * dec 100 1)%float in
            Ok (PARTIAL_SIMULATED, fq, quantity o - fq, impact,
                (BASE_SLIPPAGE_PCT + impact)%float)
          else
            Ok (FULL_INSTANT, quantity o, 0, zero, BASE_SLIPPAGE_PCT) in
        match plan with
        | Raise err => (Raise err, e)
        | Ok (kind, fill_quantity, remaining_quantity, market_impact,
              total_slippage) =>
            let fill_price := slipped o best_price total_slippage in
            match of_int fill_quantity with
            | Raise err => (Raise err, e)
            | Ok filled =>
                let slippage_amount :=
                  (abs (fill_price - best_price) * filled)%float in
                let '(updated, e') :=
                  _update_paper_account e o fill_price fill_quantity in
                match updated with
                | Raise err => (Raise err, e')
                | Ok _ =>
                    (Ok (mkFill true (Some kind) (py_round fill_price 2)
                           fill_quantity remaining_quantity
                           (py_round total_slippage 4)
                           (py_round slippage_amount 2)
                           (py_round market_impact 4)
                           requested_price None),
                     e')
                end
            end
        end
        end
  end
  end.

(** [get_paper_position(stock_code)]. *)
Definition get_paper_position (e : t) (code : string)
  : option paper_position :=
  _paper_positions e !! code.

(** [reset(initial_cash)]. *)
Definition reset (initial_cash : float) : t := mk ∅ initial_cash.

(** The fill as the specification words it, every number read as the
    decimal it is written as and the arithmetic exact: the price
    [p * (1 +/- 0.001)] of a full fill and the [floor(0.2 * v)] shares of
    a partial one. *)
Definition claimed_full_price (buy : bool) (p : Qc) : Qc :=
  if buy then (p * (1 + Num.dec 1 1000))%Qc
  else (p * (1 - Num.dec 1 1000))%Qc.

Definition claimed_partial_quantity (v : Z) : Z :=
  Num.floor (Num.dec 2 10 * Num.of_Z v).

End Paper64.

(** * Properties *)

(** ** Moving a goal over [Qc] to [Q], where [lra] and [field] work *)

Lemma Qc_eq_Qeq (x y : Qc) : x = y <-> (this x == this y)%Q.
Proof. split; [intros ->; reflexivity | apply Qc_is_canon]. Qed.

Ltac qc_to_q :=
  repeat match goal with
  | H : @eq Qc _ _ |- _ => apply Qc_eq_Qeq in H
  | H : ~ @eq Qc _ _ |- _ => rewrite Qc_eq_Qeq in H
  | |- @eq Qc _ _ => apply Qc_eq_Qeq
  | |- ~ @eq Qc _ _ => rewrite Qc_eq_Qeq
  end;
  unfold Qcle, Qclt, Qcminus, Qcdiv, Qcplus, Qcmult, Qcopp, Qcinv,
         Num.dec, Num.of_Z, Qc_of_Z, Q2Qc in *;
  cbn [this] in *;
  rewrite ?Qred_correct in *.

(** ** The daily kill switch *)

Module KillSwitchFacts.
Import Num KillSwitch.



(** C10.  A switch that is not killed and whose starting capital is zero
    or negative answers [True] to every [check], whatever the current
    capital, and is left as it was. *)
Theorem check_true_without_starting_capital (s : t) (current_capital : Z) :
  is_killed s = false ->
  starting_capital s <= 0 ->
  check s current_capital = (true, s).
Proof.
  intros Hk Hc. unfold check. rewrite Hk.
  destruct (decide (starting_capital s <= 0)); [reflexivity | contradiction].
Qed.

Lemma check_true_without_starting_capital_witness :
  is_killed (init (dec 3 100) 0) = false /\
  starting_capital (init (dec 3 100) 0) <= 0 /\
  check (init (dec 3 100) 0) (-5000000) = (true, init (dec 3 100) 0).
Proof.
  split; [reflexivity | split; [cbn; lia |]].
  apply check_true_without_starting_capital; [reflexivity | cbn; lia].
Defined.




End KillSwitchFacts.

(** ** The drawdown protocol *)

Module DrawdownFacts.
Import Num Drawdown.

Lemma classify_yellow (daily monthly cumulative : Qc) :
  (daily ≤ - dec 3 100)%Qc ->
  (- dec 6 100 < monthly)%Qc ->
  (- dec 10 100 < cumulative)%Qc ->
  _classify daily monthly cumulative = YELLOW.
Proof.
  intros Hd Hm Hc. unfold _classify.
  destruct (decide (cumulative ≤ - _CUMULATIVE_BLACK_THRESHOLD)%Qc) as [H | _].
  { exfalso. unfold _CUMULATIVE_BLACK_THRESHOLD in H. qc_to_q. lra. }
  destruct (decide (cumulative ≤ - _CUMULATIVE_RED_THRESHOLD)%Qc) as [H | _].
  { exfalso. unfold _CUMULATIVE_RED_THRESHOLD in H. qc_to_q. lra. }
  destruct (decide (monthly ≤ - _MONTHLY_ORANGE_THRESHOLD)%Qc) as [H | _].
  { exfalso. unfold _MONTHLY_ORANGE_THRESHOLD in H. qc_to_q. lra. }
  destruct (decide (daily ≤ - _DAILY_YELLOW_LOW)%Qc) as [_ | H]; [reflexivity |].
  exfalso. apply H. exact Hd.
Qed.

(** The 16:30 of [now]'s own day is still ahead exactly when the time of
    day is before 16:30. *)
Lemma before_close (now : PyTime.datetime) :
  PyTime.leb (PyTime.replace_time now 16 30) now
  = negb (PyTime.time_of_day now <? 59400000000).
Proof.
  unfold PyTime.leb, PyTime.ltb, PyTime.replace_time, PyTime.date_key,
         PyTime.time_of_day. cbn.
  rewrite Z.ltb_irrefl, Z.eqb_refl. reflexivity.
Qed.

(** C6, as the code has it.  From level NONE with no halt running, a daily
    loss of 3% or more with the monthly loss under 6% and the cumulative
    loss under 10% answers YELLOW with trading halted and position scale
    0; the halt ends at the next 16:30: today's when the call is made
    before 16:30, tomorrow's when it is made at 16:30 or later. *)
Theorem yellow_halts_until_next_close
    (s : DrawdownState) (now : PyTime.datetime) (daily monthly cumulative : Qc) :
  level s = NONE ->
  halt_active s now = false ->
  (daily ≤ - dec 3 100)%Qc ->
  (- dec 6 100 < monthly)%Qc ->
  (- dec 10 100 < cumulative)%Qc ->
  let r := (evaluate_and_respond s now daily monthly cumulative).1 in
  r_level r = YELLOW /\
  r_trading_halted r = true /\
  r_position_scale r = 0%Qc /\
  r_halt_until r =
    Some (if PyTime.time_of_day now <? 59400000000
          then PyTime.replace_time now 16 30
          else PyTime.add_day (PyTime.replace_time now 16 30)).
Proof.
  intros Hl Hh Hd Hm Hc r. subst r.
  unfold evaluate_and_respond.
  change (halt_active _ now) with (halt_active s now). rewrite Hh.
  cbn [level]. rewrite Hl, (classify_yellow _ _ _ Hd Hm Hc).
  cbn. repeat split.
  unfold yellow_halt_until. rewrite before_close.
  destruct (PyTime.time_of_day now <? 59400000000); reflexivity.
Qed.

Lemma yellow_halts_until_next_close_witness :
  r_halt_until
    (evaluate_and_respond initial (PyTime.mkDatetime 2025 3 4 10 15 0 0)
       (- dec 35 1000)%Qc (- dec 2 100)%Qc (- dec 4 100)%Qc).1
  = Some (PyTime.mkDatetime 2025 3 4 16 30 0 0).
Proof.
  apply (yellow_halts_until_next_close initial
           (PyTime.mkDatetime 2025 3 4 10 15 0 0)
           (- dec 35 1000)%Qc (- dec 2 100)%Qc (- dec 4 100)%Qc);
    [reflexivity | reflexivity | vm_compute; discriminate
    | vm_compute; reflexivity | vm_compute; reflexivity].
Defined.

(** C6 as the claim words it fails after the close: a fresh protocol asked
    at 17:00 on 4 March 2025 with a daily loss of 3.5% halts until 16:30
    of 5 March, not of 4 March. *)
Lemma yellow_after_close_halts_until_tomorrow :
  ~ (forall (s : DrawdownState) (now : PyTime.datetime)
            (daily monthly cumulative : Qc),
       level s = NONE ->
       halt_active s now = false ->
       (daily ≤ - dec 3 100)%Qc ->
       (- dec 6 100 < monthly)%Qc ->
       (- dec 10 100 < cumulative)%Qc ->
       r_halt_until (evaluate_and_respond s now daily monthly cumulative).1
       = Some (PyTime.replace_time now 16 30)).
Proof.
  intros H.
  specialize (H initial (PyTime.mkDatetime 2025 3 4 17 0 0 0)
                (- dec 35 1000)%Qc (- dec 2 100)%Qc (- dec 4 100)%Qc).
  assert (E : r_halt_until
                (evaluate_and_respond initial
                   (PyTime.mkDatetime 2025 3 4 17 0 0 0)
                   (- dec 35 1000)%Qc (- dec 2 100)%Qc (- dec 4 100)%Qc).1
              = Some (PyTime.mkDatetime 2025 3 5 16 30 0 0))
    by (vm_compute; reflexivity).
  rewrite E in H.
  assert (Hbad : Some (PyTime.mkDatetime 2025 3 5 16 30 0 0)
                 = Some (PyTime.replace_time
                           (PyTime.mkDatetime 2025 3 4 17 0 0 0) 16 30)).
  { apply H; [reflexivity | reflexivity | vm_compute; discriminate
             | vm_compute; reflexivity | vm_compute; reflexivity]. }
  discriminate Hbad.
Qed.

End DrawdownFacts.

(** ** Integers as rationals *)

Module NumFacts.
Import Num.

Lemma of_Z_pos (n : Z) : 0 < n -> (0 < of_Z n)%Qc.
Proof.
  intros H. unfold of_Z. rewrite <- Z2Qc_inj_0.
  apply (proj1 (Z2Qc_inj_lt 0 n)). exact H.
Qed.

End NumFacts.

(** ** The margin guard *)

Module MarginFacts.
Import Num Margin.

Lemma dict_get_set (k : string) (v : Z) (d : list (string * Z)) :
  dict_get k (dict_set k v d) = Some v.
Proof.
  induction d as [| [k' v'] d IH]; cbn.
  - destruct (decide (k = k)); [reflexivity | contradiction].
  - destruct (decide (k' = k)) as [-> | Hne]; cbn.
    + destruct (decide (k = k)); [reflexivity | contradiction].
    + destruct (decide (k' = k)); [contradiction | exact IH].
Qed.

Lemma dict_get_set_other (k k0 : string) (v : Z) (d : list (string * Z)) :
  k0 <> k -> dict_get k0 (dict_set k v d) = dict_get k0 d.
Proof.
  intros Hne. induction d as [| [k' v'] d IH]; cbn.
  - destruct (decide (k = k0)); [congruence | reflexivity].
  - destruct (decide (k' = k)) as [-> | Hk]; cbn.
    + destruct (decide (k = k0)); [congruence | reflexivity].
    + destruct (decide (k' = k0)); [reflexivity | exact IH].
Qed.

End MarginFacts.

(** ** The global position lock *)

Module PositionLockFacts.
Import Num PositionLock.

(** *** Reserve followed by release *)

Lemma reservation_eta (r : StockReservation) :
  mkReservation (stock_code r) (grade r) (reservations r) = r.
Proof. destruct r; reflexivity. Qed.

Lemma lock_eta (s : t) : mk (grade_caps s) (held s) = s.
Proof. destruct s; reflexivity. Qed.

(** C9, as the code has it.  [release] drops everything the strategy
    holds on the stock, so it undoes a reservation exactly when that
    reservation was the strategy's first on the stock.  If the request is
    granted, its percentage is not zero, the strategy held nothing on the
    stock before, and the stock's record, if there is one, is not empty,
    then releasing at once gives back the lock as it was before the
    reserve. *)
Theorem reserve_then_release_restores
    (s : t) (stock g : string) (pct : Qc) (strategy : string) :
  ok (check_and_reserve s stock g pct strategy).1 = true ->
  pct <> 0%Qc ->
  (forall r, held s !! stock = Some r ->
     reservations r !! strategy = None /\ reservations r <> ∅) ->
  ok (release (check_and_reserve s stock g pct strategy).2 stock strategy).1
  = true /\
  (release (check_and_reserve s stock g pct strategy).2 stock strategy).2 = s.
Proof.
  intros Hok Hpct Hfresh. unfold check_and_reserve in *.
  destruct (decide (_ < _)%Qc) as [Hden | _]; [discriminate Hok |].
  clear Hok. cbn [snd]. unfold release. cbn [held grade_caps].
  rewrite lookup_insert_eq. cbn [reservations stock_code grade].
  rewrite lookup_insert_eq. cbn [default]. unfold id.
  destruct (held s !! stock) as [r |] eqn:E.
  - destruct (Hfresh r eq_refl) as [Hnone Hne].
    rewrite Hnone. cbn [default]. rewrite Qcplus_0_l.
    destruct (decide (pct = 0%Qc)) as [Hz | _]; [contradiction |].
    rewrite delete_insert_id by exact Hnone.
    destruct (decide (reservations r = ∅)) as [He | _]; [contradiction |].
    cbn [fst snd ok]. split; [reflexivity |].
    rewrite insert_insert_eq, reservation_eta, (insert_id _ _ _ E).
    apply lock_eta.
  - cbn [reservations]. rewrite lookup_empty. cbn [default].
    rewrite Qcplus_0_l.
    destruct (decide (pct = 0%Qc)) as [Hz | _]; [contradiction |].
    rewrite delete_insert_id by apply lookup_empty.
    destruct (decide (∅ = ∅)) as [_ | Hn]; [| contradiction].
    cbn [fst snd ok]. split; [reflexivity |].
    rewrite delete_insert_id by exact E. apply lock_eta.
Qed.

Lemma reserve_then_release_restores_witness :
  (release (check_and_reserve init "005930" "A" (of_Z 15) "S3").2
           "005930" "S3").2 = init.
Proof.
  apply (reserve_then_release_restores init "005930" "A" (of_Z 15) "S3").
  - vm_compute. reflexivity.
  - vm_compute. discriminate.
  - intros r H. cbn in H. rewrite lookup_empty in H. discriminate.
Defined.

(** C9 as the claim words it fails when the strategy already holds a
    reservation on the stock: S3 holds 5% of 005930, reserves 5% more and
    releases; the release drops the whole 10% and the lock ends up empty,
    not back at the 5%. *)
Lemma release_drops_earlier_reservation :
  not (forall (s : t) (stock g : string) (pct : Qc) (strategy : string),
         ok (check_and_reserve s stock g pct strategy).1 = true ->
         (release (check_and_reserve s stock g pct strategy).2
                  stock strategy).2 = s).
Proof.
  intros H.
  pose (s := (check_and_reserve init "005930" "A" (of_Z 5) "S3").2).
  specialize (H s "005930" "A" (of_Z 5) "S3").
  assert (Hok : ok (check_and_reserve s "005930" "A" (of_Z 5) "S3").1 = true)
    by (vm_compute; reflexivity).
  specialize (H Hok).
  apply (f_equal (fun x => held x !! "005930")) in H.
  vm_compute in H. discriminate H.
Qed.

End PositionLockFacts.

(** ** The order state machine *)

Module OrderSMFacts.
Import Num OrderSM.

(** *** Paths *)

Lemma is_path_snoc (p : list OrderState) (a b : OrderState) :
  last p = Some a ->
  is_path (p ++ [b]) = is_path p && allowed a b.
Proof.
  induction p as [| x p IH]; intros Hl; [discriminate |].
  destruct p as [| y p].
  - cbn in Hl. injection Hl as ->. cbn. now rewrite andb_true_r.
  - change (last (y :: p) = Some a) in Hl.
    change (is_path ((x :: y :: p) ++ [b]))
      with (allowed x y && is_path ((y :: p) ++ [b])).
    rewrite (IH Hl). cbn [is_path]. now rewrite andb_assoc.
Qed.

Lemma nothing_after_terminal_snoc (p : list OrderState) (a b : OrderState) :
  last p = Some a ->
  nothing_after_terminal (p ++ [b])
  = nothing_after_terminal p && negb (bool_decide (a ∈ _TERMINAL_STATES)).
Proof.
  induction p as [| x p IH]; intros Hl; [discriminate |].
  destruct p as [| y p].
  - cbn in Hl. injection Hl as ->. cbn. now rewrite andb_true_r.
  - change (last (y :: p) = Some a) in Hl.
    change (nothing_after_terminal ((x :: y :: p) ++ [b]))
      with (negb (bool_decide (x ∈ _TERMINAL_STATES))
            && nothing_after_terminal ((y :: p) ++ [b])).
    rewrite (IH Hl). cbn [nothing_after_terminal]. now rewrite andb_assoc.
Qed.

Lemma path_ok_snoc (p : list OrderState) (a b : OrderState) :
  path_ok p -> last p = Some a ->
  bool_decide (a ∈ _TERMINAL_STATES) = false -> allowed a b = true ->
  path_ok (p ++ [b]).
Proof.
  intros (Hh & Hp & Hn) Hl Ht Ha. repeat split.
  - destruct p; [discriminate | exact Hh].
  - rewrite (is_path_snoc p a b Hl), Hp, Ha. reflexivity.
  - rewrite (nothing_after_terminal_snoc p a b Hl), Hn, Ht. reflexivity.
Qed.

(** A terminal state has no permitted edge out of it. *)
Lemma terminal_not_allowed (a b : OrderState) :
  a ∈ _TERMINAL_STATES -> allowed a b = false.
Proof.
  unfold _TERMINAL_STATES. rewrite !elem_of_cons, elem_of_nil.
  intros [-> | [-> | [-> | [-> | [-> | []]]]]]; reflexivity.
Qed.

(** *** What a transition writes *)

Lemma merge_keeps (metadata : option (gmap string scalar))
    (order : gmap string pyval) (k : string) :
  k ∈ protected_keys -> merge_metadata metadata order !! k = order !! k.
Proof.
  intros Hk. destruct metadata as [md |]; [| reflexivity].
  unfold merge_metadata. apply lookup_union_r.
  rewrite lookup_fmap.
  destruct (filter _ md !! k) as [v |] eqn:E; [| reflexivity].
  apply map_lookup_filter_Some in E as [_ Hn]. cbn in Hn. contradiction.
Qed.

Lemma state_protected : "state" ∈ protected_keys.
Proof. unfold protected_keys. set_solver. Qed.

Lemma history_protected : "history" ∈ protected_keys.
Proof. unfold protected_keys. set_solver. Qed.

Lemma perform_spec (order : gmap string pyval) (h : list history_entry)
    (new_state : OrderState) (metadata : option (gmap string scalar))
    (now : Qc) :
  order !! "history" = Some (History h) ->
  exists order',
    perform order new_state metadata now = (order', None) /\
    order' !! "state" = Some (Scalar (SState new_state)) /\
    order' !! "history"
    = Some (History (h ++ [mkEntry (value new_state) now metadata])).
Proof.
  intros Hh. unfold perform.
  rewrite lookup_insert_ne by discriminate.
  rewrite lookup_insert_ne by discriminate.
  rewrite Hh. eexists. split; [reflexivity |].
  rewrite (merge_keeps _ _ _ state_protected),
          (merge_keeps _ _ _ history_protected).
  split.
  - rewrite lookup_insert_ne by discriminate.
    rewrite lookup_insert_ne by discriminate.
    apply lookup_insert_eq.
  - apply lookup_insert_eq.
Qed.

(** The transition rule, for an order whose ["state"] holds a member of
    [OrderState]: from a terminal state, or along a pair that is not a
    permitted edge, [transition] raises [InvalidStateTransition] and the
    machine is left as it was. *)
Lemma transition_refused (sm : t) (order_id : string)
    (order : gmap string pyval) (old new_state : OrderState)
    (metadata : option (gmap string scalar)) (now : Qc) :
  _orders sm !! order_id = Some order ->
  order !! "state" = Some (Scalar (SState old)) ->
  old ∈ _TERMINAL_STATES \/ allowed old new_state = false ->
  transition sm order_id new_state metadata now
  = Raised (InvalidStateTransition order_id old new_state) sm.
Proof.
  intros Ho Hs Hbad. unfold transition. rewrite Ho, Hs. cbn [state_like].
  assert (E : bool_decide (old ∈ _TERMINAL_STATES)
              || negb (allowed old new_state) = true).
  { destruct Hbad as [Ht | Ha].
    - rewrite (bool_decide_eq_true_2 _ Ht). reflexivity.
    - rewrite Ha. apply orb_true_r. }
  rewrite E. reflexivity.
Qed.

(** And along a permitted edge out of a state that is not
    terminal the state becomes [new_state] and exactly one entry, for
    [new_state], is appended to the history. *)
Lemma transition_performed (sm : t) (order_id : string)
    (order : gmap string pyval) (h : list history_entry)
    (old new_state : OrderState)
    (metadata : option (gmap string scalar)) (now : Qc) :
  _orders sm !! order_id = Some order ->
  order !! "state" = Some (Scalar (SState old)) ->
  order !! "history" = Some (History h) ->
  old ∉ _TERMINAL_STATES -> allowed old new_state = true ->
  exists order',
    transition sm order_id new_state metadata now
    = Returned order' (mk (<[order_id := order']> (_orders sm))) /\
    order' !! "state" = Some (Scalar (SState new_state)) /\
    order' !! "history"
    = Some (History (h ++ [mkEntry (value new_state) now metadata])).
Proof.
  intros Ho Hs Hh Ht Ha. unfold transition. rewrite Ho, Hs. cbn [state_like].
  rewrite (bool_decide_eq_false_2 _ Ht), Ha. cbn [orb negb].
  destruct (perform_spec order h new_state metadata now Hh)
    as (order' & Hp & Hs' & Hh').
  rewrite Hp. exists order'. repeat split; assumption.
Qed.

(** *** The invariant of a machine whose orders were created without a
    ["state"] or ["history"] key in their data *)

Lemma sound_insert (sm : t) (order_id : string) (order : gmap string pyval) :
  sound sm ->
  (exists p, path_ok p /\ records_path order p) ->
  sound (mk (<[order_id := order]> (_orders sm))).
Proof.
  intros Hs Ho id' o'. cbn [_orders].
  destruct (decide (order_id = id')) as [<- | Hne].
  - rewrite lookup_insert_eq. intros [= <-]. exact Ho.
  - rewrite lookup_insert_ne by exact Hne. apply Hs.
Qed.

Lemma sound_create (sm : t) (order_id : string)
    (order_data : gmap string pyval) (now : Qc) :
  sound sm ->
  order_data !! "state" = None -> order_data !! "history" = None ->
  sound (after (create_order sm order_id order_data now)).
Proof.
  intros Hs Hst Hhi. unfold create_order.
  destruct (_orders sm !! order_id) eqn:E; [exact Hs |].
  cbn [after]. apply sound_insert; [exact Hs |].
  exists [CREATED]. split; [repeat split |].
  exists [mkEntry (value CREATED) now None], CREATED.
  repeat split.
  - rewrite (lookup_union_r _ _ _ Hhi). reflexivity.
  - rewrite (lookup_union_r _ _ _ Hst). reflexivity.
Qed.

Lemma sound_transition (sm : t) (order_id : string) (new_state : OrderState)
    (metadata : option (gmap string scalar)) (now : Qc) :
  sound sm -> sound (after (transition sm order_id new_state metadata now)).
Proof.
  intros Hs.
  destruct (_orders sm !! order_id) as [order |] eqn:Eo.
  2:{ unfold transition. rewrite Eo. exact Hs. }
  destruct (Hs order_id order Eo) as (p & Hp & h & cur & Hh & Hhs & Hl & Hst).
  destruct (decide (cur ∈ _TERMINAL_STATES)) as [Ht | Ht].
  { rewrite (transition_refused sm order_id order cur new_state metadata now
               Eo Hst (or_introl Ht)). exact Hs. }
  destruct (allowed cur new_state) eqn:Ea.
  2:{ rewrite (transition_refused sm order_id order cur new_state metadata now
                 Eo Hst (or_intror Ea)). exact Hs. }
  destruct (transition_performed sm order_id order h cur new_state metadata
              now Eo Hst Hh Ht Ea) as (order' & -> & Hs' & Hh').
  cbn [after]. apply sound_insert; [exact Hs |].
  exists (p ++ [new_state]). split.
  - apply (path_ok_snoc p cur new_state Hp Hl); [| exact Ea].
    now apply bool_decide_eq_false_2.
  - exists (h ++ [mkEntry (value new_state) now metadata]), new_state.
    repeat split.
    + exact Hh'.
    + rewrite !fmap_app, Hhs. reflexivity.
    + apply last_snoc.
    + exact Hs'.
Qed.

(** X20.  For machines whose orders were created from data without a
    ["state"] or ["history"] key, every order's history is
    a path through the permitted edges that starts at CREATED, ends at the
    order's state and has no state after a terminal one. *)
Lemma history_is_path_when_creation_is_plain (sm : t) :
  reachable sm -> sound sm.
Proof.
  induction 1 as [| sm id data now _ IH Hst Hhi | sm id new md now _ IH].
  - intros id o H. cbn in H. rewrite lookup_empty in H. discriminate.
  - now apply sound_create.
  - now apply sound_transition.
Qed.

(** C1 at the input on which the code departs from it.  [create_order]
    lets [order_data] overwrite the ["state"] key it has just set, while
    the history still starts with CREATED: an order created with
    [{"state": OrderState.SUBMITTED}] is held in state SUBMITTED with
    history [CREATED]; [transition] to FILLED is then accepted, and the
    history reads CREATED, FILLED, which is not a permitted edge. *)
Theorem create_order_data_overrides_state :
  let sm1 :=
    after (create_order (mk ∅) "ORD-1"
             {[ "state" := Scalar (SState SUBMITTED) ]} (of_Z 0)) in
  let out := transition sm1 "ORD-1" FILLED None (of_Z 1) in
  (exists order,
     _orders sm1 !! "ORD-1" = Some order /\
     order !! "state" = Some (Scalar (SState SUBMITTED)) /\
     history_states order = Some ["CREATED"]) /\
  (exists order',
     out = Returned order' (after out) /\
     order' !! "state" = Some (Scalar (SState FILLED)) /\
     history_states order' = Some ["CREATED"; "FILLED"]) /\
  allowed CREATED FILLED = false /\
  is_path [CREATED; FILLED] = false.
Proof.
  cbv zeta. split; [| split; [| split; reflexivity]].
  - eexists. split; [vm_compute; reflexivity |].
    split; vm_compute; reflexivity.
  - eexists. split; [vm_compute; reflexivity |].
    split; vm_compute; reflexivity.
Qed.

End OrderSMFacts.

(** ** Comparisons of doubles *)

Module F64Facts.
Import PrimFloat SpecFloat FloatOps FloatAxioms F64.

(** A double above zero is not at or below it. *)
Lemma ltb_zero_not_leb (x : float) :
  (zero <? x)%float = true -> (x <=? zero)%float = false.
Proof.
  rewrite ltb_spec, leb_spec.
  change (Prim2SF zero) with (S754_zero false).
  destruct (Prim2SF x) as [s | s | | s m e]; cbn; try discriminate.
  - destruct s; [discriminate | reflexivity].
  - destruct s; [discriminate | reflexivity].
Qed.

(** A double that is not at or below zero is not zero. *)
Lemma not_leb_zero_not_zero (x : float) :
  (x <=? zero)%float = false -> is_zero x = false.
Proof.
  unfold is_zero. rewrite eqb_spec, leb_spec.
  change (Prim2SF zero) with (S754_zero false).
  destruct (Prim2SF x) as [s | s | | s m e]; cbn; try discriminate;
    try reflexivity;
    destruct s; try reflexivity; discriminate.
Qed.

End F64Facts.

(** ** The position sizer in binary64 *)

Module Sizer64Facts.
Import PrimFloat F64 Enums Sizer64.

(** C5.  With positive capital and entry price [calculate] returns a
    rejection (not accepted, quantity 0) when the confidence is 2 or
    less, the stop is at or above the entry, or the grade is D, and
    whatever it returns is a rejection exactly then.  Otherwise the
    arithmetic is that of doubles: [capital] is [float(total_capital)],
    the stop distance the rounded quotient of two [int]s, [raw] the
    rounded product [capital * risk * conf_mult] divided by the stop
    distance, [cap] the rounded product of [capital] and the grade
    limit.  A result the call returns has quantity
    [max(int(min(raw, cap)), 0) // entry_price], position amount quantity
    times entry price and 1R quantity times the stop distance; and the
    call returns such a result whenever none of these steps, nor the
    final [position_amount / total_capital], raises. *)
Theorem calculate_rejects_or_sizes_binary64
    (total_capital : Z) (regime : MarketRegime) (entry_price stop_loss : Z)
    (grade : StockGrade) (confidence : Z) :
  0 < total_capital ->
  0 < entry_price ->
  let rejected := confidence <= 2 \/ stop_loss >= entry_price \/ grade = D in
  let call :=
    calculate total_capital regime entry_price stop_loss grade confidence in
  let risk := RISK_BY_REGIME regime in
  let conf_mult := default (dec 50 100) (CONFIDENCE_MULTIPLIER confidence) in
  let limit := default (dec 10 100) (GRADE_LIMIT grade) in
  (rejected -> exists r, call = Ok r /\ accepted r = false /\ quantity r = 0)
  /\
  (forall r, call = Ok r -> (accepted r = false <-> rejected))
  /\
  (forall r, call = Ok r -> accepted r = true ->
     exists capital stop_pct raw amount,
       of_int total_capital = Ok capital /\
       div_int (entry_price - stop_loss) entry_price = Ok stop_pct /\
       truediv (capital * risk * conf_mult)%float stop_pct = Ok raw /\
       py_int (fmin raw (capital * limit)%float) = Ok amount /\
       quantity r = Z.max amount 0 / entry_price /\
       position_amount r = quantity r * entry_price /\
       risk_amount_1r r = quantity r * (entry_price - stop_loss))
  /\
  (~ rejected ->
   forall capital stop_pct raw amount pct,
     of_int total_capital = Ok capital ->
     div_int (entry_price - stop_loss) entry_price = Ok stop_pct ->
     truediv (capital * risk * conf_mult)%float stop_pct = Ok raw ->
     py_int (fmin raw (capital * limit)%float) = Ok amount ->
     div_int (Z.max amount 0 / entry_price * entry_price) total_capital
     = Ok pct ->
     exists r, call = Ok r /\ accepted r = true).
Proof.
  intros Hcap Hentry rejected call risk conf_mult limit.
  subst call. unfold calculate. fold risk conf_mult limit.
  destruct (decide (confidence <= 2)) as [Hc | Hc].
  { split; [intros _; eexists; repeat split |].
    split; [intros r [= <-]; split; [intros _; left; exact Hc | reflexivity] |].
    split; [intros r [= <-]; discriminate |].
    intros []. left; exact Hc. }
  destruct (decide (stop_loss >= entry_price)) as [Hs | Hs].
  { split; [intros _; eexists; repeat split |].
    split; [intros r [= <-]; split;
            [intros _; right; left; exact Hs | reflexivity] |].
    split; [intros r [= <-]; discriminate |].
    intros []. right; left; exact Hs. }
  destruct (decide (grade = D)) as [Hg | Hg].
  { split; [intros _; eexists; repeat split |].
    split; [intros r [= <-]; split;
            [intros _; right; right; exact Hg | reflexivity] |].
    split; [intros r [= <-]; discriminate |].
    intros []. right; right; exact Hg. }
  assert (Hnot : ~ rejected) by (intros [H | [H | H]]; contradiction).
  destruct (decide (entry_price > 0)) as [_ | H]; [| lia].
  destruct (decide (total_capital > 0)) as [_ | H]; [| lia].
  split; [intros H; contradiction |].
  destruct (div_int (entry_price - stop_loss) entry_price)
    as [stop_pct | e1] eqn:E1; cbn;
    [| repeat split; try discriminate; intros; discriminate].
  destruct (of_int total_capital) as [capital | e2] eqn:E2; cbn;
    [| repeat split; try discriminate; intros; discriminate].
  destruct (truediv (capital * risk * conf_mult)%float stop_pct)
    as [raw | e3] eqn:E3; cbn;
    [| repeat split; try discriminate; intros _ ? ? ? ? ? [= <-] [= <-];
       rewrite E3; discriminate].
  destruct (py_int (fmin raw (capital * limit)%float))
    as [amount | e4] eqn:E4; cbn;
    [| repeat split; try discriminate;
       intros _ ? ? ? ? ? [= <-] [= <-]; rewrite E3; intros [= <-];
       rewrite E4; discriminate].
  destruct (div_int (Z.max amount 0 / entry_price * entry_price)
                    total_capital) as [pct | e5] eqn:E5; cbn.
  - split; [intros r [= <-]; cbn; split; [discriminate | contradiction] |].
    split.
    + intros r [= <-] _. exists capital, stop_pct, raw, amount.
      cbn. repeat split; assumption.
    + intros _ ? ? ? ? ? _ _ _ _ _. eexists; split; reflexivity.
  - repeat split; try discriminate.
    intros _ ? ? ? ? ? [= <-] [= <-]. rewrite E3. intros [= <-].
    rewrite E4. intros [= <-]. rewrite E5. discriminate.
Qed.

(** The docstring's call with grade A: capital 100,000,000, BULL, entry
    50,000, stop 47,500, confidence 4.  The doubles give
    [raw = 26999999.999999993], so 26,999,999 won and 539 shares. *)
Lemma calculate_rejects_or_sizes_binary64_witness :
  exists r,
    calculate 100000000 BULL 50000 47500 A 4 = Ok r /\
    accepted r = true /\ quantity r = 539 /\
    position_amount r = 26950000 /\ risk_amount_1r r = 1347500.
Proof.
  destruct (calculate_rejects_or_sizes_binary64
              100000000 BULL 50000 47500 A 4) as (_ & _ & Hsize & Hret);
    [lia | lia |].
  destruct (Hret ltac:(intros [H | [H | H]]; [lia | lia | discriminate])
              (dec 100000000 1) (dec 5 100)
              (dec 26999999999999993 1000000000) 26999999
              (dec 26950000 100000000))
    as (r & Hr & Hacc); try (vm_compute; reflexivity).
  exists r. split; [exact Hr |]. split; [exact Hacc |].
  destruct (Hsize r Hr Hacc)
    as (capital & stop_pct & raw & amount & H1 & H2 & H3 & H4 & Hq & Hp & H1r).
  assert (amount = 26999999).
  { vm_compute in H1. injection H1 as <-.
    vm_compute in H2. injection H2 as <-.
    vm_compute in H3. injection H3 as <-.
    vm_compute in H4. injection H4 as <-. reflexivity. }
  subst amount. rewrite Hp, H1r, Hq. repeat split.
Defined.

(** C5 as the claim words it fails, however its arithmetic is read.
    Read with the decimals it is written with, the claim's quantity for
    the docstring's call with grade A is 540 (raw is 27,000,000), and
    the call returns 539.  Read on the doubles, the claim promises a
    result for every positive capital, and a capital of 10^400 has no
    double: the call raises [OverflowError]. *)
Lemma calculate_misses_the_exact_quantity :
  (claimed_quantity 100000000 BULL 50000 47500 A 4 = 540 /\
   exists r,
     calculate 100000000 BULL 50000 47500 A 4 = Ok r /\
     quantity r = 539 /\
     quantity r <> claimed_quantity 100000000 BULL 50000 47500 A 4)
  /\
  calculate (10 ^ 400) BULL 50000 47500 A 4 = Raise OverflowError.
Proof.
  assert (Hc : claimed_quantity 100000000 BULL 50000 47500 A 4 = 540)
    by (vm_compute; reflexivity).
  split; [| vm_compute; reflexivity].
  split; [exact Hc |].
  eexists. split; [vm_compute; reflexivity |].
  rewrite Hc. cbn. split; [reflexivity | discriminate].
Qed.

(** What an accepted result was computed from: [budget] is
    [int(min(raw_amount, grade_cap_amount))]. *)
Lemma accepted_result_inv
    (total_capital : Z) (regime : MarketRegime) (entry_price stop_loss : Z)
    (grade : StockGrade) (confidence : Z) (r : result) :
  0 < entry_price ->
  calculate total_capital regime entry_price stop_loss grade confidence
  = Ok r ->
  accepted r = true ->
  stop_loss < entry_price /\
  exists capital stop_pct raw budget,
    of_int total_capital = Ok capital /\
    div_int (entry_price - stop_loss) entry_price = Ok stop_pct /\
    truediv (capital * RISK_BY_REGIME regime
             * default (dec 50 100) (CONFIDENCE_MULTIPLIER confidence))%float
            stop_pct = Ok raw /\
    py_int (fmin raw (capital * default (dec 10 100) (GRADE_LIMIT grade))%float)
    = Ok budget /\
    quantity r = Z.max budget 0 / entry_price /\
    position_amount r = quantity r * entry_price /\
    risk_amount_1r r = quantity r * (entry_price - stop_loss).
Proof.
  intros Hentry. unfold calculate.
  destruct (decide (confidence <= 2)); [intros [= <-]; discriminate |].
  destruct (decide (stop_loss >= entry_price)) as [| Hs];
    [intros [= <-]; discriminate |].
  destruct (decide (grade = D)); [intros [= <-]; discriminate |].
  destruct (decide (entry_price > 0)) as [_ | H]; [| lia].
  destruct (div_int _ _) as [stop_pct |]; cbn; [| discriminate].
  destruct (of_int _) as [capital |]; cbn; [| discriminate].
  destruct (truediv _ _) as [raw |] eqn:E3; cbn; [| discriminate].
  destruct (py_int _) as [budget |] eqn:E4; cbn; [| discriminate].
  destruct (if decide (total_capital > 0) then _ else _) as [pct |]; cbn;
    [| discriminate].
  intros [= <-] _. cbn. split; [lia |].
  exists capital, stop_pct, raw, budget. repeat split; assumption.
Qed.

(** X7.  An accepted size stays within the truncated budget.  With a
    positive entry price, a result that [calculate] returns as accepted
    holds a whole, non-negative number of shares; the amount it
    allocates is that number times the entry price, is not more than
    [max(int(min(raw_amount, grade_cap_amount)), 0)], the budget in
    whole won, and is less than one entry price below it; and when the
    stop is not negative, the amount at risk is not negative and not
    more than the amount allocated. *)
Theorem accepted_size_within_budget
    (total_capital : Z) (regime : MarketRegime) (entry_price stop_loss : Z)
    (grade : StockGrade) (confidence : Z) (r : result) :
  0 < entry_price ->
  calculate total_capital regime entry_price stop_loss grade confidence
  = Ok r ->
  accepted r = true ->
  0 <= quantity r /\
  position_amount r = quantity r * entry_price /\
  (exists capital stop_pct raw budget,
     of_int total_capital = Ok capital /\
     div_int (entry_price - stop_loss) entry_price = Ok stop_pct /\
     truediv (capital * RISK_BY_REGIME regime
              * default (dec 50 100) (CONFIDENCE_MULTIPLIER confidence))%float
             stop_pct = Ok raw /\
     py_int (fmin raw (capital * default (dec 10 100) (GRADE_LIMIT grade))%float)
     = Ok budget /\
     position_amount r <= Z.max budget 0 < position_amount r + entry_price) /\
  (0 <= stop_loss -> 0 <= risk_amount_1r r <= position_amount r).
Proof.
  intros Hentry Hcall Hacc.
  destruct (accepted_result_inv _ _ _ _ _ _ _ Hentry Hcall Hacc)
    as (Hstop & capital & stop_pct & raw & budget
        & H1 & H2 & H3 & H4 & Hq & Hp & Hr).
  assert (Hb : 0 <= Z.max budget 0) by lia.
  pose proof (Z.div_pos _ _ Hb Hentry) as Hq0.
  pose proof (Z.mul_div_le (Z.max budget 0) entry_price Hentry) as Hle.
  pose proof (Z.mul_succ_div_gt (Z.max budget 0) entry_price Hentry) as Hgt.
  rewrite <- Hq in Hq0, Hle, Hgt.
  split; [exact Hq0 |]. split; [exact Hp |].
  split.
  - exists capital, stop_pct, raw, budget.
    repeat (split; [assumption |]). rewrite Hp. nia.
  - intros Hs. rewrite Hr, Hp. nia.
Qed.

(** The docstring's call with grade A holds 539 shares for 26,950,000
    won, cut from a budget of 26,999,999, with 1,347,500 at risk. *)
Lemma accepted_size_within_budget_witness :
  exists r,
    calculate 100000000 BULL 50000 47500 A 4 = Ok r /\
    position_amount r = 26950000 /\
    0 <= risk_amount_1r r <= position_amount r.
Proof.
  eexists. split; [vm_compute; reflexivity |].
  split; [reflexivity |].
  eapply (accepted_size_within_budget 100000000 BULL 50000 47500 A 4);
    [lia | vm_compute; reflexivity | reflexivity | lia].
Defined.

End Sizer64Facts.

(** ** The margin guard in binary64 *)

Module Margin64Facts.
Import PrimFloat F64 Margin64.
Import Margin (dict_set, dict_get, dict_sum, balance_query, NoFunction,
               QueryFails, Balance, upper).

(** C4, as the code has it.  For an order that is not a SELL the gross
    amount is [qty * price] and the fee is
    [int(float(gross) * (0.00015 * 2 + 0.0018))], the product being that
    of doubles and then truncated; if this raises, the call raises and
    the guard is unchanged.  Otherwise the required cash is gross plus
    fee, the available cash is the cached balance minus the pending
    reservations but never below zero, and the order is refused with the
    shortfall exactly when the available cash is below the required
    cash, nothing being reserved then; else the required cash is stored
    under the key made of the stock code and the millisecond clock, and
    every other reservation is kept. *)
Theorem validate_order_buy_binary64
    (s : t) (now1 now2 : float) (q : balance_query) (stock_code : string)
    (quantity price : Z) (order_type : string) :
  upper order_type <> "SELL" ->
  let gross := quantity * price in
  let s1 := (_get_available_cash s now1 q).2 in
  let available :=
    Z.max 0 (cached_balance s1 - dict_sum (pending_reservations s1)) in
  let '(v, s') :=
    validate_order s now1 now2 q stock_code quantity price order_type in
  (forall e, fee_amount gross = Raise e -> v = Raises e /\ s' = s) /\
  (forall fee, fee_amount gross = Ok fee ->
     let required := gross + fee in
     (verdict_ok v = false <->
        available < required \/
        exists e, reservation_key stock_code now2 = Raise e) /\
     (available < required ->
        v = Insufficient required gross fee available (required - available)
        /\ s' = s1) /\
     (~ available < required ->
        (forall e, reservation_key stock_code now2 = Raise e ->
           v = Raises e /\ s' = s1) /\
        (forall key, reservation_key stock_code now2 = Ok key ->
           v = Validated required available key /\
           cached_balance s' = cached_balance s1 /\
           dict_get key (pending_reservations s') = Some required /\
           forall k, k <> key ->
             dict_get k (pending_reservations s')
             = dict_get k (pending_reservations s1)))).
Proof.
  intros Hbuy gross s1 available.
  unfold validate_order.
  destruct (decide (upper order_type = "SELL")) as [E | _]; [contradiction |].
  fold gross.
  destruct (fee_amount gross) as [fee | e0] eqn:Efee.
  2:{ split; [intros e [= <-]; split; reflexivity | intros fee; discriminate]. }
  destruct (_get_available_cash s now1 q) as [av s1'] eqn:Ecash.
  assert (Hs1 : s1' = s1) by (subst s1; reflexivity).
  assert (Hav : av = available).
  { subst available s1. unfold _get_available_cash in *.
    injection Ecash as <- <-. reflexivity. }
  rewrite Hav, Hs1. clear Hav Hs1 Ecash.
  destruct (decide (available < gross + fee)) as [Hlt | Hge].
  { split; [intros e; discriminate |].
    intros fee' [= <-]. cbv zeta.
    split; [split; [intros _; left; exact Hlt | reflexivity] |].
    split; [intros _; split; reflexivity | intros H; contradiction]. }
  destruct (reservation_key stock_code now2) as [key | e1] eqn:Ekey.
  - split; [intros e; discriminate |].
    intros fee' [= <-]. cbv zeta.
    split.
    { split; [discriminate |].
      intros [H | [e H]]; [contradiction | discriminate]. }
    split; [intros H; contradiction |].
    intros _. split; [intros e; discriminate |].
    intros key' [= <-]. cbn [pending_reservations cached_balance].
    split; [reflexivity | split; [reflexivity |]].
    split; [apply MarginFacts.dict_get_set |].
    intros k Hk. now apply MarginFacts.dict_get_set_other.
  - split; [intros e; discriminate |].
    intros fee' [= <-]. cbv zeta.
    split; [split; [intros _; right; eexists; reflexivity | reflexivity] |].
    split; [intros H; contradiction |].
    intros _. split; [| intros key; discriminate].
    intros e [= <-]. split; reflexivity.
Qed.

(** The docstring's order of the paper engine, 100 shares at 72,000, on
    a balance of 10,000,000: the product of doubles is
    15119.999999999998, the fee 15,119 and the reservation 7,215,119. *)
Lemma validate_order_buy_binary64_witness :
  upper "buy" <> "SELL" /\
  (validate_order (mk 10000000 zero []) one one NoFunction
                  "005930" 100 72000 "buy").1
  = Validated 7215119 10000000 "005930_1000".
Proof.
  assert (Hbuy : upper "buy" <> "SELL") by (vm_compute; discriminate).
  split; [exact Hbuy |].
  pose proof (validate_order_buy_binary64 (mk 10000000 zero []) one one
                NoFunction "005930" 100 72000 "buy" Hbuy) as H.
  cbv zeta in H.
  destruct (validate_order (mk 10000000 zero []) one one NoFunction "005930"
              100 72000 "buy") as [v s'].
  destruct H as (_ & H).
  destruct (H 15119 ltac:(vm_compute; reflexivity)) as (_ & _ & H').
  destruct H' as (_ & H'); [vm_compute; discriminate |].
  destruct (H' "005930_1000" ltac:(vm_compute; reflexivity)) as [-> _].
  reflexivity.
Defined.

(** C4 as the claim words it fails.  The rate the code uses is
    2 * 0.015% + 0.18% = 0.21%, not 0.195%: with a balance of 1,002,000 a
    buy of 1,000 shares at 1,000 needs 1,001,950 by the claim's factor
    1.00195, which the balance covers, yet the code requires 1,002,100
    and refuses.  And the amount stored for 100 shares at 72,000 is
    7,215,119, not the claim's 7,214,040. *)
Lemma required_cash_is_not_gross_times_rate :
  not (forall (s : t) (now1 now2 : float) (q : balance_query)
            (stock_code : string) (quantity price : Z),
       let s1 := (_get_available_cash s now1 q).2 in
       verdict_ok
         (validate_order s now1 now2 q stock_code quantity price "BUY").1
       = false
       <-> (Num.of_Z (cached_balance s1
                      - dict_sum (pending_reservations s1))
            < claimed_required quantity price)%Qc)
  /\
  claimed_required 100 72000 = Num.of_Z 7214040
  /\
  (validate_order (mk 10000000 zero []) one one NoFunction
                  "005930" 100 72000 "BUY").1
  = Validated 7215119 10000000 "005930_1000".
Proof.
  split; [| split].
  - intros H.
    specialize (H (mk 1002000 zero []) one one NoFunction "005930" 1000 1000).
    cbv zeta in H. destruct H as [H _].
    assert (Hrej : verdict_ok
                     (validate_order (mk 1002000 zero []) one one NoFunction
                        "005930" 1000 1000 "BUY").1 = false)
      by (vm_compute; reflexivity).
    specialize (H Hrej). vm_compute in H. discriminate H.
  - apply Qc_is_canon. vm_compute. reflexivity.
  - vm_compute. reflexivity.
Qed.

End Margin64Facts.

(** ** The position lock in binary64 *)

Module PositionLock64Facts.
Import PrimFloat F64 PositionLock64.






End PositionLock64Facts.

(** ** The pyramid manager in binary64 *)

Module Pyramid64Facts.
Import PrimFloat F64 Pyramid64 F64Facts.
Import Pyramid (py_index).

(** The shape of the goal on every path that returns no intent: what is
    left is to refute the right-hand side of the equivalence. *)
Ltac no_intent :=
  split;
  [ split; [ let o := fresh "o" in let Ho := fresh "Ho" in
             intros [o Ho]; discriminate Ho | ]
  | split; [ let o := fresh "o" in let Ho := fresh "Ho" in
             intros o Ho; discriminate Ho | ] ].

(** C7 on the doubles.  Let [avg] be [float(avg_entry_price)], above
    zero, [price] the current price as a double, the planned quantity
    positive, and [profit] the double
    [((price - avg) / avg) * 100].  [check_pyramid_opportunity] returns
    an add-on intent exactly when the order type is BUY, [profit <= 0]
    is false, the next stage is below [max_stages], the tuples have an
    entry for it, [profit < trigger] is false for its trigger, and
    [int(float(total_planned_quantity) * ratio)] does not raise for its
    ratio.  The intent's quantity is the larger of 1 and that integer,
    and its profit is [round(profit, 2)].  A position with
    [profit <= 0] gets no intent, and the call raises only what the
    quantity's conversion raises. *)
Theorem pyramid_opportunity_binary64
    (m : t) (p : position) (current_price : number) (avg price : float) :
  to_float (avg_entry_price p) = Ok avg ->
  (zero <? avg)%float = true ->
  0 < total_planned_quantity p ->
  to_float current_price = Ok price ->
  let profit := ((price - avg) / avg * dec 100 1)%float in
  let next_stage := current_stage (state_of m (trade_id p)) + 1 in
  let answer := check_pyramid_opportunity m p current_price in
  ((exists o, answer = Intent o) <->
     position_order_type p = "BUY" /\
     (profit <=? zero)%float = false /\
     next_stage < max_stages (config m) /\
     exists trigger ratio qty,
       py_index (profit_trigger_pct (config m)) next_stage = Some trigger /\
       (profit <? trigger)%float = false /\
       py_index (stage_ratios (config m)) next_stage = Some ratio /\
       stage_quantity (total_planned_quantity p) ratio = Ok qty) /\
  (forall o, answer = Intent o ->
     o_stage o = next_stage /\
     o_current_profit_pct o = py_round profit 2 /\
     exists ratio qty,
       py_index (stage_ratios (config m)) next_stage = Some ratio /\
       stage_quantity (total_planned_quantity p) ratio = Ok qty /\
       o_quantity o = Z.max 1 qty) /\
  ((profit <=? zero)%float = true -> answer = NoOpportunity) /\
  (forall e, answer = Raises e ->
     exists ratio,
       py_index (stage_ratios (config m)) next_stage = Some ratio /\
       stage_quantity (total_planned_quantity p) ratio = Raise e).
Proof.
  intros Havg Hpos Hqty Hprice profit next_stage answer.
  subst answer. unfold check_pyramid_opportunity. fold next_stage.
  rewrite Havg, Hprice.
  pose proof (ltb_zero_not_leb _ Hpos) as Hle.
  rewrite Hle.
  destruct (total_planned_quantity p <=? 0) eqn:Eq;
    [apply Z.leb_le in Eq; lia | clear Eq].
  cbn [orb].
  assert (Hp : (price' ← Ok price; profit_pct avg price') = Ok profit).
  { cbn. unfold profit_pct, truediv.
    rewrite (not_leb_zero_not_zero _ Hle). reflexivity. }
  rewrite Hp. clear Hp.
  destruct (decide (position_order_type p ≠ "BUY")) as [Hnb | Hb].
  { no_intent.
    - intros (Hb' & _). contradiction.
    - split; [reflexivity | intros e; discriminate]. }
  apply dec_stable in Hb.
  destruct (profit <=? zero)%float eqn:Eloss.
  { no_intent.
    - intros (_ & Hp & _). discriminate Hp.
    - split; [reflexivity | intros e; discriminate]. }
  destruct (decide (next_stage >= max_stages (config m))) as [Hmax | Hmax].
  { no_intent.
    - intros (_ & _ & Hn & _). lia.
    - split; [discriminate | intros e; discriminate]. }
  destruct (py_index (profit_trigger_pct (config m)) next_stage)
    as [trigger |] eqn:Et.
  2:{ no_intent.
      - intros (_ & _ & _ & trig & ? & ? & Hn & _). discriminate Hn.
      - split; [discriminate | intros e; discriminate]. }
  destruct (profit <? trigger)%float eqn:Elow.
  { no_intent.
    - intros (_ & _ & _ & trig & ? & ? & [= <-] & Hge & _).
      rewrite Elow in Hge. discriminate Hge.
    - split; [discriminate | intros e; discriminate]. }
  destruct (py_index (stage_ratios (config m)) next_stage)
    as [ratio |] eqn:Er.
  2:{ no_intent.
      - intros (_ & _ & _ & trig & ? & ? & _ & _ & Hn & _). discriminate Hn.
      - split; [discriminate | intros e; discriminate]. }
  destruct (stage_quantity (total_planned_quantity p) ratio)
    as [qty | e0] eqn:Es.
  - split; [split |].
    + intros _. split; [exact Hb |]. split; [reflexivity |].
      split; [lia |]. exists trigger, ratio, qty. repeat split; assumption.
    + intros _. eexists; reflexivity.
    + split; [| split; [discriminate | intros e; discriminate]].
      intros o [= <-]. cbn. split; [reflexivity |]. split; [reflexivity |].
      exists ratio, qty. repeat split; assumption.
  - no_intent.
    + intros (_ & _ & _ & trig & ratio' & qty & _ & _ & [= <-] & Hq).
      rewrite Es in Hq. discriminate Hq.
    + split; [discriminate |].
      intros e [= <-]. exists ratio. split; [reflexivity | exact Es].
Qed.

(** The default configuration, a position bought at 50,000 with 200
    shares planned, and a price of 52,600: the profit is 5.2 percent, the
    trigger of stage 1 is 5.0, and the add-on is [int(200 * 0.3)] = 60
    shares. *)
Lemma pyramid_opportunity_binary64_witness :
  exists o,
    check_pyramid_opportunity (mk DEFAULT_PYRAMID_CONFIG ∅)
      (mkPosition "T-1" "005930" (Int 50000) (Some "BUY") 200)
      (Int 52600) = Intent o /\
    o_stage o = 1 /\ o_quantity o = 60 /\
    o_current_profit_pct o = dec 52 10.
Proof.
  pose proof (pyramid_opportunity_binary64 (mk DEFAULT_PYRAMID_CONFIG ∅)
                (mkPosition "T-1" "005930" (Int 50000) (Some "BUY") 200)
                (Int 52600) (dec 50000 1) (dec 52600 1)) as H.
  destruct H as (Hiff & _);
    [vm_compute; reflexivity | vm_compute; reflexivity | cbn; lia
    | vm_compute; reflexivity |].
  destruct Hiff as [_ Hback].
  destruct Hback as [o Ho].
  { split; [reflexivity |]. split; [vm_compute; reflexivity |].
    split; [vm_compute; reflexivity |].
    exists (dec 5 1), (dec 3 10), 60.
    repeat split; vm_compute; reflexivity. }
  exists o. split; [exact Ho |].
  vm_compute in Ho. injection Ho as <-. repeat split.
Defined.

(** C7 as the claim words it fails, however its arithmetic is read.
    Read with the decimals it is written with: the configuration with
    ratios (0.5, 0.29, 0.21) and triggers (0, 1.1, 10) passes
    [__post_init__] under either [sum]; for a position bought at 1,000
    with 100 shares planned, at 1,011 the profit is 1.1 percent, which
    reaches the trigger 1.1, yet the doubles give 1.0999999999999999 and
    the call returns no intent; at 1,020 the call returns an intent of 28
    shares, while [floor(100 * 0.29)] is 29.  Read on the doubles: the
    code tests [profit_pct <= 0] and [profit_pct < trigger_pct], which a
    NaN both fails, so with the default configuration a current price
    of NaN gets an intent although its profit is not above zero. *)
Lemma pyramid_misses_the_exact_trigger_and_quantity :
  let c := mkConfig 3 [dec 5 10; dec 29 100; dec 21 100]
                      [zero; dec 11 10; dec 10 1] in
  let p := mkPosition "T-1" "005930" (Int 1000) (Some "BUY") 100 in
  (config_ok sum_left_to_right c = true /\
   config_ok sum_compensated c = true /\
   (Num.dec 11 10 ≤ claimed_profit_pct (Num.of_Z 1000) (Num.of_Z 1011))%Qc /\
   check_pyramid_opportunity (mk c ∅) p (Int 1011) = NoOpportunity /\
   claimed_quantity 100 (Num.dec 29 100) = 29 /\
   exists o,
     check_pyramid_opportunity (mk c ∅) p (Int 1020) = Intent o /\
     o_quantity o = 28)
  /\
  (exists o,
     check_pyramid_opportunity (mk DEFAULT_PYRAMID_CONFIG ∅) p (Float nan)
     = Intent o /\
     o_quantity o = 30 /\
     (zero <? (nan - dec 1000 1) / dec 1000 1 * dec 100 1)%float = false).
Proof.
  cbv zeta. split.
  - split; [vm_compute; reflexivity |].
    split; [vm_compute; reflexivity |].
    split; [vm_compute; discriminate |].
    split; [vm_compute; reflexivity |].
    split; [vm_compute; reflexivity |].
    eexists. split; [vm_compute; reflexivity | reflexivity].
  - eexists. split; [vm_compute; reflexivity |].
    split; [reflexivity | vm_compute; reflexivity].
Qed.

End Pyramid64Facts.

(** ** The paper engine in binary64 *)

Module Paper64Facts.
Import PrimFloat F64 Paper64 F64Facts.

Ltac evaluate_as H t :=
  let v := eval vm_compute in t in
  assert (H : t = v) by (vm_compute; reflexivity).

(** The account update starts by converting the filled quantity, so it
    raises at once, touching nothing, when that conversion does. *)
Lemma update_raises_on_quantity (e : t) (o : order) (fill_price : float)
    (fq : Z) (err : raised) :
  of_int fq = Raise err ->
  _update_paper_account e o fill_price fq = (Raise err, e).
Proof. intros H. unfold _update_paper_account. now rewrite H. Qed.

(** What [execute_virtual_order] does once the shares to fill and the
    slippage are fixed. *)
Lemma settle (e : t) (o : order) (kind : fill_kind) (fq rem : Z)
    (impact total p requested : float) (call : res fill * t) :
  call
  = match of_int fq with
    | Raise err => (Raise err, e)
    | Ok filled =>
        let slippage_amount :=
          (abs (slipped o p total - p) * filled)%float in
        let '(updated, e') :=
          _update_paper_account e o (slipped o p total) fq in
        match updated with
        | Raise err => (Raise err, e')
        | Ok _ =>
            (Ok (mkFill true (Some kind) (py_round (slipped o p total) 2)
                   fq rem (py_round total 4) (py_round slippage_amount 2)
                   (py_round impact 4) requested None), e')
        end
    end ->
  let update := _update_paper_account e o (slipped o p total) fq in
  call.2 = update.2 /\
  ((exists r, call.1 = Ok r) <-> update.1 = Ok ()) /\
  (forall err, call.1 = Raise err <-> update.1 = Raise err) /\
  forall r, call.1 = Ok r ->
    success r = true /\ fill_type r = Some kind /\
    fill_quantity r = fq /\ remaining_quantity r = rem /\
    fill_price r = py_round (slipped o p total) 2.
Proof.
  intros -> update. subst update.
  destruct (of_int fq) as [filled | err] eqn:E.
  - destruct (_update_paper_account e o (slipped o p total) fq)
      as [[[] | err] e'] eqn:Eu; cbn.
    + split; [reflexivity |].
      split; [split; [reflexivity | intros _; eexists; reflexivity] |].
      split; [intros err; split; discriminate |].
      intros r [= <-]. cbn. repeat split.
    + split; [reflexivity |].
      split; [split; [intros [r Hr]; discriminate Hr | discriminate] |].
      split; [intros err'; split; intros [= <-]; reflexivity |].
      intros r Hr; discriminate Hr.
  - rewrite (update_raises_on_quantity _ _ _ _ _ E). cbn.
    split; [reflexivity |].
    split; [split; [intros [r Hr]; discriminate Hr | discriminate] |].
    split; [intros err'; split; intros [= <-]; reflexivity |].
    intros r Hr; discriminate Hr.
Qed.

(** C3, as the code has it on the doubles.  Let the side of the cached
    book the order is matched against have best price [p > 0] and best
    volume [v > 0], let [float(order.get("price", 0))] not raise, and let
    [ratio] be the double of [quantity / v].  If [ratio > 0.20] is false
    the order is filled whole at once, nothing remaining, at the double
    [p * (1 + 0.1 / 100)] for a BUY and [p * (1 - 0.1 / 100)] otherwise,
    rounded to two decimals in the result.  If it is true the order is
    filled in part, for [int(float(v) * 0.20)] shares but at least one,
    at [p * (1 +/- (0.1 + (ratio - 0.20) * 0.05 * 100) / 100)] rounded to
    two decimals, and what is left is the order's quantity minus the
    shares filled.  In both cases the engine's account is the one
    [_update_paper_account] leaves for the unrounded price and the shares
    filled, and the call returns exactly when that update does; it
    raises what the update, or before it the conversion of [v], raises. *)
Theorem paper_order_fill_binary64
    (e : t) (cache : gmap string OrderbookData) (o : order)
    (book : OrderbookData) (requested ratio : float) :
  cache !! stock_code o = Some book ->
  (zero <? best_price_of book o)%float = true ->
  0 < best_volume_of book o ->
  to_float (default (Int 0) (price o)) = Ok requested ->
  div_int (quantity o) (best_volume_of book o) = Ok ratio ->
  let p := best_price_of book o in
  let v := best_volume_of book o in
  let call := execute_virtual_order e cache o in
  ((MAX_INSTANT_FILL_RATIO <? ratio)%float = false ->
     let price := slipped o p BASE_SLIPPAGE_PCT in
     let update := _update_paper_account e o price (quantity o) in
     call.2 = update.2 /\
     ((exists r, call.1 = Ok r) <-> update.1 = Ok ()) /\
     (forall err, call.1 = Raise err <-> update.1 = Raise err) /\
     forall r, call.1 = Ok r ->
       success r = true /\ fill_type r = Some FULL_INSTANT /\
       fill_quantity r = quantity o /\ remaining_quantity r = 0 /\
       fill_price r = py_round price 2) /\
  ((MAX_INSTANT_FILL_RATIO <? ratio)%float = true ->
     (forall err, instant_volume v = Raise err -> call = (Raise err, e)) /\
     forall k, instant_volume v = Ok k ->
       let fq := Z.max 1 k in
       let price :=
         slipped o p
           (BASE_SLIPPAGE_PCT
            + (ratio - MAX_INSTANT_FILL_RATIO) * MARKET_IMPACT_COEFF
              * dec 100 1)%float in
       let update := _update_paper_account e o price fq in
       call.2 = update.2 /\
       ((exists r, call.1 = Ok r) <-> update.1 = Ok ()) /\
       (forall err, call.1 = Raise err <-> update.1 = Raise err) /\
       forall r, call.1 = Ok r ->
         success r = true /\ fill_type r = Some PARTIAL_SIMULATED /\
         fill_quantity r = fq /\ remaining_quantity r = quantity o - fq /\
         fill_price r = py_round price 2).
Proof.
  intros Hbook Hp Hv Hreq Hratio p v call.
  subst call. unfold execute_virtual_order.
  rewrite Hreq, Hbook. fold p v. fold p in Hp. fold v in Hv, Hratio.
  rewrite (ltb_zero_not_leb _ Hp).
  destruct (v <=? 0) eqn:Ev; [apply Z.leb_le in Ev; lia | clear Ev].
  cbn [orb]. rewrite Hratio.
  destruct (MAX_INSTANT_FILL_RATIO <? ratio)%float eqn:Eover.
  - split; [discriminate |]. intros _.
    destruct (instant_volume v) as [k | err0] eqn:Ek;
      unfold mbind, res_bind; cbv beta iota zeta.
    + split; [intros err; discriminate |].
      intros k' [= <-].
      assert (Hmax : (if decide (k < 1) then 1 else k) = Z.max 1 k)
        by (destruct (decide (k < 1)); lia).
      rewrite Hmax.
      eapply settle. reflexivity.
    + split; [intros err [= <-]; reflexivity | intros k; discriminate].
  - split; [| discriminate]. intros _. cbv beta iota zeta.
    eapply settle. reflexivity.
Qed.

(** A BUY of one share against a best ask of 1,015 holding 1,000 shares:
    the doubles give 1015 * (1 + 0.1 / 100) = 1016.0149999999999, which
    rounds to 1016.01. *)
Lemma paper_order_fill_binary64_witness :
  let book := mkBook [dec 1015 1] [1000] [dec 1014 1] [1000] 1000 1000 zero in
  let call := execute_virtual_order (mk ∅ (dec 100000000 1))
                {[ "005930" := book ]}
                (mkOrder "005930" "BUY" 1 (Some (Int 1015))) in
  exists r,
    call.1 = Ok r /\
    fill_type r = Some FULL_INSTANT /\ fill_quantity r = 1 /\
    remaining_quantity r = 0 /\ fill_price r = dec 101601 100.
Proof.
  intros book call.
  destruct (paper_order_fill_binary64 (mk ∅ (dec 100000000 1))
              {[ "005930" := book ]}
              (mkOrder "005930" "BUY" 1 (Some (Int 1015))) book
              (dec 1015 1) (dec 1 1000))
    as [Hfull _];
    [reflexivity | vm_compute; reflexivity | vm_compute; reflexivity
    | vm_compute; reflexivity | vm_compute; reflexivity |].
  destruct Hfull as (_ & Hret & _ & Hr); [vm_compute; reflexivity |].
  fold call in Hret, Hr.
  destruct Hret as [_ [r Hcall]]; [vm_compute; reflexivity |].
  exists r. split; [exact Hcall |].
  destruct (Hr r Hcall) as (_ & Hk & Hq & Hrem & Hpr).
  split; [exact Hk |]. split; [exact Hq |]. split; [exact Hrem |].
  rewrite Hpr. vm_compute. reflexivity.
Defined.

(** C3 as the claim words it fails on both of its numbers.  The price in
    the result is rounded to two decimals: a BUY of 100 against a best
    ask of 1,001 with 1,000 shares is filled at 1002.0, not at
    1001 * 1.001 = 1002.001.  And a partial fill is never of zero
    shares: a BUY of 1 share against a best ask holding 4 shares (ratio
    0.25) is filled for 1 share with nothing remaining, not for
    floor(0.8) = 0 shares with 1 remaining. *)
Lemma paper_fill_rounds_price_and_fills_one :
  (let book := mkBook [dec 1001 1] [1000] [dec 1000 1] [1000] 1000 1000 zero in
   exists r,
     (execute_virtual_order (mk ∅ zero) {[ "005930" := book ]}
        (mkOrder "005930" "BUY" 100 None)).1 = Ok r /\
     fill_type r = Some FULL_INSTANT /\
     exact (fill_price r) = Some (Num.of_Z 1002) /\
     claimed_full_price true (Num.of_Z 1001) = Num.dec 1002001 1000 /\
     exact (fill_price r) <> Some (claimed_full_price true (Num.of_Z 1001)))
  /\
  (let book := mkBook [dec 1000 1] [4] [dec 999 1] [4] 4 4 zero in
   exists r,
     (execute_virtual_order (mk ∅ zero) {[ "005930" := book ]}
        (mkOrder "005930" "BUY" 1 None)).1 = Ok r /\
     fill_type r = Some PARTIAL_SIMULATED /\
     fill_quantity r = 1 /\ remaining_quantity r = 0 /\
     claimed_partial_quantity 4 = 0).
Proof.
  split; cbv zeta.
  - eexists. split; [vm_compute; reflexivity |].
    split; [reflexivity |]. cbn [fill_price].
    split; [vm_compute; f_equal; apply Qc_is_canon; reflexivity |].
    split; [apply Qc_is_canon; vm_compute; reflexivity |].
    intros H.
    pose proof (f_equal (fun x : option Qc =>
                           match x with
                           | Some q => Qnum (this q)
                           | None => 0
                           end) H) as H'.
    vm_compute in H'. discriminate H'.
  - eexists. split; [vm_compute; reflexivity |].
    repeat split.
Qed.

(** X16.  The shares filled and the shares remaining add up.  Whatever
    the account, the cache and the order, a result the engine returns
    has [fill_quantity + remaining_quantity = quantity]; a successful
    fill of an order for at least one share fills at least one share;
    and a refusal fills nothing and leaves the account as it was. *)
Theorem fill_and_remainder_add_up
    (e : t) (cache : gmap string OrderbookData) (o : order) (r : fill) :
  (execute_virtual_order e cache o).1 = Ok r ->
  fill_quantity r + remaining_quantity r = quantity o /\
  (success r = true -> 1 <= quantity o -> 1 <= fill_quantity r) /\
  (success r = false ->
     fill_quantity r = 0 /\ (execute_virtual_order e cache o).2 = e).
Proof.
  unfold execute_virtual_order.
  destruct (to_float (default (Int 0) (price o))) as [requested | err];
    [| discriminate].
  destruct (cache !! stock_code o) as [book |].
  2:{ intros [= <-]. cbn. split; [lia |].
      split; [discriminate | intros _; split; reflexivity]. }
  destruct (_ || _).
  { intros [= <-]. cbn. split; [lia |].
    split; [discriminate | intros _; split; reflexivity]. }
  destruct (div_int _ _) as [ratio | err]; [| discriminate].
  destruct (MAX_INSTANT_FILL_RATIO <? ratio)%float.
  - destruct (instant_volume _) as [k | err];
      unfold mbind, res_bind; cbv beta iota zeta; [| discriminate].
    destruct (of_int _) as [filled | err]; [| discriminate].
    destruct (_update_paper_account _ _ _ _) as [[[] | err] e'];
      [| discriminate].
    intros [= <-]. cbn.
    destruct (decide (k < 1)); (split; [lia |]);
      (split; [intros _ _; lia | discriminate]).
  - cbv beta iota zeta.
    destruct (of_int _) as [filled | err]; [| discriminate].
    destruct (_update_paper_account _ _ _ _) as [[[] | err] e'];
      [| discriminate].
    intros [= <-]. cbn. split; [lia |].
    split; [intros _ H; exact H | discriminate].
Qed.

(** A BUY of 3 shares against a best ask holding 4: the ratio 0.75 is
    above 0.20, [int(4 * 0.20)] is 0, so one share is filled and two
    remain. *)
Lemma fill_and_remainder_add_up_witness :
  let book := mkBook [dec 1000 1] [4] [dec 999 1] [4] 4 4 zero in
  exists r,
    (execute_virtual_order (mk ∅ zero) {[ "005930" := book ]}
       (mkOrder "005930" "BUY" 3 None)).1 = Ok r /\
    fill_quantity r = 1 /\ remaining_quantity r = 2.
Proof.
  cbv zeta.
  evaluate_as E
    (execute_virtual_order (mk ∅ zero)
       {[ "005930" := mkBook [dec 1000 1] [4] [dec 999 1] [4] 4 4 zero ]}
       (mkOrder "005930" "BUY" 3 None)).1.
  match type of E with _ = Ok ?v => exists v end.
  split; [exact E |].
  destruct (fill_and_remainder_add_up _ _ _ _ E) as (Hsum & Hone & _).
  cbn in Hsum, Hone |- *. split; [reflexivity | lia].
Defined.

(** X35.  The account update moves shares of one stock only.  When
    [_update_paper_account] returns, the position of the order's stock
    holds the shares it held (none, if there was no position) plus the
    shares filled for a BUY and minus them for a SELL, and is stored
    unchanged for any other order type; the position of every other
    stock is what it was; and the cash moves only for a BUY or a SELL. *)
Theorem account_update_moves_shares
    (e : t) (o : order) (fill_price : float) (fill_quantity : Z) :
  (_update_paper_account e o fill_price fill_quantity).1 = Ok () ->
  let e' := (_update_paper_account e o fill_price fill_quantity).2 in
  let held := default 0 (pos_quantity <$> _paper_positions e !! stock_code o) in
  (exists p,
     _paper_positions e' !! stock_code o = Some p /\
     pos_quantity p
     = if decide (order_type o = "BUY") then held + fill_quantity
       else if decide (order_type o = "SELL") then held - fill_quantity
       else held) /\
  (forall other, other <> stock_code o ->
     _paper_positions e' !! other = _paper_positions e !! other) /\
  (order_type o <> "BUY" -> order_type o <> "SELL" ->
   _paper_cash e' = _paper_cash e).
Proof.
  unfold _update_paper_account.
  destruct (of_int fill_quantity) as [filled | err]; [| discriminate].
  assert (Hheld : pos_quantity
                    (default (mkPos 0 zero zero zero)
                       (_paper_positions e !! stock_code o))
                  = default 0 (pos_quantity <$>
                                 _paper_positions e !! stock_code o))
    by (destruct (_paper_positions e !! stock_code o); reflexivity).
  cbv zeta. rewrite <- Hheld.
  destruct (decide (order_type o = "BUY")) as [Hb | Hb].
  - destruct (decide (_ > 0)).
    + destruct (of_int _) as [held | err]; [| discriminate].
      intros _. cbn [snd _paper_positions _paper_cash].
      split; [eexists; split; [apply lookup_insert_eq | reflexivity] |].
      split; [intros other Ho; now rewrite lookup_insert_ne by congruence |].
      intros H; contradiction.
    + intros _. cbn [snd _paper_positions _paper_cash].
      split; [eexists; split; [apply lookup_insert_eq | reflexivity] |].
      split; [intros other Ho; now rewrite lookup_insert_ne by congruence |].
      intros H; contradiction.
  - destruct (decide (order_type o = "SELL")) as [Hs | Hs].
    + destruct (decide (_ > 0)).
      * destruct (of_int _) as [held | err]; [| discriminate].
        intros _. cbn [snd _paper_positions _paper_cash].
        split; [eexists; split; [apply lookup_insert_eq | reflexivity] |].
        split; [intros other Ho; now rewrite lookup_insert_ne by congruence |].
        intros _ H; contradiction.
      * intros _. cbn [snd _paper_positions _paper_cash].
        split; [eexists; split; [apply lookup_insert_eq | reflexivity] |].
        split; [intros other Ho; now rewrite lookup_insert_ne by congruence |].
        intros _ H; contradiction.
    + intros _. cbn [snd _paper_positions _paper_cash].
      split; [eexists; split; [apply lookup_insert_eq | reflexivity] |].
      split; [intros other Ho; now rewrite lookup_insert_ne by congruence |].
      intros _ _. reflexivity.
Qed.

(** Ten shares held, three bought at 1,015: thirteen shares afterwards. *)
Lemma account_update_moves_shares_witness :
  let e := mk {[ "005930" := mkPos 10 (dec 100 1) (dec 1000 1) zero ]}
              (dec 5000000 1) in
  let o := mkOrder "005930" "BUY" 3 None in
  exists p,
    _paper_positions (_update_paper_account e o (dec 1015 1) 3).2
      !! "005930" = Some p /\
    pos_quantity p = 13.
Proof.
  intros e o.
  destruct (account_update_moves_shares e o (dec 1015 1) 3)
    as ((p & Hp & Hq) & _); [vm_compute; reflexivity |].
  exists p. split; [exact Hp |]. rewrite Hq. reflexivity.
Defined.

End Paper64Facts.

(** ** The drawdown protocol: escalation, resets and recovery *)

Module DrawdownLadder.
Import Num Drawdown.

Lemma severity_range (l : DrawdownLevel) : 0 <= _severity l <= 5.
Proof. destruct l; cbn; lia. Qed.

Lemma escalate_level s lv d m c now :
  level (_escalate s lv d m c now) = lv.
Proof. destruct lv; reflexivity. Qed.

(** X1.  [evaluate_and_respond] never lowers the level: the severity after the
    call is at least the severity before it, whatever the three
    profit-and-loss figures and whatever the clock. *)
Theorem evaluate_never_lowers_level
    (s : DrawdownState) (now : PyTime.datetime) (daily monthly cumulative : Qc) :
  _severity (level s)
  <= _severity (level (evaluate_and_respond s now daily monthly cumulative).2).
Proof.
  unfold evaluate_and_respond.
  destruct (halt_active _ now); cbn [snd level]; [lia |].
  destruct (_severity (level s)
            <? _severity (_classify daily monthly cumulative)) eqn:E.
  - rewrite escalate_level. apply Z.ltb_lt in E. lia.
  - cbn [level]. lia.
Qed.

(** X2.  A worse profit-and-loss picture is never classified as less severe. *)
Theorem classify_is_monotone (d d' m m' c c' : Qc) :
  (d' ≤ d)%Qc -> (m' ≤ m)%Qc -> (c' ≤ c)%Qc ->
  _severity (_classify d m c) <= _severity (_classify d' m' c').
Proof.
  intros Hd Hm Hc. unfold _classify.
  repeat match goal with
         | |- context [decide (?x ≤ ?y)%Qc] =>
             destruct (decide (x ≤ y)%Qc)
         end; cbn; try lia; exfalso;
  match goal with
  | H : ¬ (?x ≤ ?t)%Qc |- _ =>
      apply H; eapply Qcle_trans; [| eassumption]; assumption
  end.
Qed.

Lemma classify_is_monotone_witness :
  _severity (_classify (- dec 1 100) (- dec 2 100) (- dec 3 100))%Qc
  <= _severity (_classify (- dec 4 100) (- dec 2 100) (- dec 3 100))%Qc.
Proof.
  apply classify_is_monotone; vm_compute; discriminate.
Defined.

Lemma reset_consistent (s : DrawdownState) : consistent (_reset_to_none s).
Proof. cbn. repeat split. Qed.

Lemma escalate_consistent s lv d m c now :
  consistent s -> _severity (level s) < _severity lv ->
  consistent (_escalate s lv d m c now).
Proof.
  unfold consistent. intros Hs Hlt.
  destruct lv; cbn [level _escalate position_scale trading_halted halt_until
                    paper_mode_forced strategy_review_required].
  - destruct (level s); cbn in Hlt; lia.
  - destruct (level s); cbn in Hlt; try lia.
    destruct Hs as (_ & _ & H1 & H2 & H3). repeat split; assumption.
  - destruct (level s); cbn in Hlt; try lia;
      destruct Hs as (_ & _ & _ & H2 & H3);
      repeat split; eauto.
  - destruct (level s); cbn in Hlt; try lia;
      destruct Hs as (_ & _ & _ & H2 & H3);
      repeat split; eauto.
  - destruct (level s); cbn in Hlt; try lia;
      destruct Hs as (_ & _ & _ & _ & H3);
      repeat split; eauto.
  - repeat split.
Qed.

Lemma step_consistent (s : DrawdownState) (cl : call) :
  consistent s -> consistent (step s cl).
Proof.
  intros Hs. destruct cl as [now d m c | win | | |]; cbn [step].
  - unfold evaluate_and_respond.
    destruct (halt_active _ now); cbn [snd]; [exact Hs |].
    destruct (_ <? _) eqn:E; [| exact Hs].
    apply escalate_consistent; [exact Hs |]. apply Z.ltb_lt in E. exact E.
  - unfold record_paper_trade_result.
    destruct (decide (level s = RED)) as [Hr | _]; [| exact Hs].
    destruct (decide _); cbn [snd]; [apply reset_consistent |].
    unfold consistent in *. cbn. rewrite Hr in *. exact Hs.
  - apply reset_consistent.
  - unfold reset_daily. destruct (decide _); [apply reset_consistent | exact Hs].
  - unfold reset_monthly. destruct (decide _); [apply reset_consistent | exact Hs].
Qed.

(** X3.  Whatever is called on a fresh protocol, in whatever order, the level
    decides the other fields: trading is halted exactly from YELLOW up,
    the position scale is 1 at NONE, 0.5 at GREEN and 0 above, paper mode
    is forced exactly at RED and BLACK, a strategy review is required
    exactly at BLACK, and a halt deadline is set exactly at YELLOW, ORANGE
    and RED. *)
Theorem level_decides_restrictions (calls : list call) :
  consistent (run initial calls).
Proof.
  unfold run.
  assert (H : forall s, consistent s -> consistent (foldl step s calls)).
  { induction calls as [| c calls IH]; intros s Hs; [exact Hs |].
    cbn [foldl]. apply IH, step_consistent, Hs. }
  apply H. cbn. repeat split.
Qed.

(** X4.  Once the level is RED or BLACK, neither further evaluations nor the
    daily and monthly resets bring it below RED. *)
Theorem red_survives_resets (calls : list call) :
  forall s,
    4 <= _severity (level s) ->
    Forall (fun c => match c with
                     | Evaluate _ _ _ _ | ResetDaily | ResetMonthly => True
                     | _ => False
                     end) calls ->
    4 <= _severity (level (run s calls)).
Proof.
  induction calls as [| c calls IH]; intros s Hs Hall; [exact Hs |].
  inversion Hall as [| ? ? Hc Hrest]; subst.
  unfold run. cbn [foldl]. apply IH; [| exact Hrest].
  destruct c as [now d m cu | win | | |]; cbn [step]; try contradiction.
  - pose proof (evaluate_never_lowers_level s now d m cu). lia.
  - unfold reset_daily.
    destruct (decide _) as [[H | H] | _]; [| | exact Hs];
      rewrite H in Hs; cbn in Hs; lia.
  - unfold reset_monthly.
    destruct (decide _) as [H | _]; [| exact Hs].
    rewrite H in Hs; cbn in Hs; lia.
Qed.

Lemma red_survives_resets_witness :
  4 <= _severity
         (level (run (evaluate_and_respond initial
                        (PyTime.mkDatetime 2025 3 4 10 0 0 0)
                        0 0 (- dec 12 100)%Qc).2
                     [ResetDaily; ResetMonthly;
                      Evaluate (PyTime.mkDatetime 2025 4 1 10 0 0 0) 0 0 0])).
Proof.
  apply red_survives_resets; [vm_compute; discriminate | repeat constructor].
Defined.

Lemma wins_accumulate (n : nat) :
  forall s k,
    level s = RED -> consecutive_paper_wins s = k -> 0 <= k ->
    k + Z.of_nat n < 5 ->
    exists s',
      record_all s (replicate n true) = (replicate n false, s') /\
      level s' = RED /\ consecutive_paper_wins s' = k + Z.of_nat n.
Proof.
  induction n as [| n IH]; intros s k Hl Hw Hk Hlt.
  - exists s. cbn. repeat split; [exact Hl | lia].
  - cbn [replicate record_all]. unfold record_paper_trade_result at 1.
    destruct (decide (level s = RED)) as [_ | Hn]; [| contradiction].
    cbv zeta. rewrite Hw.
    destruct (decide (k + 1 >= RED_RECOVERY_PAPER_WINS)) as [Hge | _].
    { unfold RED_RECOVERY_PAPER_WINS in Hge. lia. }
    match goal with
    | |- context [record_all ?s1 _] =>
        destruct (IH s1 (k + 1)) as (s' & Hr & Hl' & Hw');
          [exact Hl | reflexivity | lia | lia |]
    end.
    rewrite Hr. exists s'. repeat split; [exact Hl' | lia].
Qed.

(** X5.  Recovery from RED takes five paper wins in a row.  After a paper loss
    the streak is gone: up to four wins that follow leave the protocol at
    RED with every call answering [False], and the fifth win answers
    [True] and brings the protocol back to NONE with trading allowed at
    full scale. *)
Theorem red_recovery_needs_five_wins (s : DrawdownState) (n : nat) :
  level s = RED ->
  (n <= 4)%nat ->
  (exists s',
     record_all s (false :: replicate n true)
     = (false :: replicate n false, s') /\
     level s' = RED /\ consecutive_paper_wins s' = Z.of_nat n) /\
  (exists s',
     record_all s (false :: replicate 5 true)
     = (false :: replicate 4 false ++ [true], s') /\
     level s' = NONE /\ trading_halted s' = false /\
     position_scale s' = 1%Qc).
Proof.
  intros Hl Hn.
  assert (Hloss : exists s0,
             record_paper_trade_result s false = (false, s0) /\
             level s0 = RED /\ consecutive_paper_wins s0 = 0).
  { unfold record_paper_trade_result.
    destruct (decide (level s = RED)) as [_ | H]; [| contradiction].
    cbv zeta.
    destruct (decide (0 >= RED_RECOVERY_PAPER_WINS)) as [H | _];
      [unfold RED_RECOVERY_PAPER_WINS in H; lia |].
    eexists. split; [reflexivity |]. split; [exact Hl | reflexivity]. }
  destruct Hloss as (s0 & Hr0 & Hl0 & Hw0).
  split.
  - destruct (wins_accumulate n s0 0 Hl0 Hw0) as (s' & Hr & Hl' & Hw');
      [lia | lia |].
    exists s'. cbn [record_all]. rewrite Hr0, Hr.
    repeat split; [exact Hl' | lia].
  - destruct (wins_accumulate 4 s0 0 Hl0 Hw0) as (s4 & Hr & Hl4 & Hw4);
      [lia | lia |].
    change (replicate 5 true) with (replicate 4 true ++ [true]).
    assert (Happ : forall l1 l2 st,
               record_all st (l1 ++ l2)
               = let '(b1, st1) := record_all st l1 in
                 let '(b2, st2) := record_all st1 l2 in (b1 ++ b2, st2)).
    { induction l1 as [| w l1 IH]; intros l2 st.
      - cbn. destruct (record_all st l2); reflexivity.
      - cbn [app record_all].
        destruct (record_paper_trade_result st w) as [b st1].
        rewrite IH. destruct (record_all st1 l1) as [b1 st2].
        destruct (record_all st2 l2); reflexivity. }
    cbn [record_all]. rewrite Hr0, Happ, Hr.
    cbn [record_all]. unfold record_paper_trade_result.
    destruct (decide (level s4 = RED)) as [_ | H]; [| contradiction].
    cbv zeta. rewrite Hw4.
    destruct (decide (0 + Z.of_nat 4 + 1 >= RED_RECOVERY_PAPER_WINS))
      as [_ | H]; [| unfold RED_RECOVERY_PAPER_WINS in H; lia].
    eexists. split; [reflexivity |]. repeat split.
Qed.

Lemma red_recovery_needs_five_wins_witness :
  exists s',
    record_all (evaluate_and_respond initial
                  (PyTime.mkDatetime 2025 3 4 10 0 0 0)
                  0 0 (- dec 12 100)%Qc).2
               (false :: replicate 5 true)
    = (false :: replicate 4 false ++ [true], s') /\
    level s' = NONE.
Proof.
  destruct (red_recovery_needs_five_wins
              (evaluate_and_respond initial
                 (PyTime.mkDatetime 2025 3 4 10 0 0 0)
                 0 0 (- dec 12 100)%Qc).2 4%nat)
    as (_ & s' & Hr & Hl & _); [vm_compute; reflexivity | lia |].
  exists s'. split; [exact Hr | exact Hl].
Defined.

End DrawdownLadder.

(** ** The kill switch: where it trips *)

Module KillSwitchThreshold.
Import Num KillSwitch NumFacts.

Lemma pnl_pct_le (s : t) (c : Z) (l : Qc) :
  0 < starting_capital s ->
  (daily_pnl_pct s c ≤ - l)%Qc
  <-> (of_Z c ≤ of_Z (starting_capital s) * (1 - l))%Qc.
Proof.
  intros Hpos. pose proof (of_Z_pos _ Hpos) as HS.
  assert (Hne : of_Z (starting_capital s) <> 0%Qc)
    by (apply not_eq_sym, Qclt_not_eq; exact HS).
  unfold daily_pnl_pct.
  rewrite (Qcmult_le_mono_pos_r _ _ (of_Z (starting_capital s)) HS).
  assert (E1 : (of_Z (c - starting_capital s) / of_Z (starting_capital s)
                * of_Z (starting_capital s)
                = of_Z c - of_Z (starting_capital s))%Qc).
  { unfold of_Z at 1. rewrite Z2Qc_inj_sub. fold (of_Z c).
    fold (of_Z (starting_capital s)). field. exact Hne. }
  rewrite E1.
  rewrite (Qcplus_le_mono_r _ _ (of_Z (starting_capital s))).
  assert (E2 : (of_Z c - of_Z (starting_capital s) + of_Z (starting_capital s)
                = of_Z c)%Qc) by ring.
  assert (E3 : (- l * of_Z (starting_capital s) + of_Z (starting_capital s)
                = of_Z (starting_capital s) * (1 - l))%Qc) by ring.
  rewrite E2, E3. reflexivity.
Qed.

(** X6.  A switch that is not killed and has a positive starting capital
    answers [False], and puts one more shutdown on the event loop,
    whenever the current capital is not negative and is at or below the
    starting capital times one minus the limit. *)
Theorem check_trips_at_threshold (s : t) (c : Z) :
  is_killed s = false ->
  0 < starting_capital s ->
  0 <= c ->
  (of_Z c ≤ of_Z (starting_capital s) * (1 - daily_loss_limit_pct s))%Qc ->
  (check s c).1 = false /\ scheduled (check s c).2 = S (scheduled s).
Proof.
  intros Hk Hpos _ Hle.
  apply (pnl_pct_le s c _ Hpos) in Hle.
  unfold check. rewrite Hk.
  destruct (decide (starting_capital s <= 0)); [lia |]. cbv zeta.
  destruct (decide (daily_pnl_pct s c ≤ - daily_loss_limit_pct s)%Qc)
    as [_ | Hn]; [| contradiction].
  split; reflexivity.
Qed.

Lemma check_trips_at_threshold_witness :
  (check (init (dec 3 100) 100000000) 97000000).1 = false.
Proof.
  destruct (check_trips_at_threshold (init (dec 3 100) 100000000) 97000000)
    as [H _]; [reflexivity | cbn; lia | lia | vm_compute; discriminate |].
  exact H.
Defined.

End KillSwitchThreshold.

(** ** The margin guard: reservations kept and released *)

Module MarginLedger.
Import Num Margin.



Lemma dict_remove_set_fresh (k : string) (v : Z) (d : list (string * Z)) :
  dict_get k d = None -> dict_remove k (dict_set k v d) = d.
Proof.
  induction d as [| [k' v'] d IH]; cbn; intros H.
  - destruct (decide (k = k)); [reflexivity | contradiction].
  - destruct (decide (k' = k)) as [| Hne]; [discriminate |].
    cbn. destruct (decide (k' = k)); [contradiction |].
    rewrite (IH H). reflexivity.
Qed.

Lemma remove_first_amount_Some (a : Z) (d d' : list (string * Z)) :
  remove_first_amount a d = Some d' ->
  dict_sum d' = dict_sum d - a /\ length d = S (length d').
Proof.
  revert d'. induction d as [| [k v] d IH]; intros d' H; [discriminate |].
  cbn in H. destruct (decide (v = a)) as [-> |].
  - injection H as <-. cbn. fold (dict_sum d). split; [lia | reflexivity].
  - destruct (remove_first_amount a d) as [r |]; [| discriminate].
    injection H as <-. destruct (IH r eq_refl) as [Hs Hl].
    cbn. fold (dict_sum r). fold (dict_sum d). split; [lia | now rewrite Hl].
Qed.

Lemma remove_first_amount_None (a : Z) (d : list (string * Z)) :
  remove_first_amount a d = None <-> Forall (fun kv => kv.2 <> a) d.
Proof.
  induction d as [| [k v] d IH]; cbn.
  - split; [constructor | reflexivity].
  - destruct (decide (v = a)) as [-> | Hne].
    + split; [discriminate |]. intros H. inversion H; subst. cbn in *.
      contradiction.
    + destruct (remove_first_amount a d) as [r |].
      * split; [discriminate |]. intros H. inversion H; subst.
        apply IH in H3. discriminate.
      * split; [| reflexivity]. intros _. constructor; [exact Hne |].
        now apply IH.
Qed.



(** X9.  Releasing a reservation by the key it was stored under undoes the
    reservation: when the key was not in use before the order was
    validated, the pending reservations are again what they were. *)
Theorem validate_then_release_by_key
    (s : t) (now1 now2 : Qc) (q : balance_query) (stock_code : string)
    (quantity price : Z) (order_type : string) :
  upper order_type <> "SELL" ->
  dict_get (reservation_key stock_code now2) (pending_reservations s)
  = None ->
  pending_reservations
    (release_reservation_by_key
       (validate_order s now1 now2 q stock_code quantity price order_type).2
       (reservation_key stock_code now2))
  = pending_reservations s.
Proof.
  intros Hbuy Hfresh. unfold validate_order.
  destruct (decide (upper order_type = "SELL")); [contradiction |].
  destruct (_get_available_cash s now1 q) as [av s1] eqn:E.
  assert (Hp : pending_reservations s1 = pending_reservations s).
  { unfold _get_available_cash in E. injection E as _ <-.
    destruct (decide _); [| reflexivity]. destruct q; reflexivity. }
  destruct (decide (av < _)); cbn [snd release_reservation_by_key
                                   pending_reservations].
  - rewrite Hp. clear -Hfresh.
    induction (pending_reservations s) as [| [k v] d IH]; [reflexivity |].
    cbn in *. destruct (decide (k = _)); [discriminate |].
    rewrite (IH Hfresh). reflexivity.
  - rewrite Hp. now apply dict_remove_set_fresh.
Qed.

Lemma validate_then_release_by_key_witness :
  pending_reservations
    (release_reservation_by_key
       (validate_order (mk 10000000 0 [("000660_1", 1000)]) 1 1 NoFunction
          "005930" 100 72000 "BUY").2
       (reservation_key "005930" 1))
  = [("000660_1", 1000)].
Proof.
  apply (validate_then_release_by_key
           (mk 10000000 0 [("000660_1", 1000)]) 1 1 NoFunction
           "005930" 100 72000 "BUY").
  - vm_compute. discriminate.
  - vm_compute. reflexivity.
Defined.

(** X10.  [release_reservation] drops exactly one reservation whenever there is
    one: the first that holds exactly the amount asked for, and if none
    does, the oldest, whatever it holds.  With nothing pending it does
    nothing. *)
Theorem release_reservation_drops_one (s : t) (amount : Z) :
  (pending_reservations s = [] -> release_reservation s amount = s) /\
  (pending_reservations s <> [] ->
     S (get_pending_count (release_reservation s amount))
     = get_pending_count s) /\
  (Exists (fun kv => kv.2 = amount) (pending_reservations s) ->
     get_pending_total (release_reservation s amount)
     = get_pending_total s - amount) /\
  (forall k v rest,
     pending_reservations s = (k, v) :: rest ->
     Forall (fun kv => kv.2 <> amount) (pending_reservations s) ->
     pending_reservations (release_reservation s amount) = rest).
Proof.
  unfold release_reservation, get_pending_count, get_pending_total.
  destruct (pending_reservations s) as [| kv rest] eqn:E.
  - repeat split.
    + intros H; contradiction.
    + intros H. inversion H.
    + intros k v rest H; discriminate.
  - destruct (remove_first_amount amount (kv :: rest)) as [d |] eqn:Er.
    + destruct (remove_first_amount_Some _ _ _ Er) as [Hs Hl].
      split; [discriminate |]. split; [intros _; cbn in Hl |- *; lia |].
      split; [intros _; exact Hs |].
      intros k v rest' _ Hall. apply remove_first_amount_None in Hall.
      rewrite Hall in Er. discriminate.
    + split; [discriminate |]. split; [intros _; reflexivity |].
      split.
      * intros Hex. apply remove_first_amount_None in Er.
        apply Exists_exists in Hex as (x & Hin & Hx).
        rewrite Forall_forall in Er. specialize (Er x Hin). contradiction.
      * intros k v rest' [= -> ->] _. reflexivity.
Qed.

Lemma release_reservation_drops_one_witness :
  get_pending_total
    (release_reservation (mk 0 0 [("a_1", 500); ("b_2", 700); ("c_3", 700)])
       700)
  = 1200.
Proof.
  destruct (release_reservation_drops_one
              (mk 0 0 [("a_1", 500); ("b_2", 700); ("c_3", 700)]) 700)
    as (_ & _ & H & _).
  rewrite H; [reflexivity |].
  apply Exists_cons_tl, Exists_cons_hd. reflexivity.
Defined.

(** X11.  [enforce_cash_order_params] always yields a cash limit order: the
    three loan and margin keys are gone, the four cash fields hold their
    fixed values, every other key of the body is kept, and applying it
    twice changes nothing more. *)
Theorem enforce_cash_order_params_forces_cash (body : gmap string string) :
  enforce_cash_order_params body !! "CANO_LOAN" = None /\
  enforce_cash_order_params body !! "MGNT_DVSN" = None /\
  enforce_cash_order_params body !! "LOAN_DT" = None /\
  enforce_cash_order_params body !! "ORD_DVSN" = Some "00" /\
  enforce_cash_order_params body !! "SLL_TYPE" = Some "01" /\
  enforce_cash_order_params body !! "CTAC_TLNO" = Some "" /\
  enforce_cash_order_params body !! "ALGO_NO" = Some "" /\
  (forall k,
     k ∉ ["CANO_LOAN"; "MGNT_DVSN"; "LOAN_DT"; "ORD_DVSN"; "SLL_TYPE";
          "CTAC_TLNO"; "ALGO_NO"] ->
     enforce_cash_order_params body !! k = body !! k) /\
  enforce_cash_order_params (enforce_cash_order_params body)
  = enforce_cash_order_params body.
Proof.
  assert (Hfix : forall b,
             enforce_cash_order_params b !! "CANO_LOAN" = None /\
             enforce_cash_order_params b !! "MGNT_DVSN" = None /\
             enforce_cash_order_params b !! "LOAN_DT" = None /\
             enforce_cash_order_params b !! "ORD_DVSN" = Some "00" /\
             enforce_cash_order_params b !! "SLL_TYPE" = Some "01" /\
             enforce_cash_order_params b !! "CTAC_TLNO" = Some "" /\
             enforce_cash_order_params b !! "ALGO_NO" = Some "").
  { intros b. unfold enforce_cash_order_params.
    repeat split; by simplify_map_eq. }
  assert (Hother : forall b k,
             k ∉ ["CANO_LOAN"; "MGNT_DVSN"; "LOAN_DT"; "ORD_DVSN";
                  "SLL_TYPE"; "CTAC_TLNO"; "ALGO_NO"] ->
             enforce_cash_order_params b !! k = b !! k).
  { intros b k Hk. unfold enforce_cash_order_params.
    rewrite !not_elem_of_cons in Hk.
    destruct Hk as (? & ? & ? & ? & ? & ? & ? & _).
    by simplify_map_eq. }
  destruct (Hfix body) as (H1 & H2 & H3 & H4 & H5 & H6 & H7).
  repeat (split; [assumption |]).
  split; [apply Hother |].
  apply map_eq. intros k.
  destruct (decide (k ∈ ["CANO_LOAN"; "MGNT_DVSN"; "LOAN_DT"; "ORD_DVSN";
                         "SLL_TYPE"; "CTAC_TLNO"; "ALGO_NO"])) as [Hin | Hout].
  - destruct (Hfix (enforce_cash_order_params body))
      as (G1 & G2 & G3 & G4 & G5 & G6 & G7).
    rewrite !elem_of_cons, elem_of_nil in Hin.
    destruct Hin as [-> | [-> | [-> | [-> | [-> | [-> | [-> | []]]]]]]];
      congruence.
  - now rewrite Hother.
Qed.

End MarginLedger.

(** ** The position lock: exposure and release *)

Module PositionLockExposure.
Import Num PositionLock PositionLockFacts.

(** The strategy entries of every stock after a reservation and after a
    release. *)
Lemma reserve_strategies (s : t) (stock grade_ : string) (pct : Qc)
    (strategy stock' k : string) :
  e_strategies
    (get_stock_exposure (check_and_reserve s stock grade_ pct strategy).2
       stock') !! k
  = if ok (check_and_reserve s stock grade_ pct strategy).1
       && bool_decide (stock' = stock /\ k = strategy)
    then Some (default 0%Qc
                 (e_strategies (get_stock_exposure s stock) !! strategy)
               + pct)%Qc
    else e_strategies (get_stock_exposure s stock') !! k.
Proof.
  unfold check_and_reserve.
  destruct (decide (_ < _)%Qc) as [Hden | Hacc]; cbn [fst snd ok andb];
    [reflexivity |].
  unfold get_stock_exposure. cbn [held].
  destruct (decide (stock' = stock)) as [-> | Hs].
  - rewrite lookup_insert_eq. cbn [e_strategies reservations].
    destruct (decide (k = strategy)) as [-> | Hk].
    + rewrite bool_decide_eq_true_2 by (split; reflexivity).
      rewrite lookup_insert_eq.
      destruct (held s !! stock); reflexivity.
    + rewrite bool_decide_eq_false_2 by (intros [_ ?]; contradiction).
      rewrite lookup_insert_ne by congruence.
      destruct (held s !! stock); reflexivity.
  - rewrite bool_decide_eq_false_2 by (intros [? _]; contradiction).
    now rewrite lookup_insert_ne by congruence.
Qed.

Lemma release_strategies (s : t) (stock strategy stock' k : string) :
  e_strategies (get_stock_exposure (release s stock strategy).2 stock') !! k
  = if bool_decide (stock' = stock /\ k = strategy) then None
    else e_strategies (get_stock_exposure s stock') !! k.
Proof.
  unfold release.
  destruct (held s !! stock) as [r |] eqn:E.
  2:{ cbn [snd]. destruct (bool_decide _) eqn:Eb; [| reflexivity].
      apply bool_decide_eq_true in Eb as [-> ->].
      unfold get_stock_exposure. rewrite E. apply lookup_empty. }
  assert (Hkept : forall s',
            held s' = <[stock := mkReservation (stock_code r) (grade r)
                                   (delete strategy (reservations r))]>
                        (held s) ->
            e_strategies (get_stock_exposure s' stock') !! k
            = if bool_decide (stock' = stock /\ k = strategy) then None
              else e_strategies (get_stock_exposure s stock') !! k).
  { intros s' Hs'. unfold get_stock_exposure. rewrite Hs'.
    destruct (decide (stock' = stock)) as [-> | Hs].
    - rewrite lookup_insert_eq, E. cbn [e_strategies reservations].
      destruct (decide (k = strategy)) as [-> | Hk].
      + rewrite bool_decide_eq_true_2 by (split; reflexivity).
        apply lookup_delete_eq.
      + rewrite bool_decide_eq_false_2 by (intros [_ ?]; contradiction).
        now rewrite lookup_delete_ne by congruence.
    - rewrite bool_decide_eq_false_2 by (intros [? _]; contradiction).
      now rewrite lookup_insert_ne by congruence. }
  destruct (decide (default 0%Qc (reservations r !! strategy) = 0%Qc));
    [apply Hkept; reflexivity |].
  destruct (decide (_ = ∅)) as [Hempty | Hne]; [| apply Hkept; reflexivity].
  cbn [snd reservations] in *. unfold get_stock_exposure. cbn [held].
  destruct (decide (stock' = stock)) as [-> | Hs].
  - rewrite lookup_delete_eq, E. cbn [e_strategies].
    rewrite lookup_empty.
    destruct (decide (k = strategy)) as [-> | Hk].
    + now rewrite bool_decide_eq_true_2 by (split; reflexivity).
    + rewrite bool_decide_eq_false_2 by (intros [_ ?]; contradiction).
      rewrite <- (lookup_delete_ne (reservations r) strategy k)
        by congruence.
      rewrite Hempty. symmetry. apply lookup_empty.
  - rewrite bool_decide_eq_false_2 by (intros [? _]; contradiction).
    now rewrite lookup_delete_ne by congruence.
Qed.

(** X31.  Whatever [release] reports, afterwards the strategy holds nothing on
    the stock, every other strategy of the stock holds what it held, and
    every other stock is as it was.  A stock the lock does not know is
    reported as not found and nothing changes. *)
Theorem release_clears_only_its_entry (s : t) (stock strategy : string) :
  let r := release s stock strategy in
  e_strategies (get_stock_exposure r.2 stock) !! strategy = None /\
  (forall k, k <> strategy ->
     e_strategies (get_stock_exposure r.2 stock) !! k
     = e_strategies (get_stock_exposure s stock) !! k) /\
  (forall other, other <> stock ->
     get_stock_exposure r.2 other = get_stock_exposure s other) /\
  (held s !! stock = None -> r = (NotFound, s)).
Proof.
  cbv zeta. unfold release.
  destruct (held s !! stock) as [r |] eqn:E.
  2:{ cbn [snd]. unfold get_stock_exposure. rewrite E.
      cbn [e_strategies]. repeat split; intros; apply lookup_empty. }
  assert (Hkept : forall s',
            held s' = <[stock := mkReservation (stock_code r) (grade r)
                                   (delete strategy (reservations r))]>
                        (held s) ->
            e_strategies (get_stock_exposure s' stock) !! strategy = None /\
            (forall k, k <> strategy ->
               e_strategies (get_stock_exposure s' stock) !! k
               = e_strategies (get_stock_exposure s stock) !! k) /\
            (forall other, other <> stock ->
               get_stock_exposure s' other = get_stock_exposure s other) /\
            (Some r = None -> True)).
  { intros s' Hs'. unfold get_stock_exposure. rewrite Hs', E.
    rewrite lookup_insert_eq. cbn [e_strategies reservations].
    split; [apply lookup_delete_eq |].
    split; [intros k Hk; now rewrite lookup_delete_ne by congruence |].
    split; [| trivial].
    intros other Ho. now rewrite lookup_insert_ne by congruence. }
  destruct (decide (default 0%Qc (reservations r !! strategy) = 0%Qc)).
  { cbn [snd]. destruct (Hkept (mk (grade_caps s) (<[stock := mkReservation (stock_code r) (grade r) (delete strategy (reservations r))]> (held s))) eq_refl)
      as (H1 & H2 & H3 & _).
    repeat split; try assumption. discriminate. }
  destruct (decide (_ = ∅)) as [Hempty | Hne].
  - cbn [snd]. unfold get_stock_exposure. cbn [held].
    rewrite lookup_delete_eq, E. cbn [e_strategies].
    split; [apply lookup_empty |].
    split.
    { intros k Hk. rewrite lookup_empty.
      cbn [reservations] in Hempty.
      rewrite <- (lookup_delete_ne (reservations r) strategy k)
        by congruence.
      rewrite Hempty. symmetry. apply lookup_empty. }
    split; [| discriminate].
    intros other Ho. now rewrite lookup_delete_ne by congruence.
  - cbn [snd]. destruct (Hkept (mk (grade_caps s) (<[stock := mkReservation (stock_code r) (grade r) (delete strategy (reservations r))]> (held s))) eq_refl)
      as (H1 & H2 & H3 & _).
    repeat split; try assumption. discriminate.
Qed.

End PositionLockExposure.

(** ** The pyramid manager: stages used and stages left *)

Module PyramidStages.
Import Num Pyramid.

(** An intent is always for the stage after the recorded one, which lies
    below [max_stages], and for at least one share; so it is only given
    while [get_pyramid_stage] reports stages remaining. *)
Lemma intent_shape (m : t) (p : position) (current_price : Qc)
    (o : opportunity) :
  check_pyramid_opportunity m p current_price = Intent o ->
  o_stage o = current_stage (state_of m (trade_id p)) + 1 /\
  o_stage o < max_stages (config m) /\
  1 <= o_quantity o /\
  o_trade_id o = trade_id p.
Proof.
  unfold check_pyramid_opportunity.
  destruct (decide (position_order_type p ≠ "BUY")); [discriminate |].
  destruct (decide _); [discriminate |].
  destruct (decide (_ ≤ 0)%Qc); [discriminate |].
  destruct (decide (_ >= _)) as [| Hlt]; [discriminate |].
  destruct (py_index (profit_trigger_pct _) _); [| discriminate].
  destruct (decide (_ < _)%Qc); [discriminate |].
  destruct (py_index (stage_ratios _) _); [| discriminate].
  intros [= <-]. cbn. repeat split; lia.
Qed.



(** X15.  Recording the execution of an intent moves the trade on by exactly
    one stage: the stage reported becomes the intent's, one stage fewer
    remains, one more execution is listed, and no other trade's record
    changes. *)
Theorem recording_an_intent_advances_one_stage
    (m : t) (p : position) (current_price : Qc) (o : opportunity)
    (fill_price : Qc) (fill_quantity : Z) (now : Qc) :
  check_pyramid_opportunity m p current_price = Intent o ->
  let m' := (record_stage_execution m (o_trade_id o) (o_stage o)
               fill_price fill_quantity now).2 in
  let before := get_pyramid_stage m (trade_id p) in
  let after := get_pyramid_stage m' (trade_id p) in
  si_current_stage after = si_current_stage before + 1 /\
  si_remaining_stages after = si_remaining_stages before - 1 /\
  0 < si_remaining_stages before /\
  length (si_stages_executed after)
  = S (length (si_stages_executed before)) /\
  (forall id, id <> trade_id p ->
     get_pyramid_stage m' id = get_pyramid_stage m id).
Proof.
  intros Hint. destruct (intent_shape _ _ _ _ Hint) as (Hs & Hlt & _ & Hid).
  cbv zeta. rewrite Hid.
  unfold record_stage_execution, get_pyramid_stage, state_of in *.
  cbn [snd config si_current_stage si_remaining_stages si_stages_executed
       _pyramid_state].
  rewrite lookup_insert_eq.
  cbn [default current_stage stages_executed]. unfold id.
  destruct (_pyramid_state m !! trade_id p) as [st |];
    cbn [default current_stage stages_executed] in *; unfold id in *.
  - split; [exact Hs |]. split; [lia |]. split; [lia |].
    split; [rewrite length_app; cbn; lia |].
    intros id' Hne. now rewrite lookup_insert_ne by congruence.
  - split; [exact Hs |]. split; [lia |]. split; [lia |].
    split; [reflexivity |].
    intros id' Hne. now rewrite lookup_insert_ne by congruence.
Qed.

Lemma recording_an_intent_advances_one_stage_witness :
  let m := mk DEFAULT_PYRAMID_CONFIG ∅ in
  let p := mkPosition "T1" "005930" (of_Z 100) None 10 in
  exists o,
    check_pyramid_opportunity m p (of_Z 106) = Intent o /\
    si_current_stage
      (get_pyramid_stage
         (record_stage_execution m (o_trade_id o) (o_stage o)
            (of_Z 106) 3 0).2 "T1")
    = 1.
Proof.
  intros m p.
  destruct (check_pyramid_opportunity m p (of_Z 106)) as [| o |] eqn:E;
    [vm_compute in E; discriminate E | | vm_compute in E; discriminate E].
  exists o. split; [reflexivity |].
  destruct (recording_an_intent_advances_one_stage m p (of_Z 106) o
              (of_Z 106) 3 0 E) as [H _].
  exact H.
Defined.

(** X32.  [remove_trade] forgets one trade and nothing else: a position of any
    other trade is answered as before, and a position of the removed
    trade is answered as by a manager that never saw it. *)
Theorem remove_trade_forgets_one_trade
    (m : t) (id : string) (p : position) (current_price : Qc) :
  (trade_id p <> id ->
   check_pyramid_opportunity (remove_trade m id) p current_price
   = check_pyramid_opportunity m p current_price) /\
  (trade_id p = id ->
   check_pyramid_opportunity (remove_trade m id) p current_price
   = check_pyramid_opportunity (mk (config m) ∅) p current_price) /\
  has_pyramid_in_progress (remove_trade m id) id = false.
Proof.
  assert (Hstate : forall m1 m2 : t,
             config m1 = config m2 ->
             state_of m1 (trade_id p) = state_of m2 (trade_id p) ->
             check_pyramid_opportunity m1 p current_price
             = check_pyramid_opportunity m2 p current_price).
  { intros m1 m2 Hc Hs. unfold check_pyramid_opportunity.
    rewrite Hc, Hs. reflexivity. }
  split; [| split].
  - intros Hne. apply Hstate; [reflexivity |].
    unfold state_of, remove_trade. cbn [_pyramid_state].
    now rewrite lookup_delete_ne by congruence.
  - intros E. subst id. apply Hstate; [reflexivity |].
    unfold state_of, remove_trade. cbn [_pyramid_state].
    now rewrite lookup_delete_eq, lookup_empty.
  - unfold has_pyramid_in_progress, remove_trade. cbn [_pyramid_state].
    now rewrite lookup_delete_eq.
Qed.

Lemma remove_trade_forgets_one_trade_witness :
  let m := mk DEFAULT_PYRAMID_CONFIG {[ "T1" := mkPState 2 [] ]} in
  let p := mkPosition "T1" "005930" (of_Z 100) None 10 in
  check_pyramid_opportunity (remove_trade m "T1") p (of_Z 106)
  = check_pyramid_opportunity (mk DEFAULT_PYRAMID_CONFIG ∅) p (of_Z 106).
Proof.
  intros m p.
  destruct (remove_trade_forgets_one_trade m "T1" p (of_Z 106))
    as (_ & H & _).
  apply H. reflexivity.
Defined.

End PyramidStages.

(** ** The order state machine: what a transition touches *)

Module OrderSMFrame.
Import Num OrderSM OrderSMFacts.

(** [H : t = v], with [v] the value [t] evaluates to. *)
Ltac evaluate_as H t :=
  let v := eval vm_compute in t in
  assert (H : t = v) by (vm_compute; reflexivity).

(** What a call of [transition] that returns has done. *)
Lemma transition_returned (sm sm' : t) (order_id : string)
    (new_state : OrderState) (metadata : option (gmap string scalar))
    (now : Qc) (order' : gmap string pyval) :
  transition sm order_id new_state metadata now = Returned order' sm' ->
  exists order old h,
    _orders sm !! order_id = Some order /\
    order !! "state" = Some (Scalar (SState old)) /\
    (old ∉ _TERMINAL_STATES) /\ allowed old new_state = true /\
    order !! "history" = Some (History h) /\
    order'
    = merge_metadata metadata
        (<["history" := History (h ++ [mkEntry (value new_state) now metadata])]>
           (<["updated_at" := Scalar (SNum now)]>
              (<["state" := Scalar (SState new_state)]> order))) /\
    sm' = mk (<[order_id := order']> (_orders sm)).
Proof.
  unfold transition.
  destruct (_orders sm !! order_id) as [order |]; [| discriminate].
  destruct (order !! "state") as [[v | ?] |] eqn:Es; try discriminate.
  destruct (state_like v) as [old |] eqn:Ev; [| discriminate].
  destruct (bool_decide (old ∈ _TERMINAL_STATES)) eqn:Et;
    [cbn [orb]; discriminate |].
  destruct (allowed old new_state) eqn:Ea; [| cbn [orb negb]; discriminate].
  cbn [orb negb]. unfold perform.
  rewrite lookup_insert_ne by discriminate.
  rewrite lookup_insert_ne by discriminate.
  destruct (order !! "history") as [[? | h] |] eqn:Eh; try discriminate.
  destruct v; try discriminate. cbn in Ev. injection Ev as ->.
  intros [= <- <-]. exists order, old, h.
  apply bool_decide_eq_false in Et. repeat split; assumption.
Qed.

Lemma last_of_path_is_not_expired (p : list OrderState) :
  is_path p = true -> head p <> Some EXPIRED -> last p <> Some EXPIRED.
Proof.
  induction p as [| a rest IH]; [discriminate |].
  destruct rest as [| b rest'].
  - intros _ H. exact H.
  - intros Hp _. cbn [is_path] in Hp. apply andb_true_iff in Hp as [Ha Hp].
    change (last (a :: b :: rest')) with (last (b :: rest')).
    apply IH; [exact Hp |]. cbn. intros [= ->].
    destruct a; discriminate Ha.
Qed.

Lemma history_is_path_when_creation_is_plain_witness :
  let sm :=
    after (transition (after (create_order (mk ∅) "ORD-1" ∅ (of_Z 0)))
             "ORD-1" SUBMITTED None (of_Z 1)) in
  exists order p,
    _orders sm !! "ORD-1" = Some order /\
    path_ok p /\ records_path order p.
Proof.
  cbv zeta.
  evaluate_as Eo
    (_orders
       (after (transition (after (create_order (mk ∅) "ORD-1" ∅ (of_Z 0)))
                 "ORD-1" SUBMITTED None (of_Z 1))) !! "ORD-1").
  match type of Eo with
  | _ = Some ?o =>
      destruct (history_is_path_when_creation_is_plain
                  (after (transition
                            (after (create_order (mk ∅) "ORD-1" ∅ (of_Z 0)))
                            "ORD-1" SUBMITTED None (of_Z 1))))
        with "ORD-1" o as (p & Hp & Hr);
      [ apply reach_transition;
        apply (reach_create (mk ∅) "ORD-1" ∅ (of_Z 0));
        [apply reach_empty | apply lookup_empty | apply lookup_empty]
      | exact Eo
      | exists o, p; split; [exact Eo | split; assumption] ]
  end.
Defined.

(** X33.  A call touches one order only.  [create_order] and [transition]
    leave every order other than the one named exactly as it was, and
    neither removes an order; [transition] on an id the machine does not
    hold raises [KeyError], and [create_order] on an id it holds raises
    [ValueError], both leaving the machine as it was. *)
Theorem calls_touch_one_order (sm : t) (order_id : string)
    (order_data : gmap string pyval) (new_state : OrderState)
    (metadata : option (gmap string scalar)) (now : Qc) :
  let created := create_order sm order_id order_data now in
  let moved := transition sm order_id new_state metadata now in
  (forall other, other <> order_id ->
     _orders (after created) !! other = _orders sm !! other /\
     _orders (after moved) !! other = _orders sm !! other) /\
  is_Some (_orders (after created) !! order_id) /\
  (is_Some (_orders (after moved) !! order_id)
   <-> is_Some (_orders sm !! order_id)) /\
  (_orders sm !! order_id = None -> moved = Raised KeyError sm) /\
  (is_Some (_orders sm !! order_id) -> created = Raised ValueError sm).
Proof.
  cbv zeta.
  assert (Hmoved : after (transition sm order_id new_state metadata now) = sm
                   \/ exists order',
                       is_Some (_orders sm !! order_id) /\
                       after (transition sm order_id new_state metadata now)
                       = mk (<[order_id := order']> (_orders sm))).
  { unfold transition.
    destruct (_orders sm !! order_id) as [order |]; [| now left].
    destruct (order !! "state") as [[v | ?] |]; try now left.
    destruct (state_like v); [| now left].
    destruct (_ || _); [now left |].
    destruct (perform order new_state metadata now) as [order' failure].
    right. exists order'. split; [eexists; reflexivity |].
    destruct failure; [reflexivity |].
    destruct v; reflexivity. }
  assert (Hcreated : (is_Some (_orders sm !! order_id) /\
                      create_order sm order_id order_data now
                      = Raised ValueError sm)
                     \/ exists order,
                         _orders sm !! order_id = None /\
                         after (create_order sm order_id order_data now)
                         = mk (<[order_id := order]> (_orders sm))).
  { unfold create_order.
    destruct (_orders sm !! order_id) as [order |].
    - left. split; [eexists |]; reflexivity.
    - right. eexists. split; reflexivity. }
  split; [| split; [| split; [| split]]].
  - intros other Hne. split.
    + destruct Hcreated as [[_ ->] | (order & _ & ->)]; [reflexivity |].
      cbn [after _orders]. now rewrite lookup_insert_ne by congruence.
    + destruct Hmoved as [-> | (order' & _ & ->)]; [reflexivity |].
      cbn [_orders]. now rewrite lookup_insert_ne by congruence.
  - destruct Hcreated as [[Hs ->] | (order & _ & ->)]; [exact Hs |].
    cbn [_orders]. rewrite lookup_insert_eq. eexists; reflexivity.
  - destruct Hmoved as [-> | (order' & Hs & ->)]; [reflexivity |].
    cbn [_orders]. rewrite lookup_insert_eq.
    split; [intros _; exact Hs | intros _; eexists; reflexivity].
  - intros Hnone. unfold transition. now rewrite Hnone.
  - intros Hs. destruct Hcreated as [[_ H] | (order & Hn & _)]; [exact H |].
    rewrite Hn in Hs. destruct Hs as [? Hs]. discriminate Hs.
Qed.

(** X21.  What a returned transition writes into the order.  The order's
    ["order_id"] and ["created_at"] are kept; every metadata entry whose
    key is not one of the four protected keys is copied into the order,
    ["updated_at"] included; and a key that is neither in the metadata
    nor one of ["state"], ["updated_at"], ["history"] keeps its value. *)
Theorem transition_merges_metadata (sm sm' : t) (order_id : string)
    (order order' : gmap string pyval) (new_state : OrderState)
    (metadata : option (gmap string scalar)) (now : Qc) :
  _orders sm !! order_id = Some order ->
  transition sm order_id new_state metadata now = Returned order' sm' ->
  order' !! "order_id" = order !! "order_id" /\
  order' !! "created_at" = order !! "created_at" /\
  (forall k v, default ∅ metadata !! k = Some v -> k ∉ protected_keys ->
     order' !! k = Some (Scalar v)) /\
  (forall k, default ∅ metadata !! k = None ->
     k ∉ ["state"; "updated_at"; "history"] ->
     order' !! k = order !! k).
Proof.
  intros Ho Ht.
  destruct (transition_returned _ _ _ _ _ _ _ Ht)
    as (order0 & old & h & Ho' & _ & _ & _ & _ & -> & _).
  rewrite Ho in Ho'. injection Ho' as <-.
  split; [| split; [| split]].
  - rewrite merge_keeps by (unfold protected_keys; set_solver).
    now rewrite !lookup_insert_ne by discriminate.
  - rewrite merge_keeps by (unfold protected_keys; set_solver).
    now rewrite !lookup_insert_ne by discriminate.
  - intros k v Hk Hnp. destruct metadata as [md |]; cbn [default] in Hk.
    + unfold merge_metadata. apply lookup_union_Some_l.
      rewrite lookup_fmap.
      rewrite (map_lookup_filter_Some_2 _ md k v Hk Hnp). reflexivity.
    + rewrite lookup_empty in Hk. discriminate.
  - intros k Hk Hnot. rewrite !not_elem_of_cons in Hnot.
    destruct Hnot as (? & ? & ? & _).
    assert (Hkeep : merge_metadata metadata
                      (<["history" := History
                           (h ++ [mkEntry (value new_state) now metadata])]>
                         (<["updated_at" := Scalar (SNum now)]>
                            (<["state" := Scalar (SState new_state)]> order)))
                      !! k
                    = order !! k).
    { destruct metadata as [md |]; cbn [default merge_metadata] in *.
      - rewrite lookup_union_r.
        + now rewrite !lookup_insert_ne by congruence.
        + rewrite lookup_fmap.
          destruct (filter _ md !! k) as [v |] eqn:E; [| reflexivity].
          apply map_lookup_filter_Some in E as [E _]. unfold id in Hk.
          congruence.
      - now rewrite !lookup_insert_ne by congruence. }
    exact Hkeep.
Qed.

Lemma transition_merges_metadata_witness :
  let sm := after (create_order (mk ∅) "ORD-1" ∅ (of_Z 0)) in
  exists order order' sm',
    _orders sm !! "ORD-1" = Some order /\
    transition sm "ORD-1" SUBMITTED
      (Some {[ "updated_at" := SStr "later"; "order_id" := SStr "other" ]})
      (of_Z 1)
    = Returned order' sm' /\
    order' !! "order_id" = order !! "order_id" /\
    order' !! "updated_at" = Some (Scalar (SStr "later")).
Proof.
  cbv zeta.
  evaluate_as Eo
    (_orders (after (create_order (mk ∅) "ORD-1" ∅ (of_Z 0))) !! "ORD-1").
  evaluate_as Et
    (transition (after (create_order (mk ∅) "ORD-1" ∅ (of_Z 0)))
       "ORD-1" SUBMITTED
       (Some {[ "updated_at" := SStr "later"; "order_id" := SStr "other" ]})
       (of_Z 1)).
  match type of Eo with
  | _ = Some ?o =>
      match type of Et with
      | _ = Returned ?o' ?s' =>
          exists o, o', s';
          destruct (transition_merges_metadata _ _ _ _ _ _ _ _ Eo Et)
            as (H1 & _ & H3 & _)
      end
  end.
  split; [exact Eo |]. split; [exact Et |]. split; [exact H1 |].
  apply H3; [vm_compute; reflexivity |].
  clear. unfold protected_keys. rewrite !not_elem_of_cons.
  repeat split; [discriminate .. | apply not_elem_of_nil].
Defined.

(** X22.  No order ever expires.  In a machine built by [create_order] calls
    whose data carries neither ["state"] nor ["history"], and by
    [transition] calls, no order is in state EXPIRED: no permitted edge
    leads there. *)
Theorem expired_is_never_reached (sm : t) (order_id : string)
    (order : gmap string pyval) :
  reachable sm ->
  _orders sm !! order_id = Some order ->
  order !! "state" <> Some (Scalar (SState EXPIRED)).
Proof.
  intros Hreach Ho.
  assert (Hsound : sound sm).
  { clear Ho. induction Hreach
      as [| sm id data now _ IH Hst Hhi | sm id new md now _ IH].
    - intros id o H. cbn in H. rewrite lookup_empty in H. discriminate H.
    - now apply sound_create.
    - now apply sound_transition. }
  destruct (Hsound order_id order Ho)
    as (p & (Hhead & Hpath & _) & h & cur & _ & _ & Hlast & Hstate).
  rewrite Hstate. intros [= ->].
  apply (last_of_path_is_not_expired p Hpath); [| exact Hlast].
  rewrite Hhead. discriminate.
Qed.

Lemma expired_is_never_reached_witness :
  let sm := after (create_order (mk ∅) "ORD-1" ∅ (of_Z 0)) in
  exists order,
    _orders sm !! "ORD-1" = Some order /\
    order !! "state" <> Some (Scalar (SState EXPIRED)).
Proof.
  cbv zeta.
  evaluate_as Eo
    (_orders (after (create_order (mk ∅) "ORD-1" ∅ (of_Z 0))) !! "ORD-1").
  match type of Eo with
  | _ = Some ?o => exists o; split; [exact Eo |]
  end.
  apply (expired_is_never_reached
           (after (create_order (mk ∅) "ORD-1" ∅ (of_Z 0))) "ORD-1");
    [| exact Eo].
  apply (reach_create (mk ∅) "ORD-1" ∅ (of_Z 0));
    [apply reach_empty | apply lookup_empty | apply lookup_empty].
Defined.

(** X23.  A transition that fails while appending has already moved the order.
    When the order's ["history"] is missing or is not a list, a permitted
    transition raises ([KeyError], or [AttributeError]) only after
    ["state"] and ["updated_at"] have been written: the machine now holds
    the order in the new state, with no history entry for it. *)
Theorem failed_append_keeps_state_change (sm : t) (order_id : string)
    (order : gmap string pyval) (old new_state : OrderState)
    (metadata : option (gmap string scalar)) (now : Qc) :
  _orders sm !! order_id = Some order ->
  order !! "state" = Some (Scalar (SState old)) ->
  old ∉ _TERMINAL_STATES -> allowed old new_state = true ->
  (forall h, order !! "history" <> Some (History h)) ->
  let moved :=
    <["updated_at" := Scalar (SNum now)]>
      (<["state" := Scalar (SState new_state)]> order) in
  transition sm order_id new_state metadata now
  = Raised (match order !! "history" with
            | None => KeyError
            | Some _ => AttributeError
            end)
           (mk (<[order_id := moved]> (_orders sm))) /\
  moved !! "state" = Some (Scalar (SState new_state)) /\
  moved !! "history" = order !! "history".
Proof.
  intros Ho Hs Ht Ha Hh. cbv zeta. split; [| split].
  - unfold transition. rewrite Ho, Hs. cbn [state_like].
    rewrite (bool_decide_eq_false_2 _ Ht), Ha. cbn [orb negb].
    unfold perform.
    rewrite lookup_insert_ne by discriminate.
    rewrite lookup_insert_ne by discriminate.
    destruct (order !! "history") as [[v | h] |] eqn:E; try reflexivity.
    exfalso. exact (Hh h eq_refl).
  - rewrite lookup_insert_ne by discriminate. apply lookup_insert_eq.
  - now rewrite !lookup_insert_ne by discriminate.
Qed.

Lemma failed_append_keeps_state_change_witness :
  let sm := after (create_order (mk ∅) "ORD-1"
                     {[ "history" := Scalar SNone ]} (of_Z 0)) in
  exists sm' order',
    transition sm "ORD-1" SUBMITTED None (of_Z 1)
    = Raised AttributeError sm' /\
    _orders sm' !! "ORD-1" = Some order' /\
    order' !! "state" = Some (Scalar (SState SUBMITTED)).
Proof.
  cbv zeta.
  evaluate_as Eo
    (_orders (after (create_order (mk ∅) "ORD-1"
                       {[ "history" := Scalar SNone ]} (of_Z 0)))
       !! "ORD-1").
  match type of Eo with
  | _ = Some ?o =>
      assert (Hstate : o !! "state" = Some (Scalar (SState CREATED)))
        by (vm_compute; reflexivity);
      assert (Hhist : o !! "history" = Some (Scalar SNone))
        by (vm_compute; reflexivity);
      destruct (failed_append_keeps_state_change
                  (after (create_order (mk ∅) "ORD-1"
                            {[ "history" := Scalar SNone ]} (of_Z 0)))
                  "ORD-1" o CREATED SUBMITTED None (of_Z 1) Eo Hstate)
        as (Hraise & Hmoved & _)
  end.
  - clear. unfold _TERMINAL_STATES. rewrite !not_elem_of_cons.
    repeat split; [discriminate .. | apply not_elem_of_nil].
  - reflexivity.
  - intros h Hh. rewrite Hhist in Hh. discriminate Hh.
  - rewrite Hhist in Hraise. eexists. eexists.
    split; [exact Hraise |]. split; [apply lookup_insert_eq | exact Hmoved].
Defined.

End OrderSMFrame.

(** ** The grade allocator: smaller requests and empty limits *)

Module GradeAllocLimits.
Import Num Enums GradeAlloc.

Lemma sum_grade_cons (p : position) (positions : list position) (g : string) :
  _sum_grade_pct (p :: positions) g
  = ((if decide (p_grade p = Some g) then pct_of p else 0)
     + _sum_grade_pct positions g)%Qc.
Proof.
  unfold _sum_grade_pct.
  destruct (decide (p_grade p = Some g)) as [H | H].
  - rewrite filter_cons_True by exact H. reflexivity.
  - rewrite filter_cons_False by exact H. cbn. ring.
Qed.

Lemma sum_grade_nonneg (positions : list position) (g : string) :
  Forall (fun p => (0 ≤ pct_of p)%Qc) positions ->
  (0 ≤ _sum_grade_pct positions g)%Qc.
Proof.
  induction 1 as [| p positions Hp _ IH].
  - apply Qcle_refl.
  - rewrite sum_grade_cons.
    destruct (decide (p_grade p = Some g)).
    + now apply Qcplus_nonneg_nonneg.
    + now rewrite Qcplus_0_l.
Qed.

(** What passing means, read off the three tests. *)
Lemma passed_inv (a : t) (sg : signal) (positions : list position)
    (regime : MarketRegime) :
  passed (validate_allocation a sg positions regime) = true <->
  exists alloc,
    _allocation a regime = Some alloc /\
    (_sum_grade_pct positions (default "" (sig_grade sg))
     + default 0 (sig_position_pct sg)
     ≤ _grade_limit alloc (default "" (sig_grade sg)))%Qc /\
    (_sum_sector_pct positions (default "UNKNOWN" (sig_sector sg))
     + default 0 (sig_position_pct sg) ≤ _sector_max_pct a)%Qc /\
    (cash_pct alloc
     ≤ of_Z 100 - (_sum_all_pct positions + default 0 (sig_position_pct sg)))%Qc.
Proof.
  unfold validate_allocation.
  destruct (_allocation a regime) as [alloc |].
  2:{ split; [discriminate | intros (? & H & _); discriminate H]. }
  destruct (decide (_ < _)%Qc) as [Hg | Hg].
  { split; [discriminate |]. intros (? & [= <-] & H & _).
    exfalso. exact (Qcle_not_lt _ _ H Hg). }
  destruct (decide (_ < _)%Qc) as [Hs | Hs].
  { split; [discriminate |]. intros (? & [= <-] & _ & H & _).
    exfalso. exact (Qcle_not_lt _ _ H Hs). }
  destruct (decide (_ < _)%Qc) as [Hc | Hc].
  { split; [discriminate |]. intros (? & [= <-] & _ & _ & H).
    exfalso. exact (Qcle_not_lt _ _ H Hc). }
  split; [| reflexivity]. intros _. exists alloc.
  repeat split; try reflexivity; now apply Qcnot_lt_le.
Qed.

(** X25.  A smaller request passes where a larger one did.  If a signal passes,
    so does every signal of the same grade and sector that asks for no
    more. *)
Theorem smaller_request_still_passes (a : t) (sg sg' : signal)
    (positions : list position) (regime : MarketRegime) :
  sig_grade sg' = sig_grade sg ->
  sig_sector sg' = sig_sector sg ->
  (default 0 (sig_position_pct sg') ≤ default 0 (sig_position_pct sg))%Qc ->
  passed (validate_allocation a sg positions regime) = true ->
  passed (validate_allocation a sg' positions regime) = true.
Proof.
  intros Hgrade Hsector Hle Hpass.
  apply passed_inv in Hpass as (alloc & Ha & Hg & Hs & Hc).
  apply passed_inv. exists alloc. rewrite Hgrade, Hsector.
  split; [exact Ha |].
  set (pct := default 0%Qc (sig_position_pct sg)) in *.
  set (pct' := default 0%Qc (sig_position_pct sg')) in *.
  set (x1 := _sum_grade_pct _ _) in *. set (x2 := _sum_sector_pct _ _) in *.
  set (x3 := _sum_all_pct _) in *. set (l1 := _grade_limit _ _) in *.
  set (l2 := _sector_max_pct _) in *. set (l3 := cash_pct _) in *.
  clearbody pct pct' x1 x2 x3 l1 l2 l3.
  repeat split.
  - revert Hle Hg. qc_to_q. lra.
  - revert Hle Hs. qc_to_q. lra.
  - revert Hle Hc. qc_to_q. lra.
Qed.

Lemma smaller_request_still_passes_witness :
  passed (validate_allocation init
            (mkSignal (Some "005930") (Some "A") (Some (of_Z 5)) (Some "IT"))
            [mkPosition (Some "A") (Some (of_Z 20)) (Some "IT")] BULL)
  = true.
Proof.
  apply (smaller_request_still_passes init
           (mkSignal (Some "000660") (Some "A") (Some (of_Z 10)) (Some "IT"))
           (mkSignal (Some "005930") (Some "A") (Some (of_Z 5)) (Some "IT"))
           [mkPosition (Some "A") (Some (of_Z 20)) (Some "IT")] BULL).
  - reflexivity.
  - reflexivity.
  - vm_compute. discriminate.
  - vm_compute. reflexivity.
Defined.

(** X34.  A grade with no share gets nothing.  Where the regime gives a grade a
    limit of zero (every grade other than A, B and C; C in a bear market;
    B and C in a strong bear market), a signal that asks for a positive
    percentage is refused on the grade limit, whatever else the portfolio
    holds, as long as no position has a negative percentage. *)
Theorem zero_limit_grade_is_refused (a : t) (sg : signal)
    (positions : list position) (regime : MarketRegime)
    (alloc : RegimeAllocation) :
  _allocation a regime = Some alloc ->
  _grade_limit alloc (default "" (sig_grade sg)) = 0%Qc ->
  (0 < default 0 (sig_position_pct sg))%Qc ->
  Forall (fun p => (0 ≤ pct_of p)%Qc) positions ->
  exists projected current,
    validate_allocation a sg positions regime
    = GradeLimit projected 0%Qc current
        (default 0%Qc (sig_position_pct sg)).
Proof.
  intros Ha Hzero Hpos Hnn. unfold validate_allocation. rewrite Ha, Hzero.
  pose proof (sum_grade_nonneg positions (default "" (sig_grade sg)) Hnn)
    as Hcur.
  destruct (decide (_ < _)%Qc) as [_ | Hn].
  - eexists. eexists. reflexivity.
  - exfalso. apply Hn.
    set (cur := _sum_grade_pct _ _) in *.
    set (pct := default 0%Qc (sig_position_pct sg)) in *.
    clearbody cur pct. revert Hpos Hcur. qc_to_q. lra.
Qed.

Lemma zero_limit_grade_is_refused_witness :
  exists projected current,
    validate_allocation init
      (mkSignal (Some "005930") (Some "C") (Some (of_Z 1)) (Some "IT"))
      [] BEAR
    = GradeLimit projected 0%Qc current
        (default 0%Qc (sig_position_pct
                      (mkSignal (Some "005930") (Some "C") (Some (of_Z 1))
                         (Some "IT")))).
Proof.
  apply (zero_limit_grade_is_refused init
           (mkSignal (Some "005930") (Some "C") (Some (of_Z 1)) (Some "IT"))
           [] BEAR (mkAlloc (of_Z 15) (of_Z 10) (of_Z 0) (of_Z 75))).
  - reflexivity.
  - apply Qc_is_canon. vm_compute. reflexivity.
  - vm_compute. reflexivity.
  - constructor.
Defined.

End GradeAllocLimits.

(** ** The risk pipeline: what a verdict leaves behind *)

Module RiskPipeline.
Import Num Enums RiskManager.

(** [H : t = v], with [v] the value [t] evaluates to. *)
Ltac value_of H t :=
  let v := eval vm_compute in t in
  assert (H : t = v) by (vm_compute; reflexivity).

(** Walks through the branches of [validate_signal] laid out in [H],
    innermost test first, and drops the branches whose result differs
    from the one [H] states. *)
Ltac walk H :=
  repeat first
    [ discriminate H
    | match type of H with
      | context [match ?x with _ => _ end] =>
          lazymatch x with
          | context [match _ with _ => _ end] => fail
          | _ => let E := fresh "E" in destruct x eqn:E
          end
      end ].

Lemma reserved_strategies (s lock : PositionLock.t) (o : PositionLock.outcome)
    (stock grade_ : string) (pct : Qc) (strategy stock' k : string) :
  PositionLock.check_and_reserve s stock grade_ pct strategy = (o, lock) ->
  PositionLock.e_strategies (PositionLock.get_stock_exposure lock stock') !! k
  = if PositionLock.ok o && bool_decide (stock' = stock /\ k = strategy)
    then Some (default 0%Qc
                 (PositionLock.e_strategies
                    (PositionLock.get_stock_exposure s stock) !! strategy)
               + pct)%Qc
    else PositionLock.e_strategies
           (PositionLock.get_stock_exposure s stock') !! k.
Proof.
  intros E.
  pose proof (PositionLockExposure.reserve_strategies s stock grade_ pct
                strategy stock' k) as H.
  rewrite E in H. exact H.
Qed.

Lemma refused_order_reserves_nothing (g g' : Margin.t) (now1 now2 : Qc)
    (q : Margin.balance_query) (stock : string) (quantity price : Z)
    (order_type : string) (v : Margin.verdict) :
  Margin.validate_order g now1 now2 q stock quantity price order_type
  = (v, g') ->
  Margin.verdict_ok v = false ->
  Margin.pending_reservations g' = Margin.pending_reservations g.
Proof.
  unfold Margin.validate_order.
  destruct (decide (Margin.upper order_type = "SELL"));
    [intros [= <- <-]; discriminate |].
  destruct (Margin._get_available_cash g now1 q) as [av s1] eqn:E.
  assert (Hp : Margin.pending_reservations s1 = Margin.pending_reservations g).
  { unfold Margin._get_available_cash in E. injection E as _ <-.
    destruct (decide _); [| reflexivity]. destruct q; reflexivity. }
  destruct (decide (av < _)); intros [= <- <-]; [| discriminate].
  intros _. exact Hp.
Qed.

(** X28.  A rejected signal holds no reservation.  When [validate_signal]
    rejects, every strategy of every stock holds in the position lock
    what it held before the call, except that after a rejection in step 8
    or 9 the signal's own strategy holds nothing on the signal's stock,
    whatever it held before; and the margin guard's pending reservations
    are what they were. *)
Theorem rejected_signal_holds_no_reservation
    (rm rm' : t) (w : world) (sg : signal)
    (current_positions : list GradeAlloc.position) (regime : MarketRegime)
    (total_capital : Z) (daily monthly cumulative : Qc) (current_capital : Z)
    (step : Z) (step_name : string) (reason : why) :
  validate_signal rm w sg current_positions regime total_capital daily
    monthly cumulative current_capital
  = (Rejects step step_name reason, rm') ->
  (forall stock k,
     PositionLock.e_strategies
       (PositionLock.get_stock_exposure (_global_lock rm') stock) !! k
     = if bool_decide (stock = default "" (sig_stock_code sg)
                       /\ k = default "" (sig_strategy_code sg))
          && (8 <=? step)
       then None
       else PositionLock.e_strategies
              (PositionLock.get_stock_exposure (_global_lock rm) stock) !! k)
  /\ Margin.pending_reservations <$> _margin_guard rm'
     = Margin.pending_reservations <$> _margin_guard rm.
Proof.
  intros H. unfold validate_signal in H. walk H;
    injection H as <- <- <- <-; cbn [_global_lock _margin_guard];
    repeat match goal with
           | E : negb _ = true |- _ => apply negb_true_iff in E
           | E : negb _ = false |- _ => apply negb_false_iff in E
           end;
    (split; [intros stock k |]);
    rewrite ?andb_false_r; try reflexivity.
  all: try (rewrite ?PositionLockExposure.release_strategies;
            match goal with
            | E : PositionLock.check_and_reserve _ _ _ _ _ = _ |- _ =>
                rewrite (reserved_strategies _ _ _ _ _ _ _ _ _ E)
            end;
            match goal with
            | E : PositionLock.ok _ = _ |- _ => rewrite E
            end;
            cbn [andb]; rewrite ?andb_true_r;
            try destruct (bool_decide _); reflexivity).
  all: match goal with
       | E : Margin.validate_order _ _ _ _ _ _ _ _ = _,
         E' : Margin.verdict_ok _ = false |- _ =>
           cbn [fmap option_fmap option_map];
           rewrite (refused_order_reserves_nothing _ _ _ _ _ _ _ _ _ _ E E');
           reflexivity
       end.
Qed.

Lemma rejected_signal_holds_no_reservation_witness :
  PositionLock.e_strategies
    (PositionLock.get_stock_exposure
       (_global_lock
          (validate_signal
             (mk GradeAlloc.init
                (PositionLock.check_and_reserve PositionLock.init "005930"
                   "A" (of_Z 2) "S1").2
                (fun _ => true) None None None)
             (mkWorld (PyTime.mkDatetime 2025 3 4 10 0 0 0) 0%Qc 0%Qc
                Margin.NoFunction)
             (mkSignal (Some "005930") (Some "S1") (Some "A") (Some 50000)
                (Some 47500) (Some 4) (Some "BUY") (Some "IT"))
             [] BULL 100000000 0%Qc 0%Qc 0%Qc 0).2)
       "005930") !! "S1"
  = None.
Proof.
  value_of E
    (validate_signal
       (mk GradeAlloc.init
          (PositionLock.check_and_reserve PositionLock.init "005930"
             "A" (of_Z 2) "S1").2
          (fun _ => true) None None None)
       (mkWorld (PyTime.mkDatetime 2025 3 4 10 0 0 0) 0%Qc 0%Qc
          Margin.NoFunction)
       (mkSignal (Some "005930") (Some "S1") (Some "A") (Some 50000)
          (Some 47500) (Some 4) (Some "BUY") (Some "IT"))
       [] BULL 100000000 0%Qc 0%Qc 0%Qc 0).
  destruct (rejected_signal_holds_no_reservation _ _ _ _ _ _ _ _ _ _ _ _ _ _ E)
    as [H _].
  rewrite E. cbn [snd]. rewrite H. vm_compute. reflexivity.
Defined.

(** What a call that passes went through. *)
Lemma passes_inv
    (rm rm' : t) (w : world) (sg : signal)
    (current_positions : list GradeAlloc.position) (regime regime' : MarketRegime)
    (total_capital : Z) (daily monthly cumulative : Qc) (current_capital : Z)
    (stock strategy grade_ : string) (sizing : Sizer.result) :
  validate_signal rm w sg current_positions regime total_capital daily
    monthly cumulative current_capital
  = (Passes stock strategy grade_ regime' sizing, rm') ->
  stock = default "" (sig_stock_code sg) /\
  strategy = default "" (sig_strategy_code sg) /\
  grade_ = default "C" (sig_grade sg) /\
  Sizer.accepted sizing = true /\
  GradeAlloc.passed
    (GradeAlloc.validate_allocation (_grade_allocator rm)
       (GradeAlloc.mkSignal (sig_stock_code sg) (sig_grade sg)
          (Some (Sizer.position_pct sizing * of_Z 100)%Qc) (sig_sector sg))
       current_positions regime) = true /\
  (exists o,
     PositionLock.check_and_reserve (_global_lock rm) stock grade_
       (Sizer.position_pct sizing * of_Z 100)%Qc strategy
     = (o, _global_lock rm') /\
     PositionLock.ok o = true) /\
  _vi_monitor rm stock = false /\
  match _drawdown_protocol rm with
  | None => _drawdown_protocol rm' = None
  | Some d =>
      exists resp d',
        Drawdown.evaluate_and_respond d (w_now w) daily monthly cumulative
        = (resp, d') /\
        Drawdown.r_trading_halted resp = false /\
        _drawdown_protocol rm' = Some d'
  end /\
  match _kill_switch rm with
  | None => _kill_switch rm' = None
  | Some k =>
      exists k',
        KillSwitch.check k (if decide (current_capital > 0)
                            then current_capital else total_capital)
        = (true, k') /\
        _kill_switch rm' = Some k'
  end /\
  match _margin_guard rm with
  | None => _margin_guard rm' = None
  | Some g =>
      exists mv g',
        Margin.validate_order g (w_cash_clock w) (w_key_clock w)
          (w_balance w) stock (Sizer.quantity sizing)
          (default 0 (sig_entry_price sg)) (default "BUY" (sig_action sg))
        = (mv, g') /\
        Margin.verdict_ok mv = true /\
        _margin_guard rm' = Some g'
  end.
Proof.
  intros H. unfold validate_signal in H. walk H;
    injection H as <- <- <- <- <- <-;
    cbn [_global_lock _margin_guard _kill_switch _drawdown_protocol
         scale_sizing Sizer.accepted Sizer.position_pct Sizer.quantity];
    repeat match goal with
           | E : negb _ = false |- _ => apply negb_false_iff in E
           end;
    subst;
    repeat (split; [first [reflexivity | assumption | eauto] |]);
    eauto 6.
Qed.



(** X30.  A signal without a grade A, B or C gets no position.  The sizer
    treats a missing or unknown grade as C, but the allocator reads the
    grade as given and gives it no share: with no negative position in
    the portfolio, such a signal passes only with a position percentage
    that is not positive. *)
Theorem ungraded_signal_gets_no_position
    (rm rm' : t) (w : world) (sg : signal)
    (current_positions : list GradeAlloc.position) (regime regime' : MarketRegime)
    (total_capital : Z) (daily monthly cumulative : Qc) (current_capital : Z)
    (stock strategy grade_ : string) (sizing : Sizer.result) :
  sig_grade sg <> Some "A" -> sig_grade sg <> Some "B" ->
  sig_grade sg <> Some "C" ->
  Forall (fun p => (0 ≤ GradeAlloc.pct_of p)%Qc) current_positions ->
  validate_signal rm w sg current_positions regime total_capital daily
    monthly cumulative current_capital
  = (Passes stock strategy grade_ regime' sizing, rm') ->
  (Sizer.position_pct sizing * of_Z 100 ≤ 0)%Qc.
Proof.
  intros HA HB HC Hnn H.
  destruct (passes_inv _ _ _ _ _ _ _ _ _ _ _ _ _ _ _ _ H)
    as (_ & _ & _ & _ & Halloc & _).
  apply GradeAllocLimits.passed_inv in Halloc
    as (alloc & _ & Hg & _).
  cbn [GradeAlloc.sig_grade GradeAlloc.sig_position_pct] in Hg.
  change (default 0%Qc (Some (Sizer.position_pct sizing * of_Z 100)%Qc))
    with (Sizer.position_pct sizing * of_Z 100)%Qc in Hg.
  assert (Hlim : GradeAlloc._grade_limit alloc (default "" (sig_grade sg))
                 = 0%Qc).
  { unfold GradeAlloc._grade_limit.
    destruct (sig_grade sg) as [g |]; cbn [default]; unfold id.
    - destruct (decide (g = "A")) as [-> |]; [contradiction |].
      destruct (decide (g = "B")) as [-> |]; [contradiction |].
      destruct (decide (g = "C")) as [-> |]; [contradiction |].
      reflexivity.
    - reflexivity. }
  rewrite Hlim in Hg.
  pose proof (GradeAllocLimits.sum_grade_nonneg current_positions
                (default "" (sig_grade sg)) Hnn) as Hcur.
  set (cur := GradeAlloc._sum_grade_pct _ _) in *.
  set (pct := (Sizer.position_pct sizing * of_Z 100)%Qc) in *.
  clearbody cur pct. revert Hg Hcur. qc_to_q. lra.
Qed.

Lemma ungraded_signal_gets_no_position_witness :
  exists sizing rm',
    validate_signal
      (mk GradeAlloc.init PositionLock.init (fun _ => false) None None None)
      (mkWorld (PyTime.mkDatetime 2025 3 4 10 0 0 0) 0%Qc 0%Qc
         Margin.NoFunction)
      (mkSignal (Some "005930") (Some "S1") None (Some 50000)
         (Some 47500) (Some 4) (Some "BUY") (Some "IT"))
      [] BULL 100 0%Qc 0%Qc 0%Qc 0
    = (Passes "005930" "S1" "C" BULL sizing, rm') /\
    (Sizer.position_pct sizing * of_Z 100 ≤ 0)%Qc.
Proof.
  value_of E
    (validate_signal
       (mk GradeAlloc.init PositionLock.init (fun _ => false) None None None)
       (mkWorld (PyTime.mkDatetime 2025 3 4 10 0 0 0) 0%Qc 0%Qc
          Margin.NoFunction)
       (mkSignal (Some "005930") (Some "S1") None (Some 50000)
          (Some 47500) (Some 4) (Some "BUY") (Some "IT"))
       [] BULL 100 0%Qc 0%Qc 0%Qc 0).
  match type of E with
  | _ = (Passes _ _ _ _ ?sz, ?after) => exists sz, after
  end.
  split; [exact E |].
  eapply (ungraded_signal_gets_no_position _ _ _ _ _ _ _ _ _ _ _ _ _ _ _ _);
    [| | | | exact E].
  - intros X. discriminate X.
  - intros X. discriminate X.
  - intros X. discriminate X.
  - constructor.
Defined.

End RiskPipeline.
